(** * Deal-submission engine: a shallow embedding of [backend/server.py]

    The development follows the [FileProcessor] class of the backend:
    region location ([find_awg_header_row], [find_manufacturer_stop_row],
    [extract_cosentino_data]), the label-anchored scans
    ([extract_deal_header], [extract_ad_zone_id]), the transformation
    rules ([apply_transformation]), the row projection
    ([map_data_to_output]) and the request handler ([process_file]).

    Modelling conventions.
    - A Python [str] is a [string] of 8-bit characters; the character
      classes ([isspace], [isdigit], case mapping) are the ones Python
      gives to code points below 128, other characters are inert.
    - A Python [int] is a [Z].  A Python [float] is kept as the exact
      decimal it was read from ([pyfloat]); binary64 rounding and the
      exponent form of [repr] are not modelled.
    - A worksheet is the grid of its cell values; reading a cell outside
      the grid gives [None], as [Worksheet.cell] does.
    - A [dict] keyed by column names is a [gmap string _]; a dict that is
      iterated in insertion order is an association list.
    - Column names and rule names are text.
    - A raised exception is the left injection of a sum. *)

From Stdlib Require Import ZArith Lia Ascii String DecimalString.
From stdpp Require Import base option list strings gmap sorting.

Set Warnings "-clear-no-such-hyp".

Open Scope string_scope.

(** ** Python built-ins on [str] *)

Module Py.

(** [str.isspace] on code points below 128: TAB..CR, FS..US and SPACE. *)
Definition is_space (c : ascii) : bool :=
  let n := nat_of_ascii c in
  ((9 <=? n) && (n <=? 13) || (28 <=? n) && (n <=? 32))%nat.

Definition is_digit (c : ascii) : bool :=
  let n := nat_of_ascii c in ((48 <=? n) && (n <=? 57))%nat.

Definition is_upper (c : ascii) : bool :=
  let n := nat_of_ascii c in ((65 <=? n) && (n <=? 90))%nat.

Definition is_lower (c : ascii) : bool :=
  let n := nat_of_ascii c in ((97 <=? n) && (n <=? 122))%nat.

Definition is_alpha (c : ascii) : bool := is_upper c || is_lower c.

Definition lower_char (c : ascii) : ascii :=
  if is_upper c then ascii_of_nat (nat_of_ascii c + 32) else c.

Definition upper_char (c : ascii) : ascii :=
  if is_lower c then ascii_of_nat (nat_of_ascii c - 32) else c.

Fixpoint map_chars (f : ascii -> ascii) (s : string) : string :=
  match s with
  | "" => ""
  | String c s' => String (f c) (map_chars f s')
  end.

(** [s.lower()] and [s.upper()]. *)
Definition lower : string -> string := map_chars lower_char.
Definition upper : string -> string := map_chars upper_char.

Fixpoint filter_chars (keep : ascii -> bool) (s : string) : string :=
  match s with
  | "" => ""
  | String c s' =>
      if keep c then String c (filter_chars keep s') else filter_chars keep s'
  end.

Fixpoint all_chars (p : ascii -> bool) (s : string) : bool :=
  match s with
  | "" => true
  | String c s' => p c && all_chars p s'
  end.

(** The longest prefix of characters satisfying [p], and what follows. *)
Fixpoint span (p : ascii -> bool) (s : string) : string * string :=
  match s with
  | "" => ("", "")
  | String c s' =>
      if p c then let '(a, b) := span p s' in (String c a, b) else ("", s)
  end.

Definition nonempty (s : string) : bool :=
  match s with "" => false | _ => true end.

Fixpoint lstrip (s : string) : string :=
  match s with
  | "" => ""
  | String c s' => if is_space c then lstrip s' else s
  end.

Fixpoint rstrip (s : string) : string :=
  match s with
  | "" => ""
  | String c s' =>
      let r := rstrip s' in
      if is_space c && negb (nonempty r) then "" else String c r
  end.

(** [s.strip()]. *)
Definition strip (s : string) : string := rstrip (lstrip s).

(** [s.split()]: the maximal runs of non-whitespace characters. *)
Fixpoint split (s : string) : list string :=
  match s with
  | "" => []
  | String c s' =>
      if is_space c then split s'
      else
        match s' with
        | "" => [String c ""]
        | String d _ =>
            if is_space d then String c "" :: split s'
            else
              match split s' with
              | w :: ws => String c w :: ws
              | [] => [String c ""]
              end
        end
  end.

(** [sep.join(l)]. *)
Definition join (sep : string) (l : list string) : string :=
  String.concat sep l.

(** [s.startswith(p)]. *)
Definition startswith (p s : string) : bool := String.prefix p s.

(** [sub in s]. *)
Fixpoint contains (sub s : string) : bool :=
  String.prefix sub s
  || match s with
     | "" => false
     | String _ s' => contains sub s'
     end.

(** [s.split(sep)] for a one-character separator. *)
Fixpoint split_on (sep : ascii) (s : string) : list string :=
  match s with
  | "" => [""]
  | String c s' =>
      if Ascii.eqb c sep then "" :: split_on sep s'
      else
        match split_on sep s' with
        | w :: ws => String c w :: ws
        | [] => [String c ""]
        end
  end.

(** [s.split(sep, 1)[1]]: what follows the first separator. *)
Fixpoint after_first (sep : ascii) (s : string) : option string :=
  match s with
  | "" => None
  | String c s' => if Ascii.eqb c sep then Some s' else after_first sep s'
  end.

(** [x in l] for a list of strings. *)
Definition mem (x : string) (l : list string) : bool :=
  existsb (String.eqb x) l.

Fixpoint repeat_char (c : ascii) (n : nat) : string :=
  match n with
  | O => ""
  | S n' => String c (repeat_char c n')
  end.

(** [s.zfill(w)] for a string without a sign. *)
Definition zfill (w : nat) (s : string) : string :=
  repeat_char "0" (w - String.length s) ++ s.

(** [s.isdigit()]. *)
Definition isdigit (s : string) : bool := nonempty s && all_chars is_digit s.

Definition str_of_N (n : N) : string := NilZero.string_of_uint (N.to_uint n).

(** [str(n)] for an [int]. *)
Definition str_of_Z (n : Z) : string := NilZero.string_of_int (Z.to_int n).

(** Decimal digits, zero-padded on the left to width [w]. *)
Definition pad (w : nat) (n : Z) : string := zfill w (str_of_N (Z.to_N n)).

Definition digit_val (c : ascii) : N := N.of_nat (nat_of_ascii c - 48).

Fixpoint N_of_digits_go (acc : N) (s : string) : N :=
  match s with
  | "" => acc
  | String c s' => N_of_digits_go (acc * 10 + digit_val c) s'
  end.

(** [int(s)] for a string of decimal digits. *)
Definition N_of_digits : string -> N := N_of_digits_go 0.

End Py.

(** ** Cell values *)

(** A [float], kept as a decimal: [(-1)^neg * mant * 10^exp10]. *)
Inductive pyfloat :=
| FFin (neg : bool) (mant : N) (exp10 : Z)
| FInf (neg : bool)
| FNan.

Record datetime := mk_datetime {
  year : Z; month : Z; day : Z;
  hour : Z; minute : Z; second : Z; microsecond : Z
}.

(** The values openpyxl returns for a cell. *)
Inductive value :=
| VNone
| VBool (b : bool)
| VInt (n : Z)
| VFloat (f : pyfloat)
| VStr (s : string)
| VDate (d : datetime).

Definition float_truthy (f : pyfloat) : bool :=
  match f with
  | FFin _ m _ => negb (m =? 0)%N
  | _ => true
  end.

(** [bool(v)]. *)
Definition truthy (v : value) : bool :=
  match v with
  | VNone => false
  | VBool b => b
  | VInt n => negb (n =? 0)%Z
  | VFloat f => float_truthy f
  | VStr s => Py.nonempty s
  | VDate _ => true
  end.

(** [isinstance(v, str)], [isinstance(v, datetime)] and
    [isinstance(v, (int, float))]; [bool] is a subclass of [int]. *)
Definition is_str (v : value) : bool :=
  match v with VStr _ => true | _ => false end.

Definition is_datetime (v : value) : bool :=
  match v with VDate _ => true | _ => false end.

Definition is_number (v : value) : bool :=
  match v with VBool _ | VInt _ | VFloat _ => true | _ => false end.

Fixpoint rstrip_zeros (s : string) : string :=
  match s with
  | "" => ""
  | String c s' =>
      let r := rstrip_zeros s' in
      if Ascii.eqb c "0" && negb (Py.nonempty r) then "" else String c r
  end.

(** [repr] of a float in positional notation. *)
Definition float_str (f : pyfloat) : string :=
  match f with
  | FNan => "nan"
  | FInf neg => if neg then "-inf" else "inf"
  | FFin neg m e =>
      let sign := if neg then "-" else "" in
      if (0 <=? e)%Z then
        sign ++ Py.str_of_N (m * 10 ^ Z.to_N e) ++ ".0"
      else
        let k := Z.to_N (- e) in
        let frac :=
          rstrip_zeros (Py.zfill (N.to_nat k) (Py.str_of_N (m mod 10 ^ k))) in
        sign ++ Py.str_of_N (m / 10 ^ k) ++ "."
             ++ (if Py.nonempty frac then frac else "0")
  end.

(** [str(d)] for a datetime: ISO format with a space separator. *)
Definition datetime_str (d : datetime) : string :=
  Py.pad 4 (year d) ++ "-" ++ Py.pad 2 (month d) ++ "-" ++ Py.pad 2 (day d)
  ++ " " ++ Py.pad 2 (hour d) ++ ":" ++ Py.pad 2 (minute d) ++ ":"
  ++ Py.pad 2 (second d)
  ++ (if (microsecond d =? 0)%Z then "" else "." ++ Py.pad 6 (microsecond d)).

(** [str(v)]. *)
Definition py_str (v : value) : string :=
  match v with
  | VNone => "None"
  | VBool b => if b then "True" else "False"
  | VInt n => Py.str_of_Z n
  | VFloat f => float_str f
  | VStr s => s
  | VDate d => datetime_str d
  end.

(** [v == s] for a string [s]. *)
Definition eq_str (v : value) (s : string) : bool :=
  match v with VStr t => String.eqb t s | _ => false end.

(** ** [float(...)] and [int(...)] *)

(** One [digitpart] of the float grammar: digits, single underscores
    allowed between them.  Returns the digits and the rest. *)
Fixpoint take_digitpart (s : string) : string * string :=
  match s with
  | "" => ("", "")
  | String c s' =>
      if Py.is_digit c then
        match s' with
        | "" => (String c "", "")
        | String u t =>
            if Py.is_digit u then
              let '(ds, r) := take_digitpart s' in (String c ds, r)
            else if Ascii.eqb u "_" then
              match t with
              | String d _ =>
                  if Py.is_digit d then
                    let '(ds, r) := take_digitpart t in (String c ds, r)
                  else (String c "", s')
              | "" => (String c "", s')
              end
            else (String c "", s')
        end
      else ("", s)
  end.

Definition take_sign (s : string) : bool * string :=
  match s with
  | String "-" r => (true, r)
  | String "+" r => (false, r)
  | _ => (false, s)
  end.

(** The exponent suffix of a float literal: [None] when malformed. *)
Definition parse_exponent (s : string) : option Z :=
  match s with
  | "" => Some 0%Z
  | String c r =>
      if Ascii.eqb (Py.lower_char c) "e" then
        let '(neg, r1) := take_sign r in
        let '(ds, r2) := take_digitpart r1 in
        if Py.nonempty ds && negb (Py.nonempty r2) then
          let n := Z.of_N (Py.N_of_digits ds) in
          Some (if neg then (- n)%Z else n)
        else None
      else None
  end.

(** [float(s)] for a string; [None] stands for [ValueError]. *)
Definition float_of_string (s0 : string) : option pyfloat :=
  let '(neg, s) := take_sign (Py.strip s0) in
  let l := Py.lower s in
  if String.eqb l "inf" || String.eqb l "infinity" then Some (FInf neg)
  else if String.eqb l "nan" then Some FNan
  else
    let '(ip, r1) := take_digitpart s in
    let '(fp, r2) :=
      match r1 with
      | String "." r => take_digitpart r
      | _ => ("", r1)
      end in
    if Py.nonempty ip || Py.nonempty fp then
      match parse_exponent r2 with
      | Some e =>
          Some (FFin neg (Py.N_of_digits (ip ++ fp))
                     (e - Z.of_nat (String.length fp)))
      | None => None
      end
    else None.

Definition float_of_Z (n : Z) : pyfloat := FFin (n <? 0)%Z (Z.abs_N n) 0.

(** [float(v)]; [None] stands for [ValueError] or [TypeError]. *)
Definition float_of_value (v : value) : option pyfloat :=
  match v with
  | VStr s => float_of_string s
  | VInt n => Some (float_of_Z n)
  | VBool b => Some (float_of_Z (if b then 1 else 0))
  | VFloat f => Some f
  | VNone | VDate _ => None
  end.

(** [int(f)]: truncation towards zero; [None] for infinities and NaN. *)
Definition int_of_float (f : pyfloat) : option Z :=
  match f with
  | FFin neg m e =>
      let a := if (0 <=? e)%Z then (m * 10 ^ Z.to_N e)%N
               else (m / 10 ^ Z.to_N (- e))%N in
      Some (if neg then (- Z.of_N a)%Z else Z.of_N a)
  | _ => None
  end.

(** ** Calendar arithmetic of [datetime] *)

Module Calendar.
Open Scope Z_scope.

Definition MAXORDINAL : Z := 3652059.
Definition DI400Y : Z := 146097.
Definition DI100Y : Z := 36524.
Definition DI4Y : Z := 1461.

Definition is_leap (y : Z) : bool :=
  (y mod 4 =? 0) && (negb (y mod 100 =? 0) || (y mod 400 =? 0)).

Definition days_before_year (y : Z) : Z :=
  let p := y - 1 in p * 365 + p / 4 - p / 100 + p / 400.

Definition DAYS_BEFORE_MONTH : list Z :=
  [0; 0; 31; 59; 90; 120; 151; 181; 212; 243; 273; 304; 334].

Definition days_before_month (y m : Z) : Z :=
  nth (Z.to_nat m) DAYS_BEFORE_MONTH 0
  + (if (2 <? m) && is_leap y then 1 else 0).

(** [date(y, m, d).toordinal()]. *)
Definition ymd2ord (y m d : Z) : Z :=
  days_before_year y + days_before_month y m + d.

Definition DAYS_IN_MONTH : list Z :=
  [0; 31; 28; 31; 30; 31; 30; 31; 31; 30; 31; 30; 31].

(** Month and day of the day numbered [n] (from 0) of a year: the
    estimate [(n + 50) >> 5] of the month is lowered by one when it is
    too large. *)
Definition month_day (leapyear : bool) (n : Z) : Z * Z :=
  let m := Z.shiftr (n + 50) 5 in
  let preceding :=
    nth (Z.to_nat m) DAYS_BEFORE_MONTH 0
    + (if (2 <? m) && leapyear then 1 else 0) in
  if n <? preceding then
    let m' := m - 1 in
    let preceding' :=
      preceding
      - (nth (Z.to_nat m') DAYS_IN_MONTH 0
         + (if (m' =? 2) && leapyear then 1 else 0)) in
    (m', n - preceding' + 1)
  else (m, n - preceding + 1).

(** [date.fromordinal(n)] as (year, month, day). *)
Definition ord2ymd (n0 : Z) : Z * Z * Z :=
  let n := n0 - 1 in
  let n400 := n / DI400Y in
  let n := n mod DI400Y in
  let n100 := n / DI100Y in
  let n := n mod DI100Y in
  let n4 := n / DI4Y in
  let n := n mod DI4Y in
  let n1 := n / 365 in
  let n := n mod 365 in
  let y := n400 * 400 + 1 + n100 * 100 + n4 * 4 + n1 in
  if (n1 =? 4) || (n100 =? 4) then (y - 1, 12, 31)
  else
    let leapyear := (n1 =? 3) && (negb (n4 =? 24) || (n100 =? 3)) in
    let '(m, d) := month_day leapyear n in
    (y, m, d).

(** The days of a year before month [m], the year being leap or not. *)
Definition days_before_month_of (leap : bool) (m : Z) : Z :=
  nth (Z.to_nat m) DAYS_BEFORE_MONTH 0 + (if (2 <? m) && leap then 1 else 0).

(** The days of month [m], the year being leap or not. *)
Definition days_in_month_of (leap : bool) (m : Z) : Z :=
  nth (Z.to_nat m) DAYS_IN_MONTH 0 + (if (m =? 2) && leap then 1 else 0).

(** The days of month [m] of year [y]. *)
Definition days_in_month (y m : Z) : Z := days_in_month_of (is_leap y) m.

(** [month_day] lands on a month and a day of that month that add up to
    day [n]. *)
Definition month_day_ok (leap : bool) (n : Z) : bool :=
  let '(m, d) := month_day leap n in
  (1 <=? m) && (m <=? 12) && (1 <=? d) && (d <=? days_in_month_of leap m)
  && (days_before_month_of leap m + d =? n + 1).

(** Microseconds in a day. *)
Definition US_PER_DAY : Z := 86400000000.

(** Round a non-negative rational [a / b] to the nearest integer, ties
    to even. *)
Definition round_half_even (a b : Z) : Z :=
  let q := a / b in
  let r := a mod b in
  if 2 * r <? b then q
  else if b <? 2 * r then q + 1
  else if Z.even q then q else q + 1.

(** [timedelta(days=f)] in microseconds for a finite float. *)
Definition micros_of_days (neg : bool) (m : N) (e : Z) : Z :=
  let a := Z.of_N m * 864 in
  let s := e + 8 in
  let mag := if 0 <=? s then a * 10 ^ s else round_half_even a (10 ^ (- s)) in
  if neg then - mag else mag.

(** [datetime(y, m, d) + timedelta(microseconds=us)]; [None] stands
    for [OverflowError]. *)
Definition add_micros (base_ordinal : Z) (us : Z) : option datetime :=
  let ordinal := base_ordinal + us / US_PER_DAY in
  let r := us mod US_PER_DAY in
  if (1 <=? ordinal) && (ordinal <=? MAXORDINAL) then
    let '(y, m, d) := ord2ymd ordinal in
    let secs := r / 1000000 in
    Some (mk_datetime y m d (secs / 3600) (secs mod 3600 / 60) (secs mod 60)
                      (r mod 1000000))
  else None.

End Calendar.

(** [d.strftime(fmt)] for the directives [%Y %m %d %y %H %M %S %%];
    any other text is copied. *)
Fixpoint strftime (d : datetime) (fmt : string) : string :=
  match fmt with
  | "" => ""
  | String c rest =>
      if Ascii.eqb c "%" then
        match rest with
        | String k rest' =>
            let out :=
              if Ascii.eqb k "Y" then Some (Py.pad 4 (year d))
              else if Ascii.eqb k "m" then Some (Py.pad 2 (month d))
              else if Ascii.eqb k "d" then Some (Py.pad 2 (day d))
              else if Ascii.eqb k "y" then Some (Py.pad 2 (year d mod 100))
              else if Ascii.eqb k "H" then Some (Py.pad 2 (hour d))
              else if Ascii.eqb k "M" then Some (Py.pad 2 (minute d))
              else if Ascii.eqb k "S" then Some (Py.pad 2 (second d))
              else if Ascii.eqb k "%" then Some "%"
              else None in
            match out with
            | Some o => o ++ strftime d rest'
            | None => String c (strftime d rest)
            end
        | "" => "%"
        end
      else String c (strftime d rest)
  end.

(** ** Worksheets *)

(** The grid of cell values, row by row.  Rows and columns are numbered
    from 1. *)
Definition sheet := list (list value).

(** [sheet.max_row] and [sheet.max_column]; both are 1 on an empty sheet. *)
Definition max_row (sh : sheet) : nat := Nat.max 1 (length sh).

Definition max_column (sh : sheet) : nat :=
  Nat.max 1 (max_list (length <$> sh)).

(** [sheet.cell(row=r, column=c).value]. *)
Definition cell_value (sh : sheet) (r c : nat) : value :=
  match r, c with
  | S r', S c' => default VNone (sh !! r' ≫= (.!! c'))
  | _, _ => VNone
  end.

(** The cells of row [r], columns 1 to [max_column]: [sheet[r]]. *)
Definition row_values (sh : sheet) (r : nat) : list value :=
  cell_value sh r <$> seq 1 (max_column sh).

(** [enumerate(sheet.iter_rows(min_row=m, values_only=True), start=m)]. *)
Definition iter_rows (sh : sheet) (m : nat) : list (nat * list value) :=
  (λ r, (r, row_values sh r)) <$> seq m (S (max_row sh) - m).

(** ** Exceptions *)

Inductive exn :=
| ValueError (msg : string)
| HTTPException (status_code : nat) (detail : string)
| OtherError (msg : string).

(** [str(e)]. *)
Definition exn_str (e : exn) : string :=
  match e with
  | ValueError msg => msg
  | HTTPException st d => Py.str_of_N (N.of_nat st) ++ ": " ++ d
  | OtherError msg => msg
  end.

(** The messages of the two errors of a request. *)
Definition NO_HEADER_MESSAGE : string :=
  "Could not find 'AWG Item Code' header row".

Definition NO_MAPPING_DETAIL (company_ : string) : string :=
  "No mapping configuration found for company '" ++ company_
  ++ "' in Deal Submissions category. Please check your mapping rules.".

(** Truthiness of an [Optional[int]]. *)
Definition idx_truthy (o : option nat) : bool :=
  match o with Some (S _) => true | _ => false end.

(** ** Mapping repository *)

Record MappingIndexEntry := mk_index_entry {
  company : string;
  file_name_pattern : string;
  mapping_sheet_name : value;
  description : value;
  category : value
}.

Record ColumnMapping := mk_mapping {
  input_column_name : string;
  output_column_name : string;
  transformation_rule : string;
  notes : value
}.

(** [get_mapping_sheet_by_company]: the sheet name of the first entry that
    matches, else [None]. *)
Fixpoint get_mapping_sheet_by_company
    (file_mapping_index : list MappingIndexEntry)
    (company_ category_ : string) : value :=
  match file_mapping_index with
  | [] => VNone
  | mapping :: rest =>
      if String.eqb (company mapping) company_
         && eq_str (category mapping) category_
      then mapping_sheet_name mapping
      else get_mapping_sheet_by_company rest company_ category_
  end.

(** [load_column_mappings]: the rows of the named sheet of the mapping
    workbook, [[]] when there is no such sheet.  The workbook is given
    with its rows already decoded. *)
Definition load_column_mappings
    (mapping_rules : list (string * list ColumnMapping))
    (name : value) : list ColumnMapping :=
  match name with
  | VStr n =>
      match list_find (λ p, p.1 = n) mapping_rules with
      | Some (_, (_, rows)) => rows
      | None => []
      end
  | _ => []
  end.

(** ** Region locator *)

Definition HEADER_MARKER : string := "AWG Item Code".
Definition STOP_MARKER : string := "manufacturer".

Definition is_awg_cell (cell : value) : bool :=
  match cell with
  | VStr s => Py.nonempty s && Py.contains HEADER_MARKER s
  | _ => false
  end.

Fixpoint find_awg_header_row_in (rows : list (nat * list value)) : option nat :=
  match rows with
  | [] => None
  | (idx, row) :: rest =>
      if existsb is_awg_cell row then Some idx else find_awg_header_row_in rest
  end.

Definition find_awg_header_row (sh : sheet) : option nat :=
  find_awg_header_row_in (iter_rows sh 1).

(** Column B of a row holds the stop marker. *)
Definition is_stop_row (row : list value) : bool :=
  (1 <? length row)%nat
  && match row !! 1%nat with
     | Some (VStr s) => Py.nonempty s && Py.contains STOP_MARKER (Py.lower s)
     | _ => false
     end.

Fixpoint find_manufacturer_stop_row_in (rows : list (nat * list value))
  : option nat :=
  match rows with
  | [] => None
  | (idx, row) :: rest =>
      if is_stop_row row then Some idx else find_manufacturer_stop_row_in rest
  end.

Definition find_manufacturer_stop_row (sh : sheet) (start_row : nat)
  : option nat :=
  find_manufacturer_stop_row_in (iter_rows sh start_row).

Definition normalize_column_name (name : value) : value :=
  if negb (truthy name) then name
  else
    let normalized := Py.join " " (Py.split (py_str name)) in
    VStr (Py.strip normalized).

(** [headers[idx]] as a dictionary key, when it is truthy. *)
Definition header_key (h : value) : option string :=
  match h with
  | VStr k => if Py.nonempty k then Some k else None
  | _ => None
  end.

(** A cell value that is kept: not [None], and its string form starts
    with neither [#] nor [=]. *)
Definition cell_survives (v : value) : bool :=
  match v with
  | VNone => false
  | _ =>
      let value_str := py_str v in
      negb (Py.startswith "#" value_str) && negb (Py.startswith "=" value_str)
  end.

(** The inner loop of [extract_cosentino_data] over [enumerate(row)],
    started at index [idx]. *)
Fixpoint fill_row_data (headers : list value) (idx : nat) (row : list value)
    (row_data : gmap string value) : gmap string value :=
  match row with
  | [] => row_data
  | v :: row' =>
      let row_data' :=
        match headers !! idx ≫= header_key with
        | Some k => if cell_survives v then <[k := v]> row_data else row_data
        | None => row_data
        end in
      fill_row_data headers (S idx) row' row_data'
  end.

(** [any(row_data.values())]. *)
Definition any_value (row_data : gmap string value) : bool :=
  existsb truthy (snd <$> map_to_list row_data).

Definition ExtractedRow := gmap string value.

Record Extraction := mk_extraction {
  valid_headers : list string;
  data_rows : list (gmap string value);
  header_row_idx : nat;
  stop_row_idx : option nat
}.

(** The header list of [extract_cosentino_data]: one entry per column of
    the header row, [None] where the cell is empty. *)
Definition normalized_headers (sh : sheet) (header_row : nat) : list value :=
  (λ h, if truthy h then normalize_column_name h else VNone)
    <$> row_values sh header_row.

(** The record built for one worksheet row. *)
Definition row_record (sh : sheet) (headers : list value) (row_idx : nat)
  : gmap string value :=
  fill_row_data headers 0 (row_values sh row_idx) ∅.

(** One turn of the loop over data rows: the record, when it is kept. *)
Definition extract_row (sh : sheet) (headers : list value) (row_idx : nat)
  : option (gmap string value) :=
  let row_data := row_record sh headers row_idx in
  if any_value row_data then Some row_data else None.

Definition extract_cosentino_data (sh : sheet) : exn + Extraction :=
  let found := find_awg_header_row sh in
  if negb (idx_truthy found) then
    inl (ValueError NO_HEADER_MESSAGE)
  else
    let header_row := default 0%nat found in
    let headers := normalized_headers sh header_row in
    let stop_row := find_manufacturer_stop_row sh (header_row + 1) in
    let end_row :=
      if idx_truthy stop_row then default 0%nat stop_row
      else (max_row sh + 1)%nat in
    let rows :=
      omap (extract_row sh headers)
           (seq (header_row + 1) (end_row - (header_row + 1))) in
    inr (mk_extraction (omap header_key headers) rows header_row stop_row).

(** ** Label-anchored field extractor *)

Record DealHeader := mk_deal_header {
  deal_name : string;
  vendor_id : string;
  deal_start_date : string;
  deal_end_date : string;
  deal_cost_date : string
}.

Definition set_vendor_id (dh : DealHeader) (v : string) : DealHeader :=
  mk_deal_header (deal_name dh) v (deal_start_date dh) (deal_end_date dh)
                 (deal_cost_date dh).

Definition set_deal_start_date (dh : DealHeader) (v : string) : DealHeader :=
  mk_deal_header (deal_name dh) (vendor_id dh) v (deal_end_date dh)
                 (deal_cost_date dh).

Definition set_deal_end_date (dh : DealHeader) (v : string) : DealHeader :=
  mk_deal_header (deal_name dh) (vendor_id dh) (deal_start_date dh) v
                 (deal_cost_date dh).

Definition set_deal_cost_date (dh : DealHeader) (v : string) : DealHeader :=
  mk_deal_header (deal_name dh) (vendor_id dh) (deal_start_date dh)
                 (deal_end_date dh) v.

Definition OTHER_LABELS : list string :=
  ["deal start date"; "deal end date"; "deal cost date"; "broker"; "sales rep"].

(** [v and str(v).strip()] as a condition. *)
Definition nonblank (v : value) : bool :=
  truthy v && Py.nonempty (Py.strip (py_str v)).

(** The fallback loop of the vendor branch over the offsets left to
    try: the first non-blank cell that is not another label. *)
Fixpoint vendor_fallback (sh : sheet) (row_idx col_idx : nat)
    (offsets : list nat) : option string :=
  match offsets with
  | [] => None
  | offset :: rest =>
      let next_cell := cell_value sh row_idx (col_idx + offset) in
      if nonblank next_cell then
        let val_str := Py.strip (py_str next_cell) in
        if negb (Py.mem (Py.lower val_str) OTHER_LABELS) then Some val_str
        else vendor_fallback sh row_idx col_idx rest
      else vendor_fallback sh row_idx col_idx rest
  end.

(** The value the vendor branch assigns at a manufacturer label, if any. *)
Definition probe_vendor (sh : sheet) (row_idx col_idx : nat) : option string :=
  let vendor_cell := cell_value sh row_idx (col_idx + 2) in
  if nonblank vendor_cell then
    let val_str := Py.strip (py_str vendor_cell) in
    if negb (Py.mem (Py.lower val_str) OTHER_LABELS) then Some val_str
    else None
  else vendor_fallback sh row_idx col_idx (seq 1 9).

Definition EPOCH_ORDINAL : Z := Calendar.ymd2ord 1899 12 30.

(** [timedelta(days=v)] in microseconds for a number [v]; [None] when
    the constructor raises (infinities and NaN). *)
Definition serial_micros (v : value) : option Z :=
  match v with
  | VInt n => Some (n * Calendar.US_PER_DAY)%Z
  | VBool b => Some ((if b then 1 else 0) * Calendar.US_PER_DAY)%Z
  | VFloat (FFin neg m e) => Some (Calendar.micros_of_days neg m e)
  | _ => None
  end.

(** [datetime(1899, 12, 30) + timedelta(days=v)] for a number [v];
    [None] when the arithmetic raises. *)
Definition excel_date (v : value) : option datetime :=
  serial_micros v ≫= Calendar.add_micros EPOCH_ORDINAL.

(** The whole days of a serial number. *)
Definition serial_days (v : value) : option Z :=
  (λ us, us / Calendar.US_PER_DAY)%Z <$> serial_micros v.

Definition DATE_FORMAT : string := "%m/%d/%y".

(** The probing loop of a date branch over the offsets left to try. *)
Fixpoint probe_date_from (sh : sheet) (row_idx col_idx : nat)
    (offsets : list nat) : option string :=
  match offsets with
  | [] => None
  | offset :: rest =>
      let date_cell := cell_value sh row_idx (col_idx + offset) in
      if truthy date_cell then
        match date_cell with
        | VDate d => Some (strftime d DATE_FORMAT)
        | VBool _ | VInt _ | VFloat _ =>
            match excel_date date_cell with
            | Some excel => Some (strftime excel DATE_FORMAT)
            | None => probe_date_from sh row_idx col_idx rest
            end
        | _ =>
            if Py.nonempty (Py.strip (py_str date_cell))
            then Some (Py.strip (py_str date_cell))
            else probe_date_from sh row_idx col_idx rest
        end
      else probe_date_from sh row_idx col_idx rest
  end.

(** The three date branches run the same loop over offsets 1..11. *)
Definition probe_date (sh : sheet) (row_idx col_idx : nat) : option string :=
  probe_date_from sh row_idx col_idx (seq 1 11).

Definition assign (set : DealHeader -> string -> DealHeader)
    (dh : DealHeader) (found : option string) : DealHeader :=
  match found with
  | Some v => set dh v
  | None => dh
  end.

(** The body of the two loops of [extract_deal_header] at one cell. *)
Definition scan_deal_cell (sh : sheet) (row_idx col_idx : nat)
    (deal_header : DealHeader) : DealHeader :=
  match cell_value sh row_idx col_idx with
  | VStr s =>
      if Py.nonempty s then
        let cell_value_lower := Py.strip (Py.lower s) in
        if String.eqb cell_value_lower "manufacturer" then
          assign set_vendor_id deal_header (probe_vendor sh row_idx col_idx)
        else if Py.contains "deal start date" cell_value_lower then
          assign set_deal_start_date deal_header
                 (probe_date sh row_idx col_idx)
        else if Py.contains "deal end date" cell_value_lower then
          assign set_deal_end_date deal_header (probe_date sh row_idx col_idx)
        else if Py.contains "deal cost date" cell_value_lower then
          assign set_deal_cost_date deal_header (probe_date sh row_idx col_idx)
        else deal_header
      else deal_header
  | _ => deal_header
  end.

(** Nested [for] loops over rows 1..max_row and columns 1..max_column,
    threading an accumulator.  A probe that reads to the right of the
    grid makes openpyxl add empty cells there, which the loops then
    visit in the rows below; such cells hold [None] and both scans skip
    them, so the loops are run over the grid as it was loaded. *)
Definition scan_sheet {A} (sh : sheet) (body : nat -> nat -> A -> A) (init : A)
  : A :=
  foldl (λ acc row_idx,
           foldl (λ acc' col_idx, body row_idx col_idx acc') acc
                 (seq 1 (max_column sh)))
        init (seq 1 (max_row sh)).

(** [extract_deal_header].  No statement of the body can raise on the
    values of the model, so the handler that returns [None] is never
    entered. *)
Definition extract_deal_header (sh : sheet) (name : string)
  : option DealHeader :=
  Some (scan_sheet sh (scan_deal_cell sh) (mk_deal_header name "" "" "" "")).

(** The label table of [extract_ad_zone_id], in insertion order. *)
Definition tpr_labels : list (string * string) :=
  [ ("tpr all stores", "TPR All Stores");
    ("tpr price chopper", "TPR Price Chopper");
    ("tpr sunfresh/apple", "TPR Sunfresh/Apple");
    ("tpr markets", "Tpr Markets");
    ("tpr stores with prebooks only", "TPR Stores with Prebooks only") ].

Definition ZONE_MARKERS : list string := ["X"; "YES"; "Y"; "1"; "TRUE"].

(** The probing loop of the zone scan over the offsets left to try:
    whether a marked cell is met. *)
Fixpoint probe_marker (sh : sheet) (row_idx col_idx : nat)
    (offsets : list nat) : bool :=
  match offsets with
  | [] => false
  | offset :: rest =>
      let check_cell := cell_value sh row_idx (col_idx + offset) in
      if truthy check_cell then
        let check_value := Py.upper (Py.strip (py_str check_cell)) in
        if Py.mem check_value ZONE_MARKERS then true
        else probe_marker sh row_idx col_idx rest
      else probe_marker sh row_idx col_idx rest
  end.

(** The loop over [tpr_labels.items()]: the first label found in the
    cell text decides, and the loop is left. *)
Fixpoint scan_labels (sh : sheet) (row_idx col_idx : nat)
    (cell_value_lower : string) (labels : list (string * string))
    (marked_tpr_types : list string) : list string :=
  match labels with
  | [] => marked_tpr_types
  | (tpr_key, tpr_display) :: rest =>
      if Py.contains tpr_key cell_value_lower then
        if probe_marker sh row_idx col_idx (seq 1 14) then
          if negb (Py.mem tpr_display marked_tpr_types)
          then marked_tpr_types ++ [tpr_display]
          else marked_tpr_types
        else marked_tpr_types
      else scan_labels sh row_idx col_idx cell_value_lower rest marked_tpr_types
  end.

Definition scan_zone_cell (sh : sheet) (row_idx col_idx : nat)
    (marked_tpr_types : list string) : list string :=
  match cell_value sh row_idx col_idx with
  | VStr s =>
      if Py.nonempty s then
        scan_labels sh row_idx col_idx (Py.lower (Py.strip s)) tpr_labels
                    marked_tpr_types
      else marked_tpr_types
  | _ => marked_tpr_types
  end.

Definition extract_ad_zone_id (sh : sheet) : string :=
  let marked_tpr_types := scan_sheet sh (scan_zone_cell sh) [] in
  match marked_tpr_types with
  | [] => ""
  | _ => Py.join " ~" marked_tpr_types
  end.

(** ** Transformation engine *)

(** [re.sub(r'[^0-9.-]', '', s)]. *)
Definition keep_numeric (s : string) : string :=
  Py.filter_chars
    (λ c, Py.is_digit c || Ascii.eqb c "." || Ascii.eqb c "-") s.

(** [re.sub(r'[\s-]', '', s)]. *)
Definition drop_space_dash (s : string) : string :=
  Py.filter_chars (λ c, negb (Py.is_space c || Ascii.eqb c "-")) s.

(** The match of [\d+(?:\.\d+)?] at the start of [s], which begins with
    a digit. *)
Definition take_number (s : string) : string :=
  let '(ds, r) := Py.span Py.is_digit s in
  match r with
  | String "." r' =>
      let '(fs, _) := Py.span Py.is_digit r' in
      if Py.nonempty fs then ds ++ "." ++ fs else ds
  | _ => ds
  end.

(** [re.search(r'(\d+(?:\.\d+)?)', s)], group 1. *)
Fixpoint search_numeric (s : string) : option string :=
  match s with
  | "" => None
  | String c s' =>
      if Py.is_digit c then Some (take_number s) else search_numeric s'
  end.

(** [re.search(r'([A-Za-z]+)', s)], group 1. *)
Fixpoint search_alpha (s : string) : option string :=
  match s with
  | "" => None
  | String c s' =>
      if Py.is_alpha c then Some (Py.span Py.is_alpha s).1
      else search_alpha s'
  end.

(** [re.search(r'(\d+)\s*for', s, re.IGNORECASE)], group 1. *)
Fixpoint search_price_mult (s : string) : option string :=
  match s with
  | "" => None
  | String c s' =>
      if Py.is_digit c then
        let '(ds, r) := Py.span Py.is_digit s in
        if Py.startswith "for" (Py.lower (Py.lstrip r)) then Some ds
        else search_price_mult s'
      else search_price_mult s'
  end.

(** The digits [int] accepts in a string, [sys.get_int_max_str_digits()]:
    on more, [int] raises [ValueError]. *)
Definition INT_MAX_STR_DIGITS : nat := 4300.

(** [apply_transformation].  Where the body raises, the handler returns
    the value unchanged. *)
Definition apply_transformation (v : value) (rule : string) : value :=
  if negb (Py.nonempty rule) || String.eqb rule "none" then v
  else if String.eqb rule "to_number:float" then
    if truthy v then
      let cleaned := keep_numeric (py_str v) in
      if Py.nonempty cleaned then
        match float_of_string cleaned with
        | Some f => VFloat f
        | None => v
        end
      else VNone
    else VNone
  else if Py.contains "Pick the Numeric values" rule then
    if truthy v then
      match search_numeric (py_str v) with
      | Some m => VStr m
      | None => v
      end
    else v
  else if Py.contains "Pick Alpha values" rule then
    if truthy v then
      match search_alpha (py_str v) with
      | Some m => VStr m
      | None => v
      end
    else v
  else if String.eqb rule "normalize_upc" then
    let cleaned := drop_space_dash (py_str v) in
    VStr (if Py.isdigit cleaned then Py.zfill 12 cleaned else cleaned)
  else if Py.startswith "to_number:" rule then
    let num_type := nth 1 (Py.split_on ":" rule) "" in
    if String.eqb num_type "int" then
      if truthy v then
        match float_of_value v ≫= int_of_float with
        | Some n => VInt n
        | None => v
        end
      else VNone
    else if String.eqb num_type "currency" then
      let cleaned := keep_numeric (py_str v) in
      if Py.nonempty cleaned then
        match float_of_string cleaned with
        | Some f => VFloat f
        | None => v
        end
      else VNone
    else v
  else if Py.startswith "parse_date:" rule then
    let date_format := nth 1 (Py.split_on ":" rule) "" in
    match v with
    | VDate d => VStr (strftime d date_format)
    | _ => v
    end
  else if String.eqb rule "map_deal_type" then
    if truthy v then VStr (py_str v) else VStr "TPR"
  else if String.eqb rule "parse_price_mult" then
    match search_price_mult (py_str v) with
    | Some m =>
        if (INT_MAX_STR_DIGITS <? String.length m)%nat then v
        else VInt (Z.of_N (Py.N_of_digits m))
    | None => VInt 1
    end
  else if Py.startswith "literal:" rule then
    VStr (default "" (Py.after_first ":" rule))
  else if Py.startswith "coalesce:" rule then
    if truthy v then v else VNone
  else if Py.startswith "calc:" rule then v
  else v.

(** ** Row projector *)

Definition AD_ZONE_ID : string := "Ad Zone Id".

(** The body of the loop over [mappings] in [map_data_to_output]. *)
Definition apply_mapping (input_row : gmap string value) (ad_zone_id : string)
    (output_row : gmap string value) (mapping : ColumnMapping)
  : gmap string value :=
  let input_col := input_column_name mapping in
  let output_col := output_column_name mapping in
  let transform_rule := transformation_rule mapping in
  if String.eqb output_col AD_ZONE_ID then
    <[output_col := VStr ad_zone_id]> output_row
  else if negb (String.eqb input_col "N/A") then
    match input_row !! input_col with
    | Some v =>
        let transformed_value := apply_transformation v transform_rule in
        match output_row !! output_col with
        | Some _ => <[output_col := transformed_value]> output_row
        | None => output_row
        end
    | None => output_row
    end
  else output_row.

(** [{header: '' for header in self.output_template}]. *)
Definition blank_row (output_template : list string) : gmap string value :=
  foldl (λ row header, <[header := VStr ""]> row) ∅ output_template.

Definition project_row (output_template : list string)
    (mappings : list ColumnMapping) (ad_zone_id : string)
    (input_row : gmap string value) : gmap string value :=
  foldl (apply_mapping input_row ad_zone_id) (blank_row output_template)
        mappings.

Definition map_data_to_output (output_template : list string)
    (input_data : list (gmap string value)) (mappings : list ColumnMapping)
    (ad_zone_id : string) : list (gmap string value) :=
  project_row output_template mappings ad_zone_id <$> input_data.

(** ** Request handler *)

Record ProcessingResult := mk_result {
  standardized_data : list (gmap string value);
  output_headers : list string;
  result_company : string;
  deal_summary : option DealHeader
}.

(** The [try] block of [process_file], with the configuration documents
    and the uploaded worksheet already loaded.  The two summaries are
    text rendered from the same data and are left out.  The column
    mappings are those [load_column_mappings] returned;
    [process_file_request_body], further down, reads them from the
    cells of the mapping workbook, where the read can raise. *)
Definition process_file_body
    (file_mapping_index : list MappingIndexEntry)
    (mapping_rules : list (string * list ColumnMapping))
    (output_template : list string)
    (upload : sheet) (company_ name : string) : exn + ProcessingResult :=
  let sheet_name :=
    get_mapping_sheet_by_company file_mapping_index company_
                                 "Deal Submissions" in
  if negb (truthy sheet_name) then
    inl (HTTPException 400 (NO_MAPPING_DETAIL company_))
  else
    let mappings := load_column_mappings mapping_rules sheet_name in
    let deal_summary_dict := extract_deal_header upload name in
    let ad_zone_id := extract_ad_zone_id upload in
    match sheet_name with
    | VStr n =>
        if Py.contains "cosentino" (Py.lower n) then
          match extract_cosentino_data upload with
          | inl e => inl e
          | inr ex =>
              let standardized :=
                map_data_to_output output_template (data_rows ex) mappings
                                   ad_zone_id in
              inr (mk_result standardized output_template company_
                             deal_summary_dict)
          end
        else
          inl (HTTPException 400
                 "Only Cosentino TPR files are currently supported")
    | _ => inl (OtherError "object has no attribute 'lower'")
    end.

(** [process_file]: a [ValueError] of the body is answered with status
    400, every other exception, an [HTTPException] raised in the body
    included, with status 500. *)
Definition process_file
    (file_mapping_index : list MappingIndexEntry)
    (mapping_rules : list (string * list ColumnMapping))
    (output_template : list string)
    (upload : sheet) (company_ name : string) : exn + ProcessingResult :=
  match process_file_body file_mapping_index mapping_rules output_template
                          upload company_ name with
  | inr r => inr r
  | inl (ValueError msg) => inl (HTTPException 400 msg)
  | inl e => inl (HTTPException 500 ("Error processing file: " ++ exn_str e))
  end.

(** ** Configuration loaders and the companies endpoint *)

(** A workbook: its sheets by name, in order. *)
Definition workbook := list (string * sheet).

(** [name in wb.sheetnames] and [wb[name]]. *)
Definition get_sheet (wb : workbook) (name : string) : option sheet :=
  snd <$> List.find (λ p, String.eqb p.1 name) wb.

(** The dictionary [load_mapping_rules] appends for one row of the
    index sheet; nothing for a row whose first cell is empty.  A row
    read from a sheet has [max_column] cells, at least one. *)
Definition index_entry_of_row (row : list value)
  : option MappingIndexEntry :=
  match row with
  | [] => None
  | row0 :: _ =>
      if truthy row0 then
        Some (mk_index_entry
                (py_str row0)
                (match row !! 1%nat with
                 | Some row1 =>
                     if (1 <? length row)%nat && truthy row1
                     then Py.lower (py_str row1) else ""
                 | None => ""
                 end)
                (default (VStr "") (row !! 2%nat))
                (default (VStr "") (row !! 3%nat))
                (default (VStr "") (row !! 4%nat)))
      else None
  end.

(** [load_mapping_rules]: the new value of [self.file_mapping_index],
    [previous] being the value it had; it is left as it was when the
    workbook has no sheet [file_mapping_index]. *)
Definition load_mapping_rules (previous : option (list MappingIndexEntry))
    (wb : workbook) : option (list MappingIndexEntry) :=
  match get_sheet wb "file_mapping_index" with
  | Some index_sheet =>
      Some (omap index_entry_of_row (snd <$> iter_rows index_sheet 2))
  | None => previous
  end.

(** The company names read by [get_companies], row by row. *)
Definition company_names (index_sheet : sheet) : list string :=
  omap (λ row, match row with
               | row0 :: _ => if truthy row0 then Some (py_str row0) else None
               | [] => None
               end)
       (snd <$> iter_rows index_sheet 2).

(** [get_companies]: the names as a set, sorted.  The exception raised
    for a missing sheet is caught by the handler of the endpoint and
    raised again with its text in the detail. *)
Definition get_companies (wb : workbook) : exn + list string :=
  match get_sheet wb "file_mapping_index" with
  | None =>
      inl (HTTPException 500
             ("Error fetching companies: "
              ++ exn_str (HTTPException 500
                            "file_mapping_index sheet not found")))
  | Some index_sheet =>
      inr (merge_sort String.le (remove_dups (company_names index_sheet)))
  end.

(** A column mapping as [load_column_mappings] reads it from the cells
    of a row. *)
Record RowMapping := mk_row_mapping {
  row_input_column_name : value;
  row_output_column_name : value;
  row_transformation_rule : value;
  row_notes : value
}.

Definition INDEX_ERROR : exn := OtherError "tuple index out of range".

(** One turn of the loop of [load_column_mappings]: the dictionary
    appended, if any; [row[1]] raises on a row of one cell. *)
Definition row_mapping_of_row (row : list value) : exn + option RowMapping :=
  match row with
  | [] => inl INDEX_ERROR
  | row0 :: _ =>
      match row !! 1%nat with
      | None => inl INDEX_ERROR
      | Some row1 =>
          if truthy row0 || truthy row1 then
            inr (Some (mk_row_mapping
                         (if truthy row0 then row0 else VStr "N/A")
                         (if truthy row1 then row1 else VStr "")
                         (match row !! 2%nat with
                          | Some row2 =>
                              if (2 <? length row)%nat && truthy row2
                              then row2 else VStr "none"
                          | None => VStr "none"
                          end)
                         (default (VStr "") (row !! 3%nat))))
          else inr None
      end
  end.

(** The loop of [load_column_mappings] over the rows left to read. *)
Fixpoint load_rows (rows : list (list value)) : exn + list RowMapping :=
  match rows with
  | [] => inr []
  | row :: rest =>
      match row_mapping_of_row row with
      | inl e => inl e
      | inr found =>
          match load_rows rest with
          | inl e => inl e
          | inr mappings =>
              inr (match found with
                   | Some m => m :: mappings
                   | None => mappings
                   end)
          end
      end
  end.

(** [load_column_mappings] on the cells of the mapping workbook. *)
Definition load_column_mappings_cells (wb : workbook) (name : string)
  : exn + list RowMapping :=
  match get_sheet wb name with
  | None => inr []
  | Some mapping_sheet => load_rows (snd <$> iter_rows mapping_sheet 2)
  end.

(** ** The request, from the cells of the mapping workbook *)

(** [load_column_mappings] as [process_file] calls it, on the sheet name
    the index gave: a name that is no string is the name of no sheet. *)
Definition load_column_mappings_of (wb : workbook) (name : value)
  : exn + list RowMapping :=
  match name with
  | VStr n => load_column_mappings_cells wb n
  | _ => inr []
  end.

(** [apply_transformation] under a rule read from a cell.  A rule that
    is no string and falsy returns the value at the first test; one that
    is truthy makes the test ['Pick the Numeric values' in rule] raise
    [TypeError], on which the handler returns the value. *)
Definition apply_transformation_cell (v rule : value) : value :=
  match rule with
  | VStr r => apply_transformation v r
  | _ => v
  end.

(** The body of the loop over [mappings] in [map_data_to_output], the
    mapping being as read from the cells.  A name that is no string is
    a key of no row. *)
Definition apply_mapping_cells (input_row : gmap string value)
    (ad_zone_id : string) (output_row : gmap string value)
    (mapping : RowMapping) : gmap string value :=
  let input_col := row_input_column_name mapping in
  let output_col := row_output_column_name mapping in
  let transform_rule := row_transformation_rule mapping in
  if eq_str output_col AD_ZONE_ID then
    <[AD_ZONE_ID := VStr ad_zone_id]> output_row
  else if negb (eq_str input_col "N/A") then
    match input_col with
    | VStr i =>
        match input_row !! i with
        | Some v =>
            let transformed_value :=
              apply_transformation_cell v transform_rule in
            match output_col with
            | VStr o =>
                match output_row !! o with
                | Some _ => <[o := transformed_value]> output_row
                | None => output_row
                end
            | _ => output_row
            end
        | None => output_row
        end
    | _ => output_row
    end
  else output_row.

Definition project_row_cells (output_template : list string)
    (mappings : list RowMapping) (ad_zone_id : string)
    (input_row : gmap string value) : gmap string value :=
  foldl (apply_mapping_cells input_row ad_zone_id) (blank_row output_template)
        mappings.

Definition map_data_to_output_cells (output_template : list string)
    (input_data : list (gmap string value)) (mappings : list RowMapping)
    (ad_zone_id : string) : list (gmap string value) :=
  project_row_cells output_template mappings ad_zone_id <$> input_data.

(** The [try] block of [process_file] with the mapping workbook given by
    its cells: the index and the column mappings are read inside the
    request, and a read that raises ends it.  [previous] is the index
    the processor holds from earlier requests; the output template and
    the uploaded worksheet are given as loaded. *)
Definition process_file_request_body
    (previous : option (list MappingIndexEntry)) (wb : workbook)
    (output_template : list string)
    (upload : sheet) (company_ name : string) : exn + ProcessingResult :=
  match load_mapping_rules previous wb with
  | None => inl (OtherError "'NoneType' object is not iterable")
  | Some file_mapping_index =>
      let sheet_name :=
        get_mapping_sheet_by_company file_mapping_index company_
                                     "Deal Submissions" in
      if negb (truthy sheet_name) then
        inl (HTTPException 400 (NO_MAPPING_DETAIL company_))
      else
        match load_column_mappings_of wb sheet_name with
        | inl e => inl e
        | inr mappings =>
            let deal_summary_dict := extract_deal_header upload name in
            let ad_zone_id := extract_ad_zone_id upload in
            match sheet_name with
            | VStr n =>
                if Py.contains "cosentino" (Py.lower n) then
                  match extract_cosentino_data upload with
                  | inl e => inl e
                  | inr ex =>
                      let standardized :=
                        map_data_to_output_cells output_template (data_rows ex)
                                                 mappings ad_zone_id in
                      inr (mk_result standardized output_template company_
                                     deal_summary_dict)
                  end
                else
                  inl (HTTPException 400
                         "Only Cosentino TPR files are currently supported")
            | _ => inl (OtherError "object has no attribute 'lower'")
            end
        end
  end.

(** [process_file] with the mapping workbook given by its cells; the
    two handlers are those of [process_file]. *)
Definition process_file_request
    (previous : option (list MappingIndexEntry)) (wb : workbook)
    (output_template : list string)
    (upload : sheet) (company_ name : string) : exn + ProcessingResult :=
  match process_file_request_body previous wb output_template upload
                                  company_ name with
  | inr r => inr r
  | inl (ValueError msg) => inl (HTTPException 400 msg)
  | inl e => inl (HTTPException 500 ("Error processing file: " ++ exn_str e))
  end.

(** A column mapping with string fields as the cells that hold it. *)
Definition row_mapping_of (m : ColumnMapping) : RowMapping :=
  mk_row_mapping (VStr (input_column_name m)) (VStr (output_column_name m))
                 (VStr (transformation_rule m)) (notes m).

(** ** The figures of the summary *)

(** The three counts [generate_summary] prints: mappings with an input
    column, mappings without one, and mappings with a rule. *)
Definition direct_mappings (mappings : list ColumnMapping) : nat :=
  length (List.filter (λ m, negb (String.eqb (input_column_name m) "N/A"))
                      mappings).

Definition derived_mappings (mappings : list ColumnMapping) : nat :=
  length (List.filter (λ m, String.eqb (input_column_name m) "N/A") mappings).

Definition transformations_applied (mappings : list ColumnMapping) : nat :=
  length (List.filter
            (λ m, Py.nonempty (transformation_rule m)
                  && negb (String.eqb (transformation_rule m) "none"))
            mappings).

(** The text of the line [Stop Condition]. *)
Definition stop_condition (stop_row : option nat) : string :=
  if idx_truthy stop_row
  then "Manufacturer row found at row "
       ++ Py.str_of_N (N.of_nat (default 0%nat stop_row))
  else "End of sheet".

(** ** CSV export *)

Definition COMMA : string := ",".
Definition DQUOTE : string := String "034"%char "".
Definition NEWLINE : string := String "010"%char "".

(** The test that guards the quoting of a value. *)
Definition needs_quoting (v : value) : bool :=
  truthy v
  && (Py.contains COMMA (py_str v) || Py.contains DQUOTE (py_str v)).

(** The error of the quoting expression: [str.replace] is called with
    the single argument that the two adjacent literals make up.  The
    text is that of the [TypeError] of CPython 3.11. *)
Definition REPLACE_ERROR : exn :=
  OtherError "replace expected at least 2 arguments, got 1".

(** One turn of the loop over [headers]: the field appended to
    [csv_row]. *)
Definition csv_field (row : gmap string value) (header : string)
  : exn + string :=
  let v := default (VStr "") (row !! header) in
  if needs_quoting v then inl REPLACE_ERROR
  else inr (if truthy v then py_str v else "").

(** The loop over [headers] for one row. *)
Fixpoint csv_fields (row : gmap string value) (headers : list string)
  : exn + list string :=
  match headers with
  | [] => inr []
  | header :: rest =>
      match csv_field row header with
      | inl e => inl e
      | inr field =>
          match csv_fields row rest with
          | inl e => inl e
          | inr fields => inr (field :: fields)
          end
      end
  end.

(** The loop over [rows], [csv_content] being the text so far. *)
Fixpoint csv_lines (headers : list string) (rows : list (gmap string value))
    (csv_content : string) : exn + string :=
  match rows with
  | [] => inr csv_content
  | row :: rest =>
      match csv_fields row headers with
      | inl e => inl e
      | inr csv_row =>
          csv_lines headers rest
                    (csv_content ++ Py.join COMMA csv_row ++ NEWLINE)
      end
  end.

(** The text of [standardized_data.csv] as [download_csv] and
    [email_summary] build it. *)
Definition csv_content (headers : list string)
    (rows : list (gmap string value)) : exn + string :=
  csv_lines headers rows (Py.join COMMA headers ++ NEWLINE).

(** [download_csv], as far as the main CSV goes: any exception is
    answered with status 500. *)
Definition download_csv (headers : list string)
    (rows : list (gmap string value)) : exn + string :=
  match csv_content headers rows with
  | inr text => inr text
  | inl e => inl (HTTPException 500 ("Error generating CSV: " ++ exn_str e))
  end.

(** ** Notions used in the statements *)

(** The cells of a sheet in row-major order, top to bottom and left to
    right: the order in which the two nested loops visit them. *)
Definition scan_cells (sh : sheet) : list (nat * nat) :=
  r ← seq 1 (max_row sh); (λ c, (r, c)) <$> seq 1 (max_column sh).

Inductive header_field := Vendor | StartDate | EndDate | CostDate.

Definition header_field_eqb (f g : header_field) : bool :=
  match f, g with
  | Vendor, Vendor | StartDate, StartDate
  | EndDate, EndDate | CostDate, CostDate => true
  | _, _ => false
  end.

Definition field_value (f : header_field) (dh : DealHeader) : string :=
  match f with
  | Vendor => vendor_id dh
  | StartDate => deal_start_date dh
  | EndDate => deal_end_date dh
  | CostDate => deal_cost_date dh
  end.

(** The field whose label a cell text carries: the exact manufacturer
    label, else the first date label it contains. *)
Definition label_field (cell_value_lower : string) : option header_field :=
  if String.eqb cell_value_lower "manufacturer" then Some Vendor
  else if Py.contains "deal start date" cell_value_lower then Some StartDate
  else if Py.contains "deal end date" cell_value_lower then Some EndDate
  else if Py.contains "deal cost date" cell_value_lower then Some CostDate
  else None.

(** A qualifying match for field [f] at cell [(r, c)]: the cell holds
    the label of [f] and the probe to its right accepts a value, which is
    returned. *)
Definition qualifying_match (sh : sheet) (f : header_field) (r c : nat)
  : option string :=
  match cell_value sh r c with
  | VStr s =>
      if Py.nonempty s then
        match label_field (Py.strip (Py.lower s)) with
        | Some g =>
            if header_field_eqb g f then
              match f with
              | Vendor => probe_vendor sh r c
              | _ => probe_date sh r c
              end
            else None
        | None => None
        end
      else None
  | _ => None
  end.

(** A cell that counts as a mark: its trimmed, uppercased text is one of
    the markers. *)
Definition is_marked (v : value) : bool :=
  truthy v && Py.mem (Py.upper (Py.strip (py_str v))) ZONE_MARKERS.

(** Some cell among the [n] columns to the right of [(r, c)] is marked. *)
Definition marked_within (n : nat) (sh : sheet) (r c : nat) : bool :=
  existsb (λ offset, is_marked (cell_value sh r (c + offset))) (seq 1 n).

(** The display string of the first zone label found in a cell text. *)
Definition zone_label (cell_value_lower : string) : option string :=
  snd <$> List.find (λ kv, Py.contains kv.1 cell_value_lower) tpr_labels.

(** The zone recorded at cell [(r, c)] when marks are looked for in the
    [n] columns to its right. *)
Definition zone_at (n : nat) (sh : sheet) (r c : nat) : option string :=
  match cell_value sh r c with
  | VStr s =>
      if Py.nonempty s then
        match zone_label (Py.lower (Py.strip s)) with
        | Some display =>
            if marked_within n sh r c then Some display else None
        | None => None
        end
      else None
  | _ => None
  end.

(** Appending to a list without duplicates. *)
Definition record_zone (marked : list string) (display : string)
  : list string :=
  if Py.mem display marked then marked else (marked ++ [display])%list.

(** Column B of row [r] contains the stop marker, whatever the case of
    its letters. *)
Definition column_b_marked (sh : sheet) (r : nat) : bool :=
  match cell_value sh r 2 with
  | VStr s => Py.contains STOP_MARKER (Py.lower s)
  | _ => false
  end.

(** The surviving cells of a row, in column order, each with the
    header of its column: the column has a valid header and the cell is
    kept. *)
Definition surviving_pairs (headers row : list value)
  : list (string * value) :=
  omap (λ hv, k ← header_key hv.1;
              if cell_survives hv.2 then Some (k, hv.2) else None)
       (zip headers row).

(** An index entry matches a (company, category) pair: both fields are
    equal to the given strings, character by character. *)
Definition entry_matches (e : MappingIndexEntry) (company_ category_ : string)
  : bool :=
  String.eqb (company e) company_ && eq_str (category e) category_.

(** A mapping whose output column is the zone column. *)
Definition targets_zone (m : ColumnMapping) : bool :=
  String.eqb (output_column_name m) AD_ZONE_ID.

(** The text of a date in the format [MM/DD/YY]. *)
Definition mdy (y m d : Z) : string :=
  Py.pad 2 m ++ "/" ++ Py.pad 2 d ++ "/" ++ Py.pad 2 (y mod 100).

(** A word: a non-empty string without whitespace. *)
Definition no_space (w : string) : bool :=
  Py.all_chars (λ c, negb (Py.is_space c)) w.

Definition is_word (w : string) : Prop :=
  Py.nonempty w = true /\ no_space w = true.

(** Some cell of row [r] is a string that contains the header marker. *)
Definition marker_in_row (sh : sheet) (r : nat) : Prop :=
  exists c s, cell_value sh r c = VStr s
              /\ Py.contains HEADER_MARKER s = true.

(** A header name in normal form: words separated by single spaces. *)
Definition normal_name (h : string) : Prop :=
  exists ws, Forall is_word ws /\ ws ≠ [] /\ h = Py.join " " ws.

(** A value that may sit in a data row: not [None], and its string form
    starts with neither [#] nor [=]. *)
Definition clean_value (v : value) : Prop :=
  v ≠ VNone
  /\ Py.startswith "#" (py_str v) = false
  /\ Py.startswith "=" (py_str v) = false.

(** A text the vendor branch may assign: non-empty, trimmed, and not
    one of the other labels. *)
Definition vendor_text (v : string) : Prop :=
  Py.nonempty v = true
  /\ Py.strip v = v
  /\ Py.mem (Py.lower v) OTHER_LABELS = false.

(** The text [normalize_upc] returns for the text of a value. *)
Definition upc_text (s : string) : string :=
  let cleaned := drop_space_dash s in
  if Py.isdigit cleaned then Py.zfill 12 cleaned else cleaned.

(** Neither whitespace nor a hyphen. *)
Definition upc_char (c : ascii) : bool :=
  negb (Py.is_space c || Ascii.eqb c "-").

(** The text of a number as the rule [Pick the Numeric values] extracts
    it: digits, then possibly a dot and digits. *)
Definition number_text (m : string) : Prop :=
  exists ip fp,
    Py.isdigit ip = true
    /\ (fp = "" \/ Py.isdigit fp = true)
    /\ m = ip ++ (if Py.nonempty fp then "." ++ fp else "").

Definition no_digit (s : string) : bool :=
  Py.all_chars (λ c, negb (Py.is_digit c)) s.

(** Mapping [m] assigns to the output column [k] for an input row: it
    targets [k], and [k] is the zone column or the row holds the input
    column of [m]. *)
Definition mapping_writes (input_row : gmap string value) (k : string)
    (m : ColumnMapping) : bool :=
  String.eqb (output_column_name m) k
  && (targets_zone m
      || (negb (String.eqb (input_column_name m) "N/A")
          && bool_decide (is_Some (input_row !! input_column_name m)))).

(** The value mapping [m] assigns when it writes. *)
Definition written_value (input_row : gmap string value) (zone : string)
    (m : ColumnMapping) : value :=
  if targets_zone m then VStr zone
  else apply_transformation
         (default VNone (input_row !! input_column_name m))
         (transformation_rule m).

(** A record with data: one of its values is truthy. *)
Definition has_data (rec : gmap string value) : Prop :=
  exists k v, rec !! k = Some v /\ truthy v = true.

(** The number [v] read as a count of days falls in the day [days]:
    an integer is its own count; a float [x] has [days <= x], and [x]
    plus half a microsecond is before [days + 1], so that [x] rounded
    to the microsecond is.  The two bounds are written over integers:
    [x * 10 ^ k] is an integer, and the second bound is multiplied by
    twice the microseconds of a day. *)
Definition serial_in_day (v : value) (days : Z) : Prop :=
  match v with
  | VInt n => days = n
  | VBool b => days = (if b then 1 else 0)%Z
  | VFloat (FFin neg m e) =>
      let k := Z.max 0 (- e) in
      let x := ((if neg then -1 else 1) * Z.of_N m * 10 ^ (e + k))%Z in
      (days * 10 ^ k <= x
       /\ 2 * Calendar.US_PER_DAY * x + 10 ^ k
          < 2 * Calendar.US_PER_DAY * (days + 1) * 10 ^ k)%Z
  | _ => False
  end.

(** The cell of a row under a header, [row.get(header, '')], and the
    field written for it when it needs no quoting. *)
Definition cell_of (row : gmap string value) (header : string) : value :=
  default (VStr "") (row !! header).

Definition plain_field (row : gmap string value) (header : string) : string :=
  if truthy (cell_of row header) then py_str (cell_of row header) else "".

(** A field without a comma. *)
Definition comma_free (field : string) : bool :=
  Py.all_chars (λ c, negb (Ascii.eqb c ",")) field.

(** ** Worked inputs *)

(** Header in row 5, three data rows, the stop marker in column B of
    row 9, and a row after it. *)
Definition region_sheet : sheet :=
  [ [VStr "Cosentino deal sheet"];
    [];
    [VStr "Prepared by"; VStr "J. Doe"];
    [];
    [VStr "AWG Item Code"; VStr "Item  Description"; VStr "Case Cost"];
    [VInt 1001; VStr "Beans"; VInt 12];
    [VInt 1002; VStr "Corn"; VInt 9];
    [VInt 1003; VStr "Peas"; VStr "#DIV/0!"];
    [VNone; VStr "Manufacturer"; VNone; VStr "ACME"];
    [VStr "Deal Start Date"; VInt 45000] ].

Definition region_rows : list (gmap string value) :=
  [ <["AWG Item Code" := VInt 1001]>
      (<["Item Description" := VStr "Beans"]> (<["Case Cost" := VInt 12]> ∅));
    <["AWG Item Code" := VInt 1002]>
      (<["Item Description" := VStr "Corn"]> (<["Case Cost" := VInt 9]> ∅));
    <["AWG Item Code" := VInt 1003]> (<["Item Description" := VStr "Peas"]> ∅) ].

(** A sheet without the header marker. *)
Definition no_marker_sheet : sheet :=
  [ [VStr "Item Code"; VStr "Cost"]; [VInt 1; VInt 2] ].

(** Two columns with the same header; the row below holds 5 and 0. *)
Definition dup_header_sheet : sheet :=
  [ [VStr "AWG Item Code"; VStr "Cost"; VStr "Cost"];
    [VNone; VInt 5; VInt 0] ].

(** Two manufacturer labels, each with a vendor two columns to its right. *)
Definition two_vendors_sheet : sheet :=
  [ [VStr "Manufacturer"; VNone; VStr "ACME"];
    [VStr "manufacturer"; VNone; VStr "Zenith"] ].

(** A start-date label with the serial 1 in the next column. *)
Definition serial_sheet : sheet := [ [VStr "Deal Start Date"; VInt 1] ].

(** Two marked zone labels, top to bottom, and an unmarked one. *)
Definition two_zones_sheet : sheet :=
  [ [VStr "TPR All Stores"; VNone; VStr "X"];
    [VStr "TPR Price Chopper"; VStr "X"];
    [VStr "TPR All Stores"; VInt 1];
    [VStr "Tpr Markets"; VStr "no"] ].

(** A zone label in column A whose mark sits [gap] columns to its right. *)
Definition zone_sheet (gap : nat) : sheet :=
  [ VStr "TPR All Stores" :: replicate (gap - 1) VNone ++ [VStr "X"] ].

(** An index with two entries for the same pair, and one for another
    company. *)
Definition sample_index : list MappingIndexEntry :=
  [ mk_index_entry "Other" "" (VStr "other_map") VNone (VStr "Deal Submissions");
    mk_index_entry "Acme" "" (VStr "cosentino_a") VNone (VStr "Deal Submissions");
    mk_index_entry "Acme" "" (VStr "cosentino_b") VNone (VStr "Deal Submissions") ].

(** A schema without the zone column, and a mapping that targets it. *)
Definition schema_without_zone : list string := ["UPC"].

Definition zone_mapping : ColumnMapping :=
  mk_mapping "N/A" "Ad Zone Id" "none" VNone.

(** An end-date label, a serial far beyond the calendar, then a text. *)
Definition overflow_sheet : sheet :=
  [ [VStr "Deal End Date"; VInt 5000000; VStr "Q4"] ].

(** A cost-date label whose only value sits 12 columns to its right. *)
Definition far_date_sheet : sheet :=
  [ VStr "Deal Cost Date" :: replicate 11 VNone ++ [VStr "01/02/24"] ].

(** Two mappings to the same output column, then one to another. *)
Definition price_mappings : list ColumnMapping :=
  [ mk_mapping "Cost" "Price" "none" VNone;
    mk_mapping "Sale" "Price" "to_number:currency" VNone;
    mk_mapping "Code" "UPC" "normalize_upc" VNone ].

Definition price_row : gmap string value :=
  <["Cost" := VInt 12]> (<["Sale" := VStr "$9.50"]> ∅).

(** A row with a comma in one of its values, and one without. *)
Definition comma_row : gmap string value :=
  <["Item" := VStr "Beans, green"]> (<["Cost" := VInt 12]> ∅).

Definition plain_row : gmap string value :=
  <["Item" := VStr "Corn"]> (<["Cost" := VInt 0]> ∅).

(** A mapping workbook: the index sheet and a sheet of column mappings. *)
Definition sample_workbook : workbook :=
  [ ("file_mapping_index",
     [ [VStr "company"; VStr "file_name_pattern"; VStr "mapping_sheet_name";
        VStr "description"; VStr "category"];
       [VStr "Zeta"; VStr "Zeta*.XLSX"; VStr "cosentino_z"; VNone;
        VStr "Deal Submissions"];
       [VNone; VStr "orphan"];
       [VStr "Acme"; VNone; VStr "cosentino_a"; VNone;
        VStr "Deal Submissions"];
       [VStr "Zeta"; VNone; VStr "cosentino_z2"; VNone; VStr "Other"] ]);
    ("cosentino_a",
     [ [VStr "input_column_name"; VStr "output_column_name";
        VStr "transformation_rule"; VStr "notes"];
       [VStr "AWG Item Code"; VStr "Item Code"];
       [VNone; VStr "Ad Zone Id"; VStr "literal:x"];
       [VNone; VNone; VStr "none"] ]);
    ("narrow", [ [VStr "input_column_name"]; [VStr "Cost"] ]) ].

(** The header of [dup_header_sheet] over a row with the 5 in the last
    column. *)
Definition dup_header_sheet_swapped : sheet :=
  [ [VStr "AWG Item Code"; VStr "Cost"; VStr "Cost"];
    [VNone; VInt 0; VInt 5] ].

(** A start-date label with the number 0, then a text. *)
Definition zero_serial_sheet : sheet :=
  [ [VStr "Deal Start Date"; VInt 0; VStr "Q4"] ].

(** A start-date label with the float 45000.75. *)
Definition float_serial_sheet : sheet :=
  [ [VStr "Deal Start Date"; VFloat (FFin false 4500075 (-2))] ].

(** A mapping workbook whose index names a sheet of column mappings and
    a sheet with a single column. *)
Definition request_workbook : workbook :=
  [ ("file_mapping_index",
     [ [VStr "company"; VStr "file_name_pattern"; VStr "mapping_sheet_name";
        VStr "description"; VStr "category"];
       [VStr "Acme"; VNone; VStr "cosentino_a"; VNone;
        VStr "Deal Submissions"];
       [VStr "Bolt"; VNone; VStr "cosentino_b"; VNone;
        VStr "Deal Submissions"] ]);
    ("cosentino_a",
     [ [VStr "input_column_name"; VStr "output_column_name";
        VStr "transformation_rule"];
       [VStr "AWG Item Code"; VStr "UPC"; VStr "normalize_upc"];
       [VStr "Case Cost"; VInt 7; VInt 3] ]);
    ("cosentino_b", [ [VStr "input_column_name"]; [VStr "Cost"] ]) ].

(** ** Theorems *)

(** *** Strings *)

Lemma app_String c s t : String c s ++ t = String c (s ++ t).
Proof. reflexivity. Qed.

Lemma app_empty_l (t : string) : "" ++ t = t.
Proof. reflexivity. Qed.

Lemma str_app_assoc (s t u : string) : (s ++ t) ++ u = s ++ (t ++ u).
Proof.
  induction s as [|c s IH]; [reflexivity|].
  rewrite !app_String. now rewrite IH.
Qed.

Lemma nonempty_app_r s t : Py.nonempty t = true -> Py.nonempty (s ++ t) = true.
Proof. destruct s; [rewrite app_empty_l | rewrite app_String]; auto. Qed.

Lemma split_words s : Forall is_word (Py.split s).
Proof.
  induction s as [|c s IH]; simpl; [constructor|].
  destruct (Py.is_space c) eqn:Hc; [assumption|].
  assert (Hone : is_word (String c "")).
  { split; [reflexivity|]. unfold no_space; simpl. now rewrite Hc. }
  destruct s as [|d s']; [repeat constructor; apply Hone|].
  destruct (Py.is_space d) eqn:Hd; [constructor; [apply Hone|apply IH]|].
  destruct (Py.split (String d s')) as [|w ws] eqn:Hs; [repeat constructor; apply Hone|].
  inversion IH as [|? ? [Hw1 Hw2] Hws]; subst.
  constructor; [|assumption].
  split; [reflexivity|]. unfold no_space in *; simpl. now rewrite Hc.
Qed.

Lemma split_word_sep w rest :
  is_word w -> Py.split (w ++ String " " rest) = w :: Py.split rest.
Proof.
  intros [Hne Hns]. induction w as [|c w IH]; [discriminate|].
  unfold no_space in Hns; simpl in Hns. apply andb_prop in Hns as [Hc Hw].
  apply negb_true_iff in Hc.
  rewrite app_String. simpl. rewrite Hc.
  destruct w as [|d w'].
  - rewrite app_empty_l. reflexivity.
  - rewrite app_String. 
    assert (Hd : Py.is_space d = false).
    { simpl in Hw. apply andb_prop in Hw as [Hd _]. now apply negb_true_iff in Hd. }
    rewrite Hd. rewrite <- app_String. rewrite IH; [reflexivity|reflexivity|exact Hw].
Qed.

Lemma split_word w : is_word w -> Py.split w = [w].
Proof.
  intros [Hne Hns]. induction w as [|c w IH]; [discriminate|].
  unfold no_space in Hns; simpl in Hns. apply andb_prop in Hns as [Hc Hw].
  apply negb_true_iff in Hc. simpl. rewrite Hc.
  destruct w as [|d w']; [reflexivity|].
  assert (Hd : Py.is_space d = false).
  { simpl in Hw. apply andb_prop in Hw as [Hd _]. now apply negb_true_iff in Hd. }
  rewrite Hd, IH; [reflexivity|reflexivity|exact Hw].
Qed.

Lemma join_cons sep w v ws :
  Py.join sep (w :: v :: ws) = w ++ sep ++ Py.join sep (v :: ws).
Proof. reflexivity. Qed.

Lemma split_join ws : Forall is_word ws -> Py.split (Py.join " " ws) = ws.
Proof.
  induction 1 as [|w ws Hw Hws IH]; [reflexivity|].
  destruct ws as [|v ws'].
  - apply split_word, Hw.
  - rewrite join_cons. change (" " ++ ?x) with (String " " x).
    rewrite split_word_sep by exact Hw. now rewrite IH.
Qed.

Lemma rstrip_no_space w : no_space w = true -> Py.rstrip w = w.
Proof.
  induction w as [|c w IH]; [reflexivity|].
  unfold no_space; simpl. intros [Hc Hw]%andb_prop.
  apply negb_true_iff in Hc. rewrite Hc. simpl. now rewrite IH.
Qed.

Lemma rstrip_app_word s w : is_word w -> Py.rstrip (s ++ w) = s ++ w.
Proof.
  intros [Hne Hns]. induction s as [|c s IH].
  - rewrite app_empty_l. now apply rstrip_no_space.
  - rewrite app_String. simpl. rewrite IH.
    rewrite (nonempty_app_r s w Hne). now rewrite andb_false_r.
Qed.

Lemma join_ends_with_word ws :
  Forall is_word ws -> ws ≠ [] ->
  exists s w, Py.join " " ws = s ++ w /\ is_word w.
Proof.
  induction 1 as [|w ws Hw Hws IH]; [congruence|]. intros _.
  destruct ws as [|v ws'].
  - exists "", w. now split.
  - destruct IH as (s & u & Hs & Hu); [congruence|].
    exists (w ++ " " ++ s), u. split; [|exact Hu].
    rewrite join_cons, Hs. now rewrite !str_app_assoc.
Qed.

Lemma lstrip_join ws : Forall is_word ws -> Py.lstrip (Py.join " " ws) = Py.join " " ws.
Proof.
  intros H. destruct H as [|w ws [Hne Hns] Hws]; [reflexivity|].
  destruct w as [|c w]; [discriminate|].
  unfold no_space in Hns; simpl in Hns. apply andb_prop in Hns as [Hc _].
  apply negb_true_iff in Hc.
  destruct ws; simpl; rewrite ?app_String; simpl; now rewrite Hc.
Qed.

Lemma strip_join ws : Forall is_word ws -> Py.strip (Py.join " " ws) = Py.join " " ws.
Proof.
  intros H. unfold Py.strip. rewrite lstrip_join by exact H.
  destruct ws as [|w ws]; [reflexivity|].
  destruct (join_ends_with_word (w :: ws) H) as (s & u & -> & Hu); [congruence|].
  now apply rstrip_app_word.
Qed.

Lemma normalize_truthy name :
  truthy name = true ->
  normalize_column_name name = VStr (Py.join " " (Py.split (py_str name))).
Proof.
  intros Ht. unfold normalize_column_name. rewrite Ht. simpl.
  now rewrite strip_join by apply split_words.
Qed.

Lemma normalize_value_idempotent (name : value) :
  normalize_column_name (normalize_column_name name) = normalize_column_name name.
Proof.
  destruct (truthy name) eqn:Ht.
  - rewrite (normalize_truthy name Ht).
    set (ws := Py.split (py_str name)).
    assert (Hws : Forall is_word ws) by apply split_words.
    destruct (truthy (VStr (Py.join " " ws))) eqn:Hn.
    + rewrite (normalize_truthy _ Hn). simpl. now rewrite split_join.
    + unfold normalize_column_name. now rewrite Hn.
  - unfold normalize_column_name at 2. rewrite Ht. simpl.
    unfold normalize_column_name. now rewrite Ht.
Qed.

(** C9: header-name normalization is idempotent: for every string [s],
    normalizing the normalized name gives the normalized name again. *)
Theorem normalize_column_name_idempotent (s : string) :
  normalize_column_name (normalize_column_name (VStr s))
  = normalize_column_name (VStr s).
Proof. apply normalize_value_idempotent. Qed.

(** *** Transformation rules on a falsy number *)

(** C10: on the falsy number 0 the [to_number:float] and [to_number:int]
    rules return [None], their guard on a falsy input coming first, while
    [to_number:currency], which has no such guard, parses the text ["0"]
    and returns the float 0.0. *)
Theorem to_number_zero_asymmetry :
  apply_transformation (VInt 0) "to_number:float" = VNone
  /\ apply_transformation (VInt 0) "to_number:int" = VNone
  /\ apply_transformation (VInt 0) "to_number:currency"
     = VFloat (FFin false 0 0)
  /\ float_str (FFin false 0 0) = "0.0".
Proof. repeat split; reflexivity. Qed.

(** The guard of the first two rules fires on every falsy input. *)
Lemma to_number_float_falsy v :
  truthy v = false -> apply_transformation v "to_number:float" = VNone.
Proof. intros H. unfold apply_transformation. simpl. now rewrite H. Qed.

Lemma to_number_int_falsy v :
  truthy v = false -> apply_transformation v "to_number:int" = VNone.
Proof. intros H. unfold apply_transformation. simpl. now rewrite H. Qed.

Example currency_example :
  apply_transformation (VStr "$1,234.50") "to_number:currency"
  = VFloat (FFin false 123450 (-2))
  /\ float_str (FFin false 123450 (-2)) = "1234.5".
Proof. split; reflexivity. Qed.

Example normalize_upc_example :
  apply_transformation (VStr "123-456 789") "normalize_upc"
  = VStr "000123456789".
Proof. reflexivity. Qed.

Lemma apply_none v : apply_transformation v "none" = v.
Proof. reflexivity. Qed.

(** *** Row projection: the keys of an output row *)

Lemma dom_fill_blank (tpl : list string) (m : gmap string value) :
  dom (foldl (λ row header, <[header := VStr ""]> row) m tpl)
  = dom m ∪ list_to_set tpl.
Proof.
  revert m. induction tpl as [|h tpl IH]; intros m; simpl.
  - set_solver.
  - rewrite IH, dom_insert_L. set_solver.
Qed.

Lemma dom_blank_row (tpl : list string) :
  dom (blank_row tpl) = list_to_set tpl.
Proof. unfold blank_row. rewrite dom_fill_blank, dom_empty_L. set_solver. Qed.

Lemma dom_apply_mapping input_row zone (out : gmap string value) m :
  dom (apply_mapping input_row zone out m)
  = dom out ∪ (if targets_zone m then {[AD_ZONE_ID]} else ∅).
Proof.
  unfold apply_mapping, targets_zone.
  destruct (String.eqb (output_column_name m) AD_ZONE_ID) eqn:Hz.
  - apply String.eqb_eq in Hz. rewrite Hz, dom_insert_L. set_solver.
  - destruct (negb _); [|set_solver].
    destruct (input_row !! _); [|set_solver].
    destruct (out !! output_column_name m) eqn:Ho; [|set_solver].
    rewrite dom_insert_L. apply elem_of_dom_2 in Ho. set_solver.
Qed.

Lemma dom_fold_mappings input_row zone maps (out : gmap string value) :
  dom (foldl (apply_mapping input_row zone) out maps)
  = dom out ∪ (if existsb targets_zone maps then {[AD_ZONE_ID]} else ∅).
Proof.
  revert out. induction maps as [|m maps IH]; intros out; simpl.
  - set_solver.
  - rewrite IH, dom_apply_mapping.
    destruct (targets_zone m), (existsb targets_zone maps); set_solver.
Qed.

(** The keys of a projected row: the schema, and the zone column when
    some mapping targets it. *)
Lemma project_row_dom tpl maps zone input_row :
  dom (project_row tpl maps zone input_row)
  = list_to_set tpl
    ∪ (if existsb targets_zone maps then {[AD_ZONE_ID]} else ∅).
Proof. unfold project_row. now rewrite dom_fold_mappings, dom_blank_row. Qed.

(** Every schema column is present in every projected row. *)
Lemma project_row_schema_present tpl maps zone input_row header :
  header ∈ tpl -> is_Some (project_row tpl maps zone input_row !! header).
Proof.
  intros H. apply elem_of_dom. rewrite project_row_dom. set_solver.
Qed.

(** When the schema has the zone column, or no mapping targets it, the
    keys are exactly the schema. *)
Lemma project_row_dom_schema tpl maps zone input_row :
  AD_ZONE_ID ∈ tpl \/ existsb targets_zone maps = false ->
  dom (project_row tpl maps zone input_row) = list_to_set tpl.
Proof.
  intros H. rewrite project_row_dom.
  destruct H as [H| ->]; [|set_solver].
  destruct (existsb targets_zone maps); set_solver.
Qed.

(** A mapping whose input column is missing from the row leaves the
    output row as it is. *)
Lemma apply_mapping_missing_input input_row zone (out : gmap string value) m :
  targets_zone m = false ->
  input_row !! input_column_name m = None ->
  apply_mapping input_row zone out m = out.
Proof.
  unfold apply_mapping, targets_zone. intros -> ->. now destruct (negb _).
Qed.

(** C1 (the code departs from it): with a schema that lacks the column
    ["Ad Zone Id"] and a mapping whose output column is ["Ad Zone Id"],
    the projected row receives that key although it is outside the
    schema, so its key set is not the schema's column set. *)
Theorem zone_key_outside_schema :
  map_data_to_output schema_without_zone [∅] [zone_mapping] ""
  = [ <["Ad Zone Id" := VStr ""]> (<["UPC" := VStr ""]> ∅) ]
  /\ dom (project_row schema_without_zone [zone_mapping] "" ∅)
     ≠ list_to_set schema_without_zone.
Proof.
  split; [reflexivity|].
  intros H.
  assert (Hin : AD_ZONE_ID ∈ dom (project_row schema_without_zone [zone_mapping] "" ∅)).
  { rewrite project_row_dom. simpl. set_solver. }
  rewrite H in Hin. apply elem_of_list_to_set in Hin.
  apply list_elem_of_singleton in Hin. discriminate.
Qed.

(** *** The sheet scan as a fold over the cells in row-major order *)

Lemma scan_sheet_cells {A} (sh : sheet) (body : nat -> nat -> A -> A) init :
  scan_sheet sh body init
  = foldl (λ acc rc, body rc.1 rc.2 acc) init (scan_cells sh).
Proof.
  unfold scan_sheet, scan_cells.
  generalize (seq 1 (max_column sh)) as cols.
  generalize (seq 1 (max_row sh)) as rows. intros rows cols. revert init.
  induction rows as [|r rows IH]; intros init; [reflexivity|].
  rewrite bind_cons, foldl_app. simpl. rewrite IH. f_equal.
  clear IH. revert init.
  induction cols as [|c cols IHc]; intros a; [reflexivity|].
  simpl. apply IHc.
Qed.

(** *** Deal header: the last qualifying match wins *)

Lemma scan_deal_cell_field sh r c f dh :
  field_value f (scan_deal_cell sh r c dh)
  = default (field_value f dh) (qualifying_match sh f r c).
Proof.
  unfold scan_deal_cell, qualifying_match, label_field.
  destruct (cell_value sh r c) as [| | | |s|]; try reflexivity.
  destruct (Py.nonempty s); [|reflexivity].
  destruct (String.eqb _ "manufacturer").
  { destruct f; simpl; try reflexivity; now destruct (probe_vendor sh r c). }
  destruct (Py.contains "deal start date" _).
  { destruct f; simpl; try reflexivity; now destruct (probe_date sh r c). }
  destruct (Py.contains "deal end date" _).
  { destruct f; simpl; try reflexivity; now destruct (probe_date sh r c). }
  destruct (Py.contains "deal cost date" _).
  { destruct f; simpl; try reflexivity; now destruct (probe_date sh r c). }
  reflexivity.
Qed.

(** Cells without a qualifying match leave the field as it is. *)
Lemma scan_cells_no_match sh f cells dh :
  (forall r c, (r, c) ∈ cells -> qualifying_match sh f r c = None) ->
  field_value f (foldl (λ acc rc, scan_deal_cell sh rc.1 rc.2 acc) dh cells)
  = field_value f dh.
Proof.
  revert dh. induction cells as [|[r c] cells IH]; intros dh H; [reflexivity|].
  simpl. rewrite IH.
  - rewrite scan_deal_cell_field, (H r c); [reflexivity|constructor].
  - intros r' c' Hin. apply H. now constructor.
Qed.

(** C2: when a label of a deal-header field qualifies at several cells,
    the extracted field is the value produced by the last qualifying
    match in row-major scan order; every later qualifying match
    overwrites the value of the earlier ones. *)
Theorem deal_header_last_match_wins sh name f pre r c post v :
  scan_cells sh = (pre ++ (r, c) :: post)%list ->
  qualifying_match sh f r c = Some v ->
  (forall r' c', (r', c') ∈ post -> qualifying_match sh f r' c' = None) ->
  exists dh, extract_deal_header sh name = Some dh /\ field_value f dh = v.
Proof.
  intros Hcells Hm Hpost. eexists. split; [reflexivity|].
  rewrite scan_sheet_cells, Hcells, foldl_app. simpl.
  rewrite scan_cells_no_match by exact Hpost.
  now rewrite scan_deal_cell_field, Hm.
Qed.

Lemma deal_header_last_match_wins_witness :
  qualifying_match two_vendors_sheet Vendor 1 1 = Some "ACME"
  /\ exists dh, extract_deal_header two_vendors_sheet "deal" = Some dh
                /\ field_value Vendor dh = "Zenith".
Proof.
  split; [reflexivity|].
  apply (deal_header_last_match_wins two_vendors_sheet "deal" Vendor
           [(1, 1); (1, 2); (1, 3)] 2 1 [(2, 2); (2, 3)] "Zenith").
  - reflexivity.
  - reflexivity.
  - intros r' c' Hin.
    apply list_elem_of_In in Hin. simpl in Hin.
    destruct Hin as [[= <- <-]|[[= <- <-]|[]]]; reflexivity.
Defined.

(** A field whose label never qualifies keeps its default, the empty
    string. *)
Lemma deal_header_no_match sh name f :
  (forall r c, (r, c) ∈ scan_cells sh -> qualifying_match sh f r c = None) ->
  exists dh, extract_deal_header sh name = Some dh /\ field_value f dh = "".
Proof.
  intros H. eexists. split; [reflexivity|].
  rewrite scan_sheet_cells, scan_cells_no_match by exact H. now destruct f.
Qed.

(** *** Zone selection *)

Section ZoneCell.

Variables (sh : sheet) (r c : nat).

Lemma probe_marker_existsb offsets :
  probe_marker sh r c offsets
  = existsb (λ offset, is_marked (cell_value sh r (c + offset))) offsets.
Proof.
  induction offsets as [|o offsets IH]; [reflexivity|].
  cbn [probe_marker existsb]. unfold is_marked at 1.
  destruct (truthy _); [|exact IH].
  destruct (Py.mem _ _); [reflexivity|exact IH].
Qed.

Lemma scan_labels_find text labels marked :
  scan_labels sh r c text labels marked
  = match List.find (λ kv, Py.contains kv.1 text) labels with
    | Some (_, display) =>
        if marked_within 14 sh r c then record_zone marked display else marked
    | None => marked
    end.
Proof.
  induction labels as [|[k d] labels IH]; [reflexivity|].
  cbn [scan_labels List.find fst]. destruct (Py.contains k text); [|exact IH].
  unfold marked_within. rewrite probe_marker_existsb.
  destruct (existsb _ (seq 1 14)); [|reflexivity].
  unfold record_zone. now destruct (Py.mem d marked).
Qed.

Lemma scan_zone_cell_zone_at marked :
  scan_zone_cell sh r c marked
  = match zone_at 14 sh r c with
    | Some display => record_zone marked display
    | None => marked
    end.
Proof.
  unfold scan_zone_cell, zone_at, zone_label.
  destruct (cell_value sh r c) as [| | | |s|]; try reflexivity.
  destruct (Py.nonempty s); [|reflexivity].
  rewrite scan_labels_find.
  destruct (List.find _ tpr_labels) as [[k d]|]; [|reflexivity].
  simpl. now destruct (marked_within 14 sh r c).
Qed.

End ZoneCell.

Lemma fold_zone_cells sh cells marked :
  foldl (λ acc rc, scan_zone_cell sh rc.1 rc.2 acc) marked cells
  = foldl record_zone marked (omap (λ rc, zone_at 14 sh rc.1 rc.2) cells).
Proof.
  revert marked. induction cells as [|[r c] cells IH]; intros marked;
    [reflexivity|].
  simpl. rewrite IH, scan_zone_cell_zone_at.
  now destruct (zone_at 14 sh r c).
Qed.

(** What the scan computes: the zones recorded at the cells in row-major
    order, each kept once at its first discovery, joined with [" ~"].
    Marks are looked for in the 14 columns to the right of a label. *)
Lemma extract_ad_zone_id_scan sh :
  extract_ad_zone_id sh
  = Py.join " ~"
      (foldl record_zone []
             (omap (λ rc, zone_at 14 sh rc.1 rc.2) (scan_cells sh))).
Proof.
  unfold extract_ad_zone_id.
  rewrite scan_sheet_cells, fold_zone_cells.
  now destruct (foldl record_zone [] _).
Qed.

Lemma mem_elem_of x (l : list string) : Py.mem x l = true <-> x ∈ l.
Proof.
  unfold Py.mem. rewrite existsb_exists. split.
  - intros (y & Hy & He). apply String.eqb_eq in He as ->.
    now apply list_elem_of_In.
  - intros H. exists x. split; [now apply list_elem_of_In|apply String.eqb_refl].
Qed.

Lemma record_zone_fold_elem (zs acc : list string) x :
  x ∈ foldl record_zone acc zs <-> x ∈ acc \/ x ∈ zs.
Proof.
  revert acc. induction zs as [|z zs IH]; intros acc; simpl.
  - rewrite elem_of_nil. tauto.
  - rewrite IH, elem_of_cons. unfold record_zone.
    destruct (Py.mem z acc) eqn:Hm.
    + apply mem_elem_of in Hm. split; [tauto|].
      intros [H|[->|H]]; tauto.
    + rewrite elem_of_app, list_elem_of_singleton. tauto.
Qed.

Lemma record_zone_fold_NoDup (zs acc : list string) :
  NoDup acc -> NoDup (foldl record_zone acc zs).
Proof.
  revert acc. induction zs as [|z zs IH]; intros acc Hacc; [exact Hacc|].
  simpl. apply IH. unfold record_zone.
  destruct (Py.mem z acc) eqn:Hm; [exact Hacc|].
  apply NoDup_app. split; [exact Hacc|]. split; [|apply NoDup_singleton].
  intros x Hx Hx'. apply list_elem_of_singleton in Hx' as ->.
  apply mem_elem_of in Hx. congruence.
Qed.

(** The recorded zones are pairwise distinct, and a zone is recorded iff
    some cell of the scan yields it. *)
Lemma marked_zones_spec sh :
  let zones :=
    foldl record_zone []
          (omap (λ rc, zone_at 14 sh rc.1 rc.2) (scan_cells sh)) in
  NoDup zones
  /\ forall display,
       display ∈ zones
       <-> exists r c, (r, c) ∈ scan_cells sh
                       /\ zone_at 14 sh r c = Some display.
Proof.
  split; [apply record_zone_fold_NoDup; constructor|].
  intros display. rewrite record_zone_fold_elem, elem_of_nil, list_elem_of_omap.
  split.
  - intros [[]|([r c] & Hin & Hz)]. now exists r, c.
  - intros (r & c & Hin & Hz). right. now exists (r, c).
Qed.

Example two_zones_example :
  extract_ad_zone_id two_zones_sheet = "TPR All Stores ~TPR Price Chopper".
Proof. reflexivity. Qed.

Example no_zone_example : extract_ad_zone_id [[VStr "TPR All Stores"]] = "".
Proof. reflexivity. Qed.

(** C6 (the code departs from it): a zone label whose mark sits exactly
    15 columns to its right is not selected, the probe stopping after 14
    columns; with the mark 14 columns away the label is selected. *)
Theorem zone_mark_at_fifteen_missed :
  cell_value (zone_sheet 15) 1 (1 + 15) = VStr "X"
  /\ is_marked (VStr "X") = true
  /\ extract_ad_zone_id (zone_sheet 15) = ""
  /\ extract_ad_zone_id (zone_sheet 14) = "TPR All Stores".
Proof. repeat split; reflexivity. Qed.

(** *** Mapping repository: resolution *)

Lemma resolve_skip idx e company_ category_ :
  entry_matches e company_ category_ = false ->
  get_mapping_sheet_by_company (e :: idx) company_ category_
  = get_mapping_sheet_by_company idx company_ category_.
Proof. unfold entry_matches. simpl. now intros ->. Qed.

Lemma resolve_none idx company_ category_ :
  (forall e, e ∈ idx -> entry_matches e company_ category_ = false) ->
  get_mapping_sheet_by_company idx company_ category_ = VNone.
Proof.
  induction idx as [|e idx IH]; intros H; [reflexivity|].
  rewrite resolve_skip by (apply H; constructor).
  apply IH. intros e' He'. apply H. now constructor.
Qed.

Lemma resolve_first pre e post company_ category_ :
  entry_matches e company_ category_ = true ->
  (forall e', e' ∈ pre -> entry_matches e' company_ category_ = false) ->
  get_mapping_sheet_by_company (pre ++ e :: post)%list company_ category_
  = mapping_sheet_name e.
Proof.
  intros He. induction pre as [|p pre IH]; intros Hpre.
  - simpl. unfold entry_matches in He. now rewrite He.
  - change ((p :: pre) ++ e :: post)%list with (p :: (pre ++ e :: post))%list.
    rewrite resolve_skip by (apply Hpre; constructor).
    apply IH. intros e' He'. apply Hpre. now constructor.
Qed.

(** A request whose company resolves to a falsy sheet name fails. *)
Lemma process_file_unresolved idx rules tpl upload company_ name :
  truthy (get_mapping_sheet_by_company idx company_ "Deal Submissions")
  = false ->
  process_file idx rules tpl upload company_ name
  = inl (HTTPException 500
           ("Error processing file: 400: " ++ NO_MAPPING_DETAIL company_)).
Proof.
  intros H. unfold process_file, process_file_body. now rewrite H.
Qed.

(** C8 (the code departs from it): resolution returns the sheet name of
    the first index entry whose company and category both equal the
    given ones exactly, and [None] when no entry matches both.  For an
    unresolved company the request raises the error of a missing
    mapping, with status 400, and returns no result; but the error is
    raised inside the [try] block, whose last handler takes it, and
    the request is answered with status 500. *)
Theorem resolve_first_match_or_fail idx company_ category_ :
  (forall pre e post,
      idx = (pre ++ e :: post)%list ->
      entry_matches e company_ category_ = true ->
      (forall e', e' ∈ pre -> entry_matches e' company_ category_ = false) ->
      get_mapping_sheet_by_company idx company_ category_
      = mapping_sheet_name e)
  /\ ((forall e, e ∈ idx -> entry_matches e company_ category_ = false) ->
      get_mapping_sheet_by_company idx company_ category_ = VNone)
  /\ (forall rules tpl upload name,
         (forall e, e ∈ idx ->
                    entry_matches e company_ "Deal Submissions" = false) ->
         process_file_body idx rules tpl upload company_ name
         = inl (HTTPException 400
                  ("No mapping configuration found for company '"
                   ++ company_
                   ++ "' in Deal Submissions category. Please check your mapping rules."))
         /\ exists detail_,
              process_file idx rules tpl upload company_ name
              = inl (HTTPException 500 detail_)).
Proof.
  split; [|split].
  - intros pre e post -> He Hpre. now apply resolve_first.
  - apply resolve_none.
  - intros rules tpl upload name H.
    apply resolve_none in H. split.
    + unfold process_file_body. now rewrite H.
    + eexists. apply process_file_unresolved. now rewrite H.
Qed.

Lemma sample_index_no_match e :
  e ∈ sample_index -> entry_matches e "acme" "Deal Submissions" = false.
Proof.
  intros H. apply list_elem_of_In in H. simpl in H.
  destruct H as [<-|[<-|[<-|[]]]]; reflexivity.
Qed.

Lemma resolve_first_match_or_fail_witness :
  get_mapping_sheet_by_company sample_index "Acme" "Deal Submissions"
  = VStr "cosentino_a"
  /\ get_mapping_sheet_by_company sample_index "acme" "Deal Submissions"
     = VNone
  /\ exists detail_,
       process_file sample_index [] ["UPC"] no_marker_sheet "acme" "deal"
       = inl (HTTPException 500 detail_).
Proof.
  split; [|split].
  - apply (proj1 (resolve_first_match_or_fail
                    sample_index "Acme" "Deal Submissions")
             [mk_index_entry "Other" "" (VStr "other_map") VNone
                             (VStr "Deal Submissions")]
             (mk_index_entry "Acme" "" (VStr "cosentino_a") VNone
                             (VStr "Deal Submissions"))
             [mk_index_entry "Acme" "" (VStr "cosentino_b") VNone
                             (VStr "Deal Submissions")]).
    + reflexivity.
    + reflexivity.
    + intros e' He'. apply list_elem_of_singleton in He' as ->. reflexivity.
  - apply (proj1 (proj2 (resolve_first_match_or_fail
                           sample_index "acme" "Deal Submissions"))).
    apply sample_index_no_match.
  - apply (proj2 (proj2 (resolve_first_match_or_fail
                           sample_index "acme" "Deal Submissions"))
             [] ["UPC"] no_marker_sheet "deal").
    apply sample_index_no_match.
Defined.

(** *** Region locator: no header marker *)

Lemma row_values_elem sh r v :
  v ∈ row_values sh r -> exists c, v = cell_value sh r c.
Proof.
  unfold row_values. intros (c & -> & _)%list_elem_of_fmap. now exists c.
Qed.

Lemma find_awg_header_row_in_none (rows : list (nat * list value)) :
  (forall idx row v, (idx, row) ∈ rows -> v ∈ row -> is_awg_cell v = false) ->
  find_awg_header_row_in rows = None.
Proof.
  induction rows as [|[idx row] rows IH]; intros H; [reflexivity|].
  simpl.
  assert (Hrow : existsb is_awg_cell row = false).
  { apply not_true_is_false. intros (v & Hv & Ht)%existsb_exists.
    rewrite (H idx row v) in Ht; [discriminate|constructor|].
    now apply list_elem_of_In. }
  rewrite Hrow. apply IH. intros idx' row' v Hin. apply (H idx' row' v).
  now constructor.
Qed.

Lemma find_awg_header_row_none sh :
  (forall r c s, cell_value sh r c = VStr s ->
                 Py.contains HEADER_MARKER s = false) ->
  find_awg_header_row sh = None.
Proof.
  intros H. apply find_awg_header_row_in_none.
  intros idx row v Hin Hv. unfold iter_rows in Hin.
  apply list_elem_of_fmap in Hin as (r & [= -> ->] & _).
  apply row_values_elem in Hv as (c & ->).
  unfold is_awg_cell. destruct (cell_value sh r c) eqn:Hc; try reflexivity.
  rewrite (H r c s Hc). apply andb_false_r.
Qed.

Lemma contains_nonempty sub s :
  Py.nonempty sub = true -> Py.contains sub s = true -> Py.nonempty s = true.
Proof. destruct s; [|reflexivity]. now destruct sub. Qed.

Lemma lower_nonempty s : Py.nonempty (Py.lower s) = Py.nonempty s.
Proof. now destruct s. Qed.

(** C5: on a worksheet none of whose string cells contains the header
    marker ["AWG Item Code"], region extraction fails with the error of a
    missing structure and returns nothing else; the request is answered
    with the client-input status 400 and no result. *)
Theorem no_header_marker_fails sh :
  (forall r c s, cell_value sh r c = VStr s ->
                 Py.contains HEADER_MARKER s = false) ->
  extract_cosentino_data sh = inl (ValueError NO_HEADER_MESSAGE)
  /\ forall idx rules tpl company_ name n,
       get_mapping_sheet_by_company idx company_ "Deal Submissions" = VStr n ->
       Py.contains "cosentino" (Py.lower n) = true ->
       process_file idx rules tpl sh company_ name
       = inl (HTTPException 400 NO_HEADER_MESSAGE).
Proof.
  intros H.
  assert (Hex : extract_cosentino_data sh = inl (ValueError NO_HEADER_MESSAGE)).
  { unfold extract_cosentino_data. now rewrite find_awg_header_row_none. }
  split; [exact Hex|].
  intros idx rules tpl company_ name n Hn Hc.
  unfold process_file, process_file_body. rewrite Hn.
  assert (Ht : truthy (VStr n) = true).
  { simpl. rewrite <- lower_nonempty.
    now apply (contains_nonempty "cosentino"). }
  rewrite Ht. simpl. now rewrite Hc, Hex.
Qed.

Lemma no_header_marker_fails_witness :
  extract_cosentino_data no_marker_sheet = inl (ValueError NO_HEADER_MESSAGE)
  /\ process_file sample_index [] ["UPC"] no_marker_sheet "Acme" "deal"
     = inl (HTTPException 400 NO_HEADER_MESSAGE).
Proof.
  assert (H : forall r c s, cell_value no_marker_sheet r c = VStr s ->
                            Py.contains HEADER_MARKER s = false).
  { intros r c s.
    destruct r as [|[|[|r]]]; try discriminate;
      destruct c as [|[|[|c]]]; try discriminate;
      intros [= <-]; reflexivity. }
  destruct (no_header_marker_fails no_marker_sheet H) as [H1 H2].
  split; [exact H1|].
  apply (H2 sample_index [] ["UPC"] "Acme" "deal" "cosentino_a");
    reflexivity.
Defined.

(** *** Region locator: header row, stop row and data interval *)

Lemma length_row_values sh r : length (row_values sh r) = max_column sh.
Proof. unfold row_values. now rewrite length_fmap, length_seq. Qed.

Lemma row_values_lookup sh r c :
  c < max_column sh -> row_values sh r !! c = Some (cell_value sh r (S c)).
Proof.
  intros H. unfold row_values.
  rewrite list_lookup_fmap, lookup_seq_lt by exact H. reflexivity.
Qed.

Lemma cell_value_beyond sh r c :
  max_column sh <= c -> cell_value sh r (S c) = VNone.
Proof.
  intros H. destruct r as [|r]; [reflexivity|]. simpl.
  destruct (sh !! r) as [row|] eqn:Hrow; [|reflexivity]. simpl.
  rewrite lookup_ge_None_2; [reflexivity|].
  assert (length row <= max_list (length <$> sh)).
  { apply max_list_elem_of_le, list_elem_of_fmap.
    exists row. split; [reflexivity|]. eapply list_elem_of_lookup_2, Hrow. }
  unfold max_column in H. lia.
Qed.

Lemma is_stop_row_column_b sh r :
  is_stop_row (row_values sh r) = column_b_marked sh r.
Proof.
  unfold is_stop_row, column_b_marked. rewrite length_row_values.
  destruct (Nat.ltb_spec 1 (max_column sh)) as [H|H].
  - rewrite row_values_lookup by exact H. simpl.
    destruct (cell_value sh r 2) as [| | | |s|]; try reflexivity.
    destruct (Py.contains STOP_MARKER (Py.lower s)) eqn:Hc.
    + rewrite <- lower_nonempty.
      now rewrite (contains_nonempty STOP_MARKER _ eq_refl Hc).
    + apply andb_false_r.
  - rewrite cell_value_beyond by lia. reflexivity.
Qed.

(** The stop row found in rows [m], ..., [m + n - 1]. *)
Lemma find_stop_in_seq sh m n :
  match find_manufacturer_stop_row_in
          ((λ r, (r, row_values sh r)) <$> seq m n) with
  | Some s =>
      m <= s < m + n /\ column_b_marked sh s = true
      /\ forall r, m <= r < s -> column_b_marked sh r = false
  | None => forall r, m <= r < m + n -> column_b_marked sh r = false
  end.
Proof.
  revert m. induction n as [|n IH]; intros m; simpl.
  - intros r Hr. lia.
  - rewrite is_stop_row_column_b.
    destruct (column_b_marked sh m) eqn:Hm.
    + split; [lia|]. split; [exact Hm|]. intros r Hr. lia.
    + specialize (IH (S m)).
      destruct (find_manufacturer_stop_row_in _) as [s|].
      * destruct IH as (Hs & Hmk & Hbefore). split; [lia|]. split; [exact Hmk|].
        intros r Hr. destruct (Nat.eq_dec r m) as [->|Hne]; [exact Hm|].
        apply Hbefore. lia.
      * intros r Hr. destruct (Nat.eq_dec r m) as [->|Hne]; [exact Hm|].
        apply IH. lia.
Qed.

Lemma find_manufacturer_stop_row_spec sh m :
  m <= S (max_row sh) ->
  match find_manufacturer_stop_row sh m with
  | Some s =>
      m <= s <= max_row sh /\ column_b_marked sh s = true
      /\ forall r, m <= r < s -> column_b_marked sh r = false
  | None => forall r, m <= r <= max_row sh -> column_b_marked sh r = false
  end.
Proof.
  intros Hm. unfold find_manufacturer_stop_row, iter_rows.
  pose proof (find_stop_in_seq sh m (S (max_row sh) - m)) as H.
  destruct (find_manufacturer_stop_row_in _) as [s|].
  - destruct H as (Hs & Hmk & Hbefore). split; [lia|]. now split.
  - intros r Hr. apply H. lia.
Qed.

(** The header row found in rows [m], ..., [m + n - 1]: the first one
    with a cell that contains the header marker. *)
Lemma find_awg_in_seq sh m n h :
  find_awg_header_row_in ((λ r, (r, row_values sh r)) <$> seq m n) = Some h ->
  m <= h < m + n
  /\ existsb is_awg_cell (row_values sh h) = true
  /\ forall r, m <= r < h -> existsb is_awg_cell (row_values sh r) = false.
Proof.
  revert m. induction n as [|n IH]; intros m; simpl; [discriminate|].
  destruct (existsb is_awg_cell (row_values sh m)) eqn:Hm.
  - intros [= <-]. split; [lia|]. split; [exact Hm|]. intros r Hr. lia.
  - intros H. apply IH in H as (Hh & Hc & Hbefore).
    split; [lia|]. split; [exact Hc|].
    intros r Hr. destruct (Nat.eq_dec r m) as [->|Hne]; [exact Hm|].
    apply Hbefore. lia.
Qed.

Lemma find_awg_header_row_spec sh h :
  find_awg_header_row sh = Some h ->
  1 <= h <= max_row sh
  /\ existsb is_awg_cell (row_values sh h) = true
  /\ forall r, 1 <= r < h -> existsb is_awg_cell (row_values sh r) = false.
Proof.
  unfold find_awg_header_row, iter_rows. intros H.
  apply find_awg_in_seq in H as (Hh & Hc & Hbefore).
  split; [lia|]. now split.
Qed.

(** The shape of a successful extraction. *)
Lemma extract_cosentino_data_found sh h :
  find_awg_header_row sh = Some h ->
  exists ex n,
    extract_cosentino_data sh = inr ex
    /\ valid_headers ex = omap header_key (normalized_headers sh h)
    /\ data_rows ex
       = omap (extract_row sh (normalized_headers sh h)) (seq (h + 1) n).
Proof.
  intros Hfind.
  destruct (find_awg_header_row_spec sh h Hfind) as (Hh & _ & _).
  unfold extract_cosentino_data. rewrite Hfind.
  destruct h as [|h']; [lia|]. cbn [idx_truthy negb default from_option id].
  eexists. eexists. split; [reflexivity|]. split; reflexivity.
Qed.

(** C3: with the header marker found in row [h], the stop row is the
    first row from [h + 1] on whose column B contains the stop marker
    (case-insensitively); the data rows are read from the rows of the
    half-open interval from [h + 1] to the stop row, and from all the
    rows down to the last one when there is no stop row. *)
Theorem region_locator_bounds sh h :
  find_awg_header_row sh = Some h ->
  exists ex,
    extract_cosentino_data sh = inr ex
    /\ header_row_idx ex = h
    /\ stop_row_idx ex = find_manufacturer_stop_row sh (h + 1)
    /\ (forall s, stop_row_idx ex = Some s ->
          h + 1 <= s <= max_row sh
          /\ column_b_marked sh s = true
          /\ (forall r, h + 1 <= r < s -> column_b_marked sh r = false)
          /\ data_rows ex
             = omap (extract_row sh (normalized_headers sh h))
                    (seq (h + 1) (s - (h + 1))))
    /\ (stop_row_idx ex = None ->
          (forall r, h + 1 <= r <= max_row sh -> column_b_marked sh r = false)
          /\ data_rows ex
             = omap (extract_row sh (normalized_headers sh h))
                    (seq (h + 1) (max_row sh - h))).
Proof.
  intros Hfind.
  destruct (find_awg_header_row_spec sh h Hfind) as (Hh & _ & _).
  unfold extract_cosentino_data. rewrite Hfind.
  destruct h as [|h']; [lia|]. cbn [idx_truthy negb default from_option id].
  eexists. split; [reflexivity|]. cbn [header_row_idx stop_row_idx data_rows].
  split; [reflexivity|]. split; [reflexivity|].
  pose proof (find_manufacturer_stop_row_spec sh (S h' + 1)) as Hstop.
  destruct (find_manufacturer_stop_row sh (S h' + 1)) as [s|]; split.
  - intros s' [= ->]. destruct Hstop as (Hs & Hmk & Hbefore); [lia|].
    split; [lia|]. split; [exact Hmk|]. split; [exact Hbefore|].
    destruct s' as [|s]; [lia|]. reflexivity.
  - discriminate.
  - discriminate.
  - intros _. split; [apply Hstop; lia|].
    cbn [idx_truthy default from_option id]. do 2 f_equal. lia.
Qed.

Lemma region_locator_bounds_witness :
  find_awg_header_row region_sheet = Some 5
  /\ exists ex,
       extract_cosentino_data region_sheet = inr ex
       /\ header_row_idx ex = 5
       /\ stop_row_idx ex = Some 9
       /\ data_rows ex = region_rows.
Proof.
  split; [reflexivity|].
  destruct (region_locator_bounds region_sheet 5 eq_refl)
    as (ex & Hex & Hh & Hs & Hsome & _).
  exists ex. split; [exact Hex|]. split; [exact Hh|].
  assert (Hstop : stop_row_idx ex = Some 9) by (rewrite Hs; reflexivity).
  split; [exact Hstop|].
  destruct (Hsome 9 Hstop) as (_ & _ & _ & ->). reflexivity.
Defined.

(** *** Data extraction: surviving cells and kept rows *)

Lemma cell_survives_false v :
  cell_survives v = false
  <-> v = VNone \/ Py.startswith "#" (py_str v) = true
      \/ Py.startswith "=" (py_str v) = true.
Proof.
  assert (H : forall a b : bool,
             negb a && negb b = false <-> a = true \/ b = true).
  { intros [] []; simpl; intuition discriminate. }
  destruct v; unfold cell_survives; rewrite ?H;
    try (split; [tauto|intros [?|?]; [discriminate|assumption]]).
  split; [now left|reflexivity].
Qed.

Lemma fill_row_data_pairs headers row idx (m : gmap string value) :
  fill_row_data headers idx row m
  = foldl (λ acc kv, <[kv.1 := kv.2]> acc) m
          (surviving_pairs (drop idx headers) row).
Proof.
  revert idx m. induction row as [|v row IH]; intros idx m.
  - unfold surviving_pairs. now rewrite zip_with_nil_r.
  - cbn [fill_row_data]. rewrite IH.
    destruct (headers !! idx) as [h|] eqn:Hh.
    + rewrite (drop_S _ _ _ Hh). unfold surviving_pairs.
      cbn [zip_with omap]. simpl.
      destruct (header_key h) as [k|]; simpl; [|reflexivity].
      now destruct (cell_survives v).
    + apply lookup_ge_None_1 in Hh. rewrite !drop_ge by lia. reflexivity.
Qed.

Lemma foldl_insert_list_to_map (l : list (string * value)) :
  foldl (λ acc kv, <[kv.1 := kv.2]> acc) (∅ : gmap string value) l
  = list_to_map (reverse l).
Proof.
  induction l as [|[k v] l IH] using rev_ind; [reflexivity|].
  rewrite foldl_app, reverse_app. simpl. now rewrite IH.
Qed.

(** The record of a row keeps, for each header, its last surviving
    cell. *)
Lemma row_record_pairs sh headers r :
  row_record sh headers r
  = list_to_map (reverse (surviving_pairs headers (row_values sh r))).
Proof.
  unfold row_record. now rewrite fill_row_data_pairs, foldl_insert_list_to_map.
Qed.

Lemma any_value_spec (m : gmap string value) :
  any_value m = true <-> exists k v, m !! k = Some v /\ truthy v = true.
Proof.
  unfold any_value. rewrite existsb_exists. split.
  - intros (v & Hv & Ht). apply list_elem_of_In, list_elem_of_fmap in Hv.
    destruct Hv as ([k v'] & -> & Hkv). exists k, v'.
    split; [now apply elem_of_map_to_list|exact Ht].
  - intros (k & v & Hkv & Ht). exists v. split; [|exact Ht].
    apply list_elem_of_In, list_elem_of_fmap. exists (k, v).
    split; [reflexivity|now apply elem_of_map_to_list].
Qed.

Lemma extract_row_kept sh headers r :
  is_Some (extract_row sh headers r)
  <-> exists k v, row_record sh headers r !! k = Some v /\ truthy v = true.
Proof.
  unfold extract_row. rewrite <- any_value_spec.
  destruct (any_value _); split; intros H; try done.
Qed.

Lemma surviving_keys_sublist headers row :
  (surviving_pairs headers row).*1 `sublist_of` omap header_key headers.
Proof.
  revert row. induction headers as [|h headers IH]; intros row.
  - constructor.
  - destruct row as [|v row].
    + unfold surviving_pairs. rewrite zip_with_nil_r. apply sublist_nil_l.
    + unfold surviving_pairs. cbn [zip_with omap]. simpl.
      fold (surviving_pairs headers row).
      destruct (header_key h) as [k|]; simpl; [|apply IH].
      destruct (cell_survives v); simpl.
      * apply sublist_skip, IH.
      * apply sublist_cons, IH.
Qed.

(** With pairwise distinct headers, the record holds exactly the
    surviving cells. *)
Lemma row_record_distinct sh headers r k v :
  NoDup (omap header_key headers) ->
  row_record sh headers r !! k = Some v
  <-> (k, v) ∈ surviving_pairs headers (row_values sh r).
Proof.
  intros Hnd. rewrite row_record_pairs.
  rewrite <- elem_of_list_to_map.
  - now rewrite elem_of_reverse.
  - rewrite fmap_reverse, reverse_Permutation.
    eapply sublist_NoDup; [exact Hnd|apply surviving_keys_sublist].
Qed.

(** The rows a run of the loop over data rows keeps: those with data,
    in the order of the run. *)
Lemma omap_extract_rows sh headers rows :
  exists kept,
    omap (extract_row sh headers) rows = row_record sh headers <$> kept
    /\ kept `sublist_of` rows
    /\ forall r, r ∈ kept
                 <-> r ∈ rows /\ has_data (row_record sh headers r).
Proof.
  induction rows as [|r0 rows (kept & Hrows & Hsub & Hin)].
  - exists []. split; [reflexivity|]. split; [constructor|].
    intros r. rewrite !elem_of_nil. tauto.
  - change (omap (extract_row sh headers) (r0 :: rows))
      with (match extract_row sh headers r0 with
            | Some rec => rec :: omap (extract_row sh headers) rows
            | None => omap (extract_row sh headers) rows
            end).
    unfold extract_row at 1.
    pose proof (any_value_spec (row_record sh headers r0)) as Hany.
    fold (has_data (row_record sh headers r0)) in Hany.
    destruct (any_value (row_record sh headers r0)).
    + exists (r0 :: kept). split; [now rewrite Hrows|].
      split; [now apply sublist_skip|].
      intros r. rewrite !elem_of_cons, Hin. split.
      * intros [->|[Hr Hd]]; [split; [now left|now apply Hany]|].
        split; [now right|exact Hd].
      * intros [[->|Hr] Hd]; [now left|right; now split].
    + exists kept. split; [exact Hrows|].
      split; [now apply sublist_cons|].
      intros r. rewrite elem_of_cons, Hin. split.
      * intros [Hr Hd]. split; [now right|exact Hd].
      * intros [[->|Hr] Hd]; [|now split].
        apply Hany in Hd. discriminate.
Qed.

(** A successful extraction reads the rows after the header row, up to
    the stop row or through the last row. *)
Lemma extract_cosentino_data_region sh h :
  find_awg_header_row sh = Some h ->
  exists ex e,
    extract_cosentino_data sh = inr ex
    /\ valid_headers ex = omap header_key (normalized_headers sh h)
    /\ stop_row_idx ex = find_manufacturer_stop_row sh (h + 1)
    /\ data_rows ex
       = omap (extract_row sh (normalized_headers sh h))
              (seq (h + 1) (e - (h + 1)))
    /\ h + 1 <= e <= max_row sh + 1
    /\ (forall s, stop_row_idx ex = Some s -> e = s)
    /\ (stop_row_idx ex = None -> e = max_row sh + 1).
Proof.
  intros Hfind.
  destruct (find_awg_header_row_spec sh h Hfind) as (Hh & _ & _).
  unfold extract_cosentino_data. rewrite Hfind.
  destruct h as [|h']; [lia|]. cbn [idx_truthy negb default from_option id].
  pose proof (find_manufacturer_stop_row_spec sh (S h' + 1)) as Hstop.
  destruct (find_manufacturer_stop_row sh (S h' + 1)) as [s|] eqn:Hs.
  - destruct Hstop as (Hrange & _ & _); [lia|].
    destruct s as [|s]; [lia|].
    eexists. exists (S s). cbn [idx_truthy default from_option id].
    split; [reflexivity|]. cbn [valid_headers stop_row_idx data_rows].
    split; [reflexivity|]. split; [reflexivity|].
    split; [reflexivity|]. split; [lia|].
    split; [now intros s' [= <-]|discriminate].
  - eexists. exists (max_row sh + 1). cbn [idx_truthy default from_option id].
    split; [reflexivity|]. cbn [valid_headers stop_row_idx data_rows].
    split; [reflexivity|]. split; [reflexivity|].
    split; [reflexivity|]. split; [lia|].
    split; [discriminate|reflexivity].
Qed.

(** C4, as amended: a cell is skipped iff it is null or its string form
    begins with [#] or [=]; the record of a row keeps, for each header,
    the last surviving cell under it; the result holds the records of
    the rows of the data region, those after the header row and before
    the stop row or through the last row, that have a truthy value in
    their record, in worksheet order and no other; with pairwise
    distinct headers a record has a truthy value iff some surviving
    cell of the row is truthy. *)
Theorem extraction_keeps_rows_with_data sh h :
  find_awg_header_row sh = Some h ->
  let headers := normalized_headers sh h in
  (forall v, cell_survives v = false
             <-> v = VNone \/ Py.startswith "#" (py_str v) = true
                 \/ Py.startswith "=" (py_str v) = true)
  /\ (forall r, row_record sh headers r
                = list_to_map
                    (reverse (surviving_pairs headers (row_values sh r))))
  /\ (NoDup (omap header_key headers) ->
      forall r, has_data (row_record sh headers r)
                <-> exists k v,
                      (k, v) ∈ surviving_pairs headers (row_values sh r)
                      /\ truthy v = true)
  /\ exists ex kept,
       extract_cosentino_data sh = inr ex
       /\ valid_headers ex = omap header_key headers
       /\ stop_row_idx ex = find_manufacturer_stop_row sh (h + 1)
       /\ data_rows ex = row_record sh headers <$> kept
       /\ kept `sublist_of` seq (h + 1) (max_row sh - h)
       /\ forall r,
            r ∈ kept
            <-> h + 1 <= r <= max_row sh
                /\ (forall s, stop_row_idx ex = Some s -> r < s)
                /\ has_data (row_record sh headers r).
Proof.
  intros Hfind headers.
  split; [apply cell_survives_false|].
  split; [intros r; apply row_record_pairs|].
  split.
  { intros Hnd r. unfold has_data.
    split; intros (k & v & Hkv & Ht); exists k, v; split; try exact Ht;
      now apply (row_record_distinct sh headers r k v Hnd). }
  destruct (extract_cosentino_data_region sh h Hfind)
    as (ex & e & Hex & Hv & Hstop & Hrows & He & Hsome & Hnone).
  destruct (omap_extract_rows sh headers (seq (h + 1) (e - (h + 1))))
    as (kept & Hkept & Hsub & Hin).
  exists ex, kept. split; [exact Hex|]. split; [exact Hv|].
  split; [exact Hstop|]. split; [now rewrite Hrows|]. split.
  - etrans; [exact Hsub|].
    replace (max_row sh - h) with ((e - (h + 1)) + (max_row sh + 1 - e))
      by lia.
    rewrite seq_app. now apply sublist_inserts_r.
  - intros r. rewrite Hin, elem_of_seq. split.
    + intros [Hr Hd]. split; [lia|]. split; [|exact Hd].
      intros s Hs. apply Hsome in Hs. lia.
    + intros (Hr & Hs & Hd). split; [|exact Hd].
      destruct (stop_row_idx ex) as [s|] eqn:Hstopex.
      * specialize (Hs s eq_refl). rewrite (Hsome s eq_refl) in *. lia.
      * rewrite (Hnone eq_refl). lia.
Qed.

Lemma extraction_keeps_rows_with_data_witness :
  find_awg_header_row region_sheet = Some 5
  /\ exists ex,
       extract_cosentino_data region_sheet = inr ex
       /\ row_record region_sheet (normalized_headers region_sheet 5) 6
          ∈ data_rows ex
       /\ length (data_rows ex) = 3.
Proof.
  split; [reflexivity|].
  destruct (extraction_keeps_rows_with_data region_sheet 5 eq_refl)
    as (_ & _ & _ & ex & kept & Hex & _ & Hstop & Hrows & _ & Hin).
  exists ex. split; [exact Hex|]. split.
  - rewrite Hrows. apply list_elem_of_fmap. exists 6. split; [reflexivity|].
    apply Hin. split; [vm_compute; lia|]. split.
    + rewrite Hstop. intros s [= <-]. lia.
    + exists "Case Cost", (VInt 12). split; reflexivity.
  - injection Hex as <-. reflexivity.
Defined.

(** C4, as stated, fails: with two columns under the same header, a row
    whose first such cell holds 5 and whose second holds 0 has a
    surviving truthy cell, yet its record keeps only the 0 and the row is
    not returned; with the two cells exchanged the row is returned. *)
Lemma duplicate_header_row_dropped :
  (exists k v,
      (k, v) ∈ surviving_pairs (normalized_headers dup_header_sheet 1)
                               (row_values dup_header_sheet 2)
      /\ truthy v = true)
  /\ cell_value dup_header_sheet 2 2 = VInt 5
  /\ cell_survives (VInt 5) = true
  /\ extract_cosentino_data dup_header_sheet
     = inr (mk_extraction ["AWG Item Code"; "Cost"; "Cost"] [] 1 None)
  /\ extract_cosentino_data dup_header_sheet_swapped
     = inr (mk_extraction ["AWG Item Code"; "Cost"; "Cost"]
                          [ <["Cost" := VInt 5]> ∅ ] 1 None).
Proof.
  split; [|repeat split; reflexivity].
  exists "Cost", (VInt 5). split; [|reflexivity].
  apply list_elem_of_In. vm_compute. tauto.
Qed.

(** *** Calendar: the ordinal of the date of an ordinal *)

Module CalendarFacts.
Import Calendar.
Open Scope Z_scope.

Lemma month_day_ok_all :
  forallb (λ k, month_day_ok false (Z.of_nat k) && month_day_ok true (Z.of_nat k))
          (seq 0 365) = true.
Proof. vm_compute. reflexivity. Qed.

Lemma month_day_spec leap n m d :
  0 <= n < 365 ->
  month_day leap n = (m, d) ->
  1 <= m <= 12 /\ 1 <= d <= days_in_month_of leap m
  /\ days_before_month_of leap m + d = n + 1.
Proof.
  intros Hn Hmd.
  pose proof month_day_ok_all as H.
  rewrite forallb_forall in H.
  specialize (H (Z.to_nat n)).
  rewrite Z2Nat.id in H by lia.
  assert (Hin : In (Z.to_nat n) (seq 0 365)).
  { apply in_seq. lia. }
  apply H in Hin. apply andb_prop in Hin as [Hf Ht].
  assert (Hok : month_day_ok leap n = true) by (destruct leap; assumption).
  unfold month_day_ok in Hok. rewrite Hmd in Hok.
  repeat (apply andb_prop in Hok as [Hok ?]). lia.
Qed.

Lemma is_leap_decomposed n400 n100 n4 n1 :
  0 <= n100 <= 3 -> 0 <= n4 <= 24 -> 0 <= n1 <= 3 ->
  is_leap (n400 * 400 + 1 + n100 * 100 + n4 * 4 + n1)
  = (n1 =? 3) && (negb (n4 =? 24) || (n100 =? 3)).
Proof.
  intros H100 H4 H1. unfold is_leap.
  repeat match goal with
         | |- context [?a =? ?b] => destruct (Z.eqb_spec a b)
         end; simpl; try reflexivity; exfalso;
    Z.to_euclidean_division_equations; lia.
Qed.

Lemma days_before_year_decomposed n400 n100 n4 n1 :
  0 <= n100 <= 3 -> 0 <= n4 <= 24 -> 0 <= n1 <= 3 ->
  days_before_year (n400 * 400 + 1 + n100 * 100 + n4 * 4 + n1)
  = n400 * DI400Y + n100 * DI100Y + n4 * DI4Y + n1 * 365.
Proof.
  intros H100 H4 H1. unfold days_before_year, DI400Y, DI100Y, DI4Y.
  Z.to_euclidean_division_equations. lia.
Qed.

Lemma div_mod_facts a b :
  0 < b -> a = (a / b) * b + a mod b /\ 0 <= a mod b < b.
Proof.
  intros Hb. split; [|now apply Z.mod_pos_bound].
  rewrite Z.mul_comm. apply Z.div_mod. lia.
Qed.

(** [fromordinal] is a right inverse of [toordinal], and lands on a
    day of the calendar. *)
Lemma ymd2ord_ord2ymd n0 y m d :
  ord2ymd n0 = (y, m, d) ->
  ymd2ord y m d = n0 /\ 1 <= m <= 12 /\ 1 <= d <= days_in_month y m.
Proof.
  unfold ord2ymd.
  set (n := n0 - 1).
  destruct (div_mod_facts n DI400Y eq_refl) as [E1 B1].
  set (n400 := n / DI400Y) in *. set (r1 := n mod DI400Y) in *.
  destruct (div_mod_facts r1 DI100Y eq_refl) as [E2 B2].
  set (n100 := r1 / DI100Y) in *. set (r2 := r1 mod DI100Y) in *.
  destruct (div_mod_facts r2 DI4Y eq_refl) as [E3 B3].
  set (n4 := r2 / DI4Y) in *. set (r3 := r2 mod DI4Y) in *.
  destruct (div_mod_facts r3 365 eq_refl) as [E4 B4].
  set (n1 := r3 / 365) in *. set (r4 := r3 mod 365) in *.
  unfold DI400Y, DI100Y, DI4Y in *.
  assert (H100 : 0 <= n100 <= 4) by lia.
  assert (H4 : 0 <= n4 <= 24) by lia.
  assert (H1 : 0 <= n1 <= 4) by lia.
  destruct (Z.eqb_spec n1 4) as [En1|Nn1]; cbn [orb].
  - intros [= <- <- <-].
    assert (Hn4 : n4 <= 23) by lia.
    replace (n400 * 400 + 1 + n100 * 100 + n4 * 4 + n1 - 1)
      with (n400 * 400 + 1 + n100 * 100 + n4 * 4 + 3) by lia.
    assert (Hn100 : n100 <= 3) by lia.
    unfold ymd2ord, days_before_month, days_in_month.
    rewrite is_leap_decomposed, days_before_year_decomposed by lia.
    replace (n4 =? 24) with false by (symmetry; apply Z.eqb_neq; lia).
    unfold DI400Y, DI100Y, DI4Y, days_in_month_of. simpl. lia.
  - destruct (Z.eqb_spec n100 4) as [En100|Nn100].
    + intros [= <- <- <-].
      assert (n4 = 0 /\ n1 = 0) as [-> ->] by lia.
      replace (n400 * 400 + 1 + n100 * 100 + 0 * 4 + 0 - 1)
        with (n400 * 400 + 1 + 3 * 100 + 24 * 4 + 3) by lia.
      unfold ymd2ord, days_before_month, days_in_month.
      rewrite is_leap_decomposed, days_before_year_decomposed by lia.
      unfold DI400Y, DI100Y, DI4Y, days_in_month_of. simpl. lia.
    + destruct (month_day _ r4) as [m' d'] eqn:Hmd.
      intros [= <- <- <-].
      apply month_day_spec in Hmd as (Hm & Hd & Hsum); [|lia].
      unfold ymd2ord, days_before_month, days_in_month.
      rewrite is_leap_decomposed, days_before_year_decomposed by lia.
      unfold days_before_month_of in Hsum.
      unfold DI400Y, DI100Y, DI4Y. lia.
Qed.

End CalendarFacts.

(** *** Date fields: a numeric cell is a day-count serial *)

Lemma str_app_empty_r (s : string) : s ++ "" = s.
Proof. induction s as [|c s IH]; [reflexivity|]. now rewrite app_String, IH. Qed.

Lemma strftime_date_format d :
  strftime d DATE_FORMAT = mdy (year d) (month d) (day d).
Proof.
  unfold DATE_FORMAT, mdy. cbn [strftime Ascii.eqb Bool.eqb].
  now rewrite str_app_empty_r.
Qed.

Lemma add_micros_date base us :
  (1 <= base + us / Calendar.US_PER_DAY <= Calendar.MAXORDINAL)%Z ->
  exists dt,
    Calendar.add_micros base us = Some dt
    /\ (year dt, month dt, day dt)
       = Calendar.ord2ymd (base + us / Calendar.US_PER_DAY).
Proof.
  intros [Hlo Hhi]. unfold Calendar.add_micros.
  apply Z.leb_le in Hlo, Hhi. rewrite Hlo, Hhi. cbn [andb].
  destruct (Calendar.ord2ymd _) as [[y m] d]. eexists. split; reflexivity.
Qed.

Lemma seq_split_at k n :
  1 <= k <= n -> seq 1 n = (seq 1 (k - 1) ++ k :: seq (S k) (n - k))%list.
Proof.
  intros H. replace n with ((k - 1) + S (n - k)) at 1 by lia.
  rewrite seq_app. cbn [seq]. f_equal.
  replace (1 + (k - 1)) with k by lia. reflexivity.
Qed.

Section DateProbe.

Variables (sh : sheet) (r c : nat).

(** Empty cells are passed over. *)
Lemma probe_date_skip skipped rest :
  (forall j, j ∈ skipped -> truthy (cell_value sh r (c + j)) = false) ->
  probe_date_from sh r c (skipped ++ rest)%list = probe_date_from sh r c rest.
Proof.
  induction skipped as [|j skipped IH]; intros H; [reflexivity|].
  cbn [app probe_date_from]. rewrite (H j) by constructor.
  apply IH. intros j' Hj'. apply H. now constructor.
Qed.

(** A number whose date arithmetic succeeds ends the probe. *)
Lemma probe_date_number offset rest v dt :
  cell_value sh r (c + offset) = v ->
  is_number v = true -> truthy v = true ->
  excel_date v = Some dt ->
  probe_date_from sh r c (offset :: rest) = Some (strftime dt DATE_FORMAT).
Proof.
  intros Hv Hnum Ht Hd. cbn [probe_date_from]. rewrite Hv, Ht.
  destruct v; try discriminate; now rewrite Hd.
Qed.

(** A number whose date arithmetic raises is passed over. *)
Lemma probe_date_overflow offset rest v :
  cell_value sh r (c + offset) = v ->
  is_number v = true ->
  excel_date v = None ->
  probe_date_from sh r c (offset :: rest) = probe_date_from sh r c rest.
Proof.
  intros Hv Hnum Hd. cbn [probe_date_from]. rewrite Hv.
  destruct (truthy v); [|reflexivity].
  destruct v; try discriminate; now rewrite Hd.
Qed.

End DateProbe.

Lemma round_half_even_bounds a b :
  (0 <= a -> 0 < b ->
   2 * a - b <= 2 * b * Calendar.round_half_even a b <= 2 * a + b)%Z.
Proof.
  intros Ha Hb. unfold Calendar.round_half_even.
  pose proof (Z.div_mod a b ltac:(lia)) as E.
  pose proof (Z.mod_pos_bound a b Hb) as B.
  destruct (Z.ltb_spec (2 * (a mod b)) b); [nia|].
  destruct (Z.ltb_spec b (2 * (a mod b))); [nia|].
  destruct (Z.even _); nia.
Qed.

Lemma div_in_day us days :
  (days * Calendar.US_PER_DAY <= us < (days + 1) * Calendar.US_PER_DAY ->
   us / Calendar.US_PER_DAY = days)%Z.
Proof.
  intros H. symmetry.
  apply Z.div_unique with (r := (us - days * Calendar.US_PER_DAY)%Z);
    unfold Calendar.US_PER_DAY in *; lia.
Qed.

Lemma mul_pos_cancel_lt d a b : (0 < d -> d * a < d * b -> a < b)%Z.
Proof. intros Hd H. nia. Qed.

Lemma mul_pos_cancel_le d a b : (0 < d -> d * a <= d * b -> a <= b)%Z.
Proof. intros Hd H. nia. Qed.

(** The microseconds of a float lie in the day its value lies in. *)
Lemma micros_of_days_in_day neg m e days :
  serial_in_day (VFloat (FFin neg m e)) days ->
  (days * Calendar.US_PER_DAY <= Calendar.micros_of_days neg m e
   < (days + 1) * Calendar.US_PER_DAY)%Z.
Proof.
  unfold serial_in_day, Calendar.micros_of_days.
  set (M := Z.of_N m). assert (HM : (0 <= M)%Z) by apply N2Z.is_nonneg.
  set (sg := (if neg then -1 else 1)%Z).
  assert (Hsg : forall mag : Z, (if neg then - mag else mag)%Z = (sg * mag)%Z).
  { intros mag. unfold sg. destruct neg; lia. }
  rewrite Hsg. cbv zeta.
  change Calendar.US_PER_DAY with (864 * 10 ^ 8)%Z.
  destruct (Z.le_gt_cases 0 e) as [He|He].
  - rewrite Z.max_l by lia. rewrite Z.add_0_r, Z.pow_0_r.
    destruct (Z.leb_spec 0 (e + 8)) as [_|Hs]; [|lia].
    rewrite Z.pow_add_r by lia.
    assert (HP : (0 < 10 ^ e)%Z) by (apply Z.pow_pos_nonneg; lia).
    set (P := (10 ^ e)%Z) in *. change (10 ^ 8)%Z with 100000000%Z.
    intros [H1 H2]. nia.
  - rewrite Z.max_r by lia.
    replace (e + - e)%Z with 0%Z by lia. rewrite Z.pow_0_r, Z.mul_1_r.
    assert (HP : (0 < 10 ^ (- e))%Z) by (apply Z.pow_pos_nonneg; lia).
    destruct (Z.leb_spec 0 (e + 8)) as [Hs|Hs].
    + assert (HQ : (0 < 10 ^ (e + 8))%Z) by (apply Z.pow_pos_nonneg; lia).
      assert (HPQ : (10 ^ (e + 8) * 10 ^ (- e) = 10 ^ 8)%Z).
      { rewrite <- Z.pow_add_r by lia. f_equal. lia. }
      rewrite <- HPQ.
      set (P := (10 ^ (- e))%Z) in *. set (Q := (10 ^ (e + 8))%Z) in *.
      intros [H1 H2].
      assert (H3 : (sg * M < (days + 1) * P)%Z).
      { apply (mul_pos_cancel_lt (2 * (864 * (Q * P)))); nia. }
      split.
      * replace (days * (864 * (Q * P)))%Z with (864 * Q * (days * P))%Z by ring.
        replace (sg * (M * 864 * Q))%Z with (864 * Q * (sg * M))%Z by ring.
        apply Z.mul_le_mono_nonneg_l; lia.
      * replace ((days + 1) * (864 * (Q * P)))%Z
          with (864 * Q * ((days + 1) * P))%Z by ring.
        replace (sg * (M * 864 * Q))%Z with (864 * Q * (sg * M))%Z by ring.
        apply Z.mul_lt_mono_pos_l; lia.
    + assert (HD : (0 < 10 ^ (- (e + 8)))%Z) by (apply Z.pow_pos_nonneg; lia).
      assert (HPD : (10 ^ (- e) = 10 ^ (- (e + 8)) * 10 ^ 8)%Z).
      { rewrite <- Z.pow_add_r by lia. f_equal. lia. }
      rewrite HPD.
      pose proof (round_half_even_bounds (M * 864) (10 ^ (- (e + 8)))
                    ltac:(lia) HD) as HR.
      set (D := (10 ^ (- (e + 8)))%Z) in *.
      set (R := Calendar.round_half_even (M * 864) D) in *.
      change (10 ^ 8)%Z with 100000000%Z.
      intros [H1 H2].
      assert (HsgR : (2 * (sg * (M * 864)) - D <= 2 * D * (sg * R)
                      <= 2 * (sg * (M * 864)) + D)%Z).
      { unfold sg. destruct neg; lia. }
      set (X := (sg * M)%Z) in *. set (SR := (sg * R)%Z) in *.
      replace (sg * (M * 864))%Z with (864 * X)%Z in HsgR by (unfold X; ring).
      split.
      * assert (H3 : (D * (2 * (days * (864 * 100000000)) - 1)
                      <= D * (2 * SR))%Z) by nia.
        apply mul_pos_cancel_le in H3; [lia|exact HD].
      * assert (H3 : (D * (2 * SR)
                      < D * (2 * ((days + 1) * (864 * 100000000))))%Z) by nia.
        apply mul_pos_cancel_lt in H3; [lia|exact HD].
Qed.

Lemma serial_in_day_days v days :
  serial_in_day v days -> is_number v = true /\ serial_days v = Some days.
Proof.
  destruct v as [|b|n|[neg m e|neg|]|s|d]; try (now intros []).
  - intros ->. split; [reflexivity|]. unfold serial_days. cbn [serial_micros fmap option_fmap option_map].
    f_equal. apply Z.div_mul. discriminate.
  - intros ->. split; [reflexivity|]. unfold serial_days. cbn [serial_micros fmap option_fmap option_map].
    f_equal. apply Z.div_mul. discriminate.
  - intros H. split; [reflexivity|]. unfold serial_days. cbn [serial_micros fmap option_fmap option_map].
    f_equal. now apply div_in_day, micros_of_days_in_day.
Qed.





(** ** Further properties of the region locator *)

Lemma awg_row_cells sh r :
  existsb is_awg_cell (row_values sh r) = true <-> marker_in_row sh r.
Proof.
  unfold marker_in_row. rewrite existsb_exists. split.
  - intros (v & Hv & Hm). apply list_elem_of_In, row_values_elem in Hv.
    destruct Hv as (c & ->). unfold is_awg_cell in Hm.
    destruct (cell_value sh r c) as [| | | |s|] eqn:Hc; try discriminate.
    apply andb_prop in Hm as [_ Hm]. now exists c, s.
  - intros (c & s & Hc & Hm). exists (VStr s). split.
    + destruct c as [|c]; [now destruct r|].
      destruct (Nat.lt_ge_cases c (max_column sh)) as [Hlt|Hge].
      * apply list_elem_of_In. rewrite <- Hc.
        eapply list_elem_of_lookup_2, row_values_lookup, Hlt.
      * rewrite cell_value_beyond in Hc by exact Hge. discriminate.
    + unfold is_awg_cell. rewrite Hm.
      now rewrite (contains_nonempty HEADER_MARKER s eq_refl Hm).
Qed.

Lemma find_awg_in_seq_first sh m n h :
  m <= h < m + n ->
  existsb is_awg_cell (row_values sh h) = true ->
  (forall r, m <= r < h -> existsb is_awg_cell (row_values sh r) = false) ->
  find_awg_header_row_in ((λ r, (r, row_values sh r)) <$> seq m n) = Some h.
Proof.
  revert m. induction n as [|n IH]; intros m Hh Hc Hbefore; [lia|].
  simpl. destruct (Nat.eq_dec m h) as [->|Hne].
  - now rewrite Hc.
  - rewrite Hbefore by lia. apply IH; [lia|exact Hc|].
    intros r Hr. apply Hbefore. lia.
Qed.

(** X1: the header row is the first row with a string cell that
    contains ["AWG Item Code"], letter case included; there is none iff
    no row has such a cell. *)
Theorem header_row_is_first_marked sh h :
  find_awg_header_row sh = Some h
  <-> 1 <= h <= max_row sh
      /\ marker_in_row sh h
      /\ forall r, 1 <= r < h -> ~ marker_in_row sh r.
Proof.
  split.
  - intros H. apply find_awg_header_row_spec in H as (Hh & Hc & Hbefore).
    split; [exact Hh|]. split; [now apply awg_row_cells|].
    intros r Hr Hm. apply awg_row_cells in Hm.
    rewrite Hbefore in Hm by exact Hr. discriminate.
  - intros (Hh & Hc & Hbefore). unfold find_awg_header_row, iter_rows.
    apply find_awg_in_seq_first; [lia|now apply awg_row_cells|].
    intros r Hr. apply not_true_is_false. intros Hm.
    apply (Hbefore r); [lia|now apply awg_row_cells].
Qed.

(** A successful extraction comes from a header row. *)
Lemma extract_cosentino_data_inv sh ex :
  extract_cosentino_data sh = inr ex ->
  exists h n,
    find_awg_header_row sh = Some h
    /\ header_row_idx ex = h
    /\ valid_headers ex = omap header_key (normalized_headers sh h)
    /\ data_rows ex
       = omap (extract_row sh (normalized_headers sh h)) (seq (h + 1) n).
Proof.
  unfold extract_cosentino_data.
  destruct (find_awg_header_row sh) as [[|h]|]; try discriminate.
  cbn [idx_truthy negb default from_option id]. intros [= <-].
  eexists. eexists. repeat split; reflexivity.
Qed.

Lemma split_nonempty s :
  Py.nonempty (Py.join " " (Py.split s)) = true -> Py.split s ≠ [].
Proof. now destruct (Py.split s). Qed.

Lemma normalized_header_key sh h k :
  k ∈ omap header_key (normalized_headers sh h) ->
  Py.nonempty k = true
  /\ normalize_column_name (VStr k) = VStr k
  /\ normal_name k.
Proof.
  intros Hk. apply list_elem_of_omap in Hk as (v & Hv & Hkey).
  unfold normalized_headers in Hv.
  apply list_elem_of_fmap in Hv as (raw & -> & _).
  destruct (truthy raw) eqn:Ht; [|discriminate].
  rewrite (normalize_truthy raw Ht) in Hkey. simpl in Hkey.
  destruct (Py.nonempty _) eqn:Hne; [|discriminate].
  injection Hkey as <-. split; [exact Hne|]. split.
  - rewrite <- (normalize_truthy raw Ht). apply normalize_value_idempotent.
  - exists (Py.split (py_str raw)).
    split; [apply split_words|]. split; [now apply split_nonempty|reflexivity].
Qed.

(** X2: every header an extraction returns is non-empty and in normal
    form: words separated by single spaces, a fixed point of the
    normalization. *)
Theorem valid_headers_normalized sh ex :
  extract_cosentino_data sh = inr ex ->
  Forall (λ k, Py.nonempty k = true
               /\ normalize_column_name (VStr k) = VStr k
               /\ normal_name k)
         (valid_headers ex).
Proof.
  intros Hex. apply extract_cosentino_data_inv in Hex
    as (h & n & _ & _ & -> & _).
  apply Forall_forall. intros k Hk. now apply (normalized_header_key sh h).
Qed.

Lemma valid_headers_normalized_witness :
  exists ex,
    extract_cosentino_data region_sheet = inr ex
    /\ valid_headers ex = ["AWG Item Code"; "Item Description"; "Case Cost"]
    /\ Forall (λ k, Py.nonempty k = true
                    /\ normalize_column_name (VStr k) = VStr k
                    /\ normal_name k)
              (valid_headers ex).
Proof.
  eexists. split; [reflexivity|]. split; [reflexivity|].
  apply (valid_headers_normalized region_sheet). reflexivity.
Defined.

Lemma surviving_pair_inv headers row k v :
  (k, v) ∈ surviving_pairs headers row ->
  k ∈ omap header_key headers /\ cell_survives v = true.
Proof.
  unfold surviving_pairs. intros H.
  apply list_elem_of_omap in H as ([h v'] & Hin & Hkv). simpl in Hkv.
  destruct (header_key h) as [k'|] eqn:Hk; [|discriminate]. simpl in Hkv.
  destruct (cell_survives v') eqn:Hs; [|discriminate].
  injection Hkv as <- <-. split; [|exact Hs].
  apply list_elem_of_omap. exists h. split; [|exact Hk].
  apply elem_of_zip_l in Hin. exact Hin.
Qed.

Lemma row_record_entry sh headers r k v :
  row_record sh headers r !! k = Some v ->
  k ∈ omap header_key headers /\ cell_survives v = true.
Proof.
  rewrite row_record_pairs. intros H.
  apply elem_of_list_to_map_2 in H. rewrite elem_of_reverse in H.
  now apply surviving_pair_inv in H.
Qed.

Lemma cell_survives_clean v : cell_survives v = true -> clean_value v.
Proof.
  intros H. unfold clean_value.
  assert (Hn : ~ (v = VNone \/ Py.startswith "#" (py_str v) = true
                  \/ Py.startswith "=" (py_str v) = true)).
  { intros Hf. apply cell_survives_false in Hf. congruence. }
  split; [tauto|].
  split; apply not_true_is_false; tauto.
Qed.

Lemma data_row_inv sh ex row :
  extract_cosentino_data sh = inr ex ->
  row ∈ data_rows ex ->
  exists h r, valid_headers ex = omap header_key (normalized_headers sh h)
              /\ row = row_record sh (normalized_headers sh h) r
              /\ any_value row = true.
Proof.
  intros Hex Hrow. apply extract_cosentino_data_inv in Hex
    as (h & n & _ & _ & Hv & Hd).
  rewrite Hd in Hrow. apply list_elem_of_omap in Hrow as (r & _ & Hr).
  unfold extract_row in Hr.
  destruct (any_value _) eqn:Ha; [|discriminate]. injection Hr as <-.
  now exists h, r.
Qed.

(** X3: the keys of every extracted row are headers of the extraction. *)
Theorem data_row_keys_are_headers sh ex row :
  extract_cosentino_data sh = inr ex ->
  row ∈ data_rows ex ->
  dom row ⊆ list_to_set (valid_headers ex).
Proof.
  intros Hex Hrow.
  destruct (data_row_inv sh ex row Hex Hrow) as (h & r & -> & -> & _).
  intros k Hk. apply elem_of_dom in Hk as [v Hv].
  apply row_record_entry in Hv as [Hk _]. now apply elem_of_list_to_set.
Qed.

Lemma data_row_keys_are_headers_witness :
  Forall (λ row, dom row ⊆ (list_to_set
                              ["AWG Item Code"; "Item Description"; "Case Cost"]
                            : gset string))
         region_rows.
Proof.
  apply Forall_forall. intros row Hrow.
  apply (data_row_keys_are_headers
           region_sheet
           (mk_extraction ["AWG Item Code"; "Item Description"; "Case Cost"]
                          region_rows 5 (Some 9)) row).
  - reflexivity.
  - exact Hrow.
Defined.

(** X4: no extracted row holds [None], an error value or a formula, and
    every extracted row holds at least one truthy value. *)
Theorem data_rows_hold_data sh ex row :
  extract_cosentino_data sh = inr ex ->
  row ∈ data_rows ex ->
  (forall k v, row !! k = Some v -> clean_value v)
  /\ exists k v, row !! k = Some v /\ truthy v = true.
Proof.
  intros Hex Hrow.
  destruct (data_row_inv sh ex row Hex Hrow) as (h & r & _ & -> & Ha).
  split.
  - intros k v Hv. apply row_record_entry in Hv as [_ Hs].
    now apply cell_survives_clean.
  - now apply any_value_spec.
Qed.

Lemma data_rows_hold_data_witness :
  Forall (λ row : gmap string value,
            (forall k v, row !! k = Some v -> clean_value v)
            /\ exists k v, row !! k = Some v /\ truthy v = true)
         region_rows.
Proof.
  apply Forall_forall. intros row Hrow.
  apply (data_rows_hold_data
           region_sheet
           (mk_extraction ["AWG Item Code"; "Item Description"; "Case Cost"]
                          region_rows 5 (Some 9)) row).
  - reflexivity.
  - exact Hrow.
Defined.


(** ** Further properties of the deal-header scan *)

Lemma scan_deal_cell_name sh r c dh :
  deal_name (scan_deal_cell sh r c dh) = deal_name dh.
Proof.
  unfold scan_deal_cell.
  destruct (cell_value sh r c) as [| | | |s|]; try reflexivity.
  destruct (Py.nonempty s); [|reflexivity].
  repeat match goal with
         | |- context [if ?b then _ else _] => destruct b
         end; try reflexivity;
    match goal with
    | |- context [assign _ _ ?o] => now destruct o
    end.
Qed.

(** X5: the deal name of the header the scan returns is the one the
    caller gave: no cell of the sheet changes it. *)
Theorem deal_name_is_callers sh name :
  exists dh, extract_deal_header sh name = Some dh /\ deal_name dh = name.
Proof.
  eexists. split; [reflexivity|]. rewrite scan_sheet_cells.
  change name with (deal_name (mk_deal_header name "" "" "" "")) at 2.
  generalize (mk_deal_header name "" "" "" "").
  induction (scan_cells sh) as [|[r c] cells IH]; intros dh; simpl.
  - reflexivity.
  - rewrite IH. apply scan_deal_cell_name.
Qed.

(** A property of the values of qualifying matches holds of the field at
    the end of the scan, once it holds of the starting value. *)
Lemma scan_field_invariant sh f (P : string -> Prop) cells dh :
  (forall r c v, qualifying_match sh f r c = Some v -> P v) ->
  P (field_value f dh) ->
  P (field_value f
       (foldl (λ acc rc, scan_deal_cell sh rc.1 rc.2 acc) dh cells)).
Proof.
  intros Hq. revert dh. induction cells as [|[r c] cells IH]; intros dh Hdh.
  - exact Hdh.
  - simpl. apply IH. rewrite scan_deal_cell_field.
    destruct (qualifying_match sh f r c) as [v|] eqn:Hm; [|exact Hdh].
    now apply (Hq r c).
Qed.

Lemma lstrip_head s :
  Py.lstrip s = ""
  \/ exists c t, Py.lstrip s = String c t /\ Py.is_space c = false.
Proof.
  induction s as [|c s IH]; [now left|]. simpl.
  destruct (Py.is_space c) eqn:Hc; [exact IH|]. right. now exists c, s.
Qed.

Lemma rstrip_idempotent s : Py.rstrip (Py.rstrip s) = Py.rstrip s.
Proof.
  induction s as [|c s IH]; [reflexivity|]. simpl.
  destruct (Py.is_space c && negb (Py.nonempty (Py.rstrip s))) eqn:Hb;
    [reflexivity|].
  simpl. now rewrite IH, Hb.
Qed.

(** [strip] is idempotent. *)
Lemma strip_idempotent s : Py.strip (Py.strip s) = Py.strip s.
Proof.
  unfold Py.strip. destruct (lstrip_head s) as [->|(c & t & -> & Hc)];
    [reflexivity|].
  simpl. rewrite Hc. simpl. rewrite Hc. simpl.
  rewrite rstrip_idempotent. now rewrite Hc.
Qed.

Lemma nonblank_vendor_text v :
  nonblank v = true ->
  Py.mem (Py.lower (Py.strip (py_str v))) OTHER_LABELS = false ->
  vendor_text (Py.strip (py_str v)).
Proof.
  unfold nonblank. intros [_ Hne]%andb_prop Hl.
  split; [exact Hne|]. split; [apply strip_idempotent|exact Hl].
Qed.

Lemma vendor_fallback_text sh r c offsets v :
  vendor_fallback sh r c offsets = Some v -> vendor_text v.
Proof.
  induction offsets as [|o offsets IH]; [discriminate|].
  cbn [vendor_fallback].
  destruct (nonblank _) eqn:Hnb; [|exact IH].
  destruct (Py.mem _ OTHER_LABELS) eqn:Hl; [exact IH|].
  cbn [negb]. intros [= <-]. now apply nonblank_vendor_text.
Qed.

Lemma probe_vendor_text sh r c v :
  probe_vendor sh r c = Some v -> vendor_text v.
Proof.
  unfold probe_vendor. destruct (nonblank _) eqn:Hnb;
    [|apply vendor_fallback_text].
  destruct (Py.mem _ OTHER_LABELS) eqn:Hl; [discriminate|].
  cbn [negb]. intros [= <-]. now apply nonblank_vendor_text.
Qed.

(** X6: the vendor of an extracted header is empty, or a non-empty
    trimmed text that is none of the labels ["deal start date"],
    ["deal end date"], ["deal cost date"], ["broker"], ["sales rep"] in
    any letter case. *)
Theorem vendor_is_never_a_label sh name dh :
  extract_deal_header sh name = Some dh ->
  vendor_id dh = "" \/ vendor_text (vendor_id dh).
Proof.
  intros [= <-]. rewrite scan_sheet_cells.
  apply (scan_field_invariant sh Vendor (λ v, v = "" \/ vendor_text v)).
  - intros r c v Hm. right. unfold qualifying_match in Hm.
    destruct (cell_value sh r c) as [| | | |s|]; try discriminate.
    destruct (Py.nonempty s); [|discriminate].
    destruct (label_field _) as [[]|]; try discriminate.
    now apply (probe_vendor_text sh r c).
  - now left.
Qed.

Lemma vendor_is_never_a_label_witness :
  exists dh,
    extract_deal_header two_vendors_sheet "deal" = Some dh
    /\ vendor_id dh = "Zenith"
    /\ (vendor_id dh = "" \/ vendor_text (vendor_id dh)).
Proof.
  eexists. split; [reflexivity|]. split; [reflexivity|].
  apply (vendor_is_never_a_label two_vendors_sheet "deal"). reflexivity.
Defined.

Lemma add_micros_out_of_range base us :
  ~ (1 <= base + us / Calendar.US_PER_DAY <= Calendar.MAXORDINAL)%Z ->
  Calendar.add_micros base us = None.
Proof.
  intros H. unfold Calendar.add_micros.
  destruct (Z.leb_spec 1 (base + us / Calendar.US_PER_DAY));
    destruct (Z.leb_spec (base + us / Calendar.US_PER_DAY)
                         Calendar.MAXORDINAL);
    simpl; try reflexivity.
  exfalso. apply H. lia.
Qed.

(** X7: a numeric cell met by a date probe whose day count leads outside
    the calendar of years 1 to 9999, or gives no day count at all, is
    passed over: the probe goes on with the cells to its right. *)
Theorem serial_out_of_range_skipped sh r c k v :
  1 <= k <= 11 ->
  (forall j, 1 <= j < k -> truthy (cell_value sh r (c + j)) = false) ->
  cell_value sh r (c + k) = v ->
  is_number v = true ->
  (forall days, serial_days v = Some days ->
                ~ (1 <= EPOCH_ORDINAL + days <= Calendar.MAXORDINAL)%Z) ->
  probe_date sh r c = probe_date_from sh r c (seq (S k) (11 - k)).
Proof.
  intros Hk Hskip Hv Hnum Hrange. unfold probe_date.
  rewrite (seq_split_at k 11) by lia.
  rewrite probe_date_skip.
  - apply (probe_date_overflow sh r c k _ v Hv Hnum).
    unfold excel_date. unfold serial_days in Hrange.
    destruct (serial_micros v) as [us|]; [|reflexivity]. simpl.
    apply add_micros_out_of_range. now apply Hrange.
  - intros j Hj. apply elem_of_seq in Hj. apply Hskip. lia.
Qed.

Lemma serial_out_of_range_skipped_witness :
  probe_date overflow_sheet 1 1
  = probe_date_from overflow_sheet 1 1 (seq 2 10)
  /\ (deal_end_date <$> extract_deal_header overflow_sheet "deal")
     = Some "Q4".
Proof.
  split; [|reflexivity].
  apply (serial_out_of_range_skipped overflow_sheet 1 1 1 (VInt 5000000)).
  - lia.
  - intros j Hj. lia.
  - reflexivity.
  - reflexivity.
  - intros days [= <-]. vm_compute. intros [_ H]. now apply H.
Defined.

(** X8: a date label with nothing in the 11 cells to its right is no
    qualifying match, whatever lies further right; so is a manufacturer
    label with nothing in the 9 cells to its right. *)
Theorem probes_have_bounded_reach sh r c :
  ((forall j, 1 <= j <= 11 -> truthy (cell_value sh r (c + j)) = false) ->
   probe_date sh r c = None)
  /\ ((forall j, 1 <= j <= 9 -> truthy (cell_value sh r (c + j)) = false) ->
      probe_vendor sh r c = None).
Proof.
  split; intros H.
  - unfold probe_date. rewrite <- (app_nil_r (seq 1 11)).
    rewrite probe_date_skip; [reflexivity|].
    intros j Hj. apply elem_of_seq in Hj. apply H. lia.
  - unfold probe_vendor, nonblank. rewrite (H 2) by lia. simpl.
    assert (Hf : forall offsets,
               (forall j, j ∈ offsets -> 1 <= j <= 9) ->
               vendor_fallback sh r c offsets = None).
    { induction offsets as [|o offsets IH]; intros Ho; [reflexivity|].
      simpl. unfold nonblank. rewrite (H o) by (apply Ho; constructor).
      simpl. apply IH. intros j Hj. apply Ho. now constructor. }
    apply (Hf (seq 1 9)). intros j Hj. apply elem_of_seq in Hj. lia.
Qed.

Lemma probes_have_bounded_reach_witness :
  cell_value far_date_sheet 1 (1 + 12) = VStr "01/02/24"
  /\ probe_date far_date_sheet 1 1 = None
  /\ (deal_cost_date <$> extract_deal_header far_date_sheet "deal")
     = Some "".
Proof.
  split; [reflexivity|]. split; [|reflexivity].
  apply (proj1 (probes_have_bounded_reach far_date_sheet 1 1)).
  intros j Hj.
  do 12 (destruct j as [|j]; [first [lia|reflexivity]|]). lia.
Defined.


(** ** Further properties of the zone scan *)

Lemma zone_at_display n sh r c display :
  zone_at n sh r c = Some display -> display ∈ tpr_labels.*2.
Proof.
  unfold zone_at, zone_label. intros H.
  destruct (cell_value sh r c) as [| | | |s|]; try discriminate.
  destruct (Py.nonempty s); [|discriminate].
  destruct (List.find _ tpr_labels) as [[k d]|] eqn:Hf; [|discriminate].
  simpl in H. destruct (marked_within n sh r c); [|discriminate].
  injection H as <-. apply find_some in Hf as [Hin _].
  apply list_elem_of_fmap. exists (k, d). split; [reflexivity|].
  now apply list_elem_of_In.
Qed.

(** X9: the zone string joins with [" ~"] the display names recorded in
    scan order, each kept at its first discovery only; a name is
    recorded iff some cell carries its label, as the first label of the
    table found in the cell, and has a mark among the 14 cells to its
    right; only names of the label table are recorded. *)
Theorem zone_selection_spec sh :
  let zones :=
    foldl record_zone []
          (omap (λ rc, zone_at 14 sh rc.1 rc.2) (scan_cells sh)) in
  extract_ad_zone_id sh = Py.join " ~" zones
  /\ NoDup zones
  /\ (forall display,
        display ∈ zones
        <-> exists r c, (r, c) ∈ scan_cells sh
                        /\ zone_at 14 sh r c = Some display)
  /\ (forall display, display ∈ zones -> display ∈ tpr_labels.*2).
Proof.
  intros zones. destruct (marked_zones_spec sh) as [Hnd Hmem].
  split; [apply extract_ad_zone_id_scan|]. split; [exact Hnd|].
  split; [exact Hmem|].
  intros display Hd. apply Hmem in Hd as (r & c & _ & Hz).
  now apply (zone_at_display 14 sh r c).
Qed.

(** ** Further properties of the transformation rules *)

Lemma str_of_Z_nonempty n : Py.nonempty (Py.str_of_Z n) = true.
Proof.
  unfold Py.str_of_Z. destruct (Z.to_int n) as [d|d]; [|reflexivity].
  now destruct d.
Qed.

Lemma float_str_nonempty f : Py.nonempty (float_str f) = true.
Proof.
  destruct f as [neg m e|neg|]; [|now destruct neg|reflexivity].
  unfold float_str. destruct (0 <=? e)%Z.
  - rewrite <- str_app_assoc. now apply nonempty_app_r.
  - apply nonempty_app_r, nonempty_app_r. reflexivity.
Qed.

Lemma datetime_str_nonempty d : Py.nonempty (datetime_str d) = true.
Proof. unfold datetime_str. now apply nonempty_app_r. Qed.

(** The text of a truthy value is not empty. *)
Lemma py_str_truthy v : truthy v = true -> Py.nonempty (py_str v) = true.
Proof.
  destruct v as [|b|n|f|s|d]; simpl; intros H; try discriminate.
  - now rewrite H.
  - apply str_of_Z_nonempty.
  - apply float_str_nonempty.
  - exact H.
  - apply datetime_str_nonempty.
Qed.

(** X10: on a truthy value the rules [to_number:float] and
    [to_number:currency] return the same result. *)
Theorem to_number_float_currency_agree v :
  truthy v = true ->
  apply_transformation v "to_number:float"
  = apply_transformation v "to_number:currency".
Proof.
  intros H. unfold apply_transformation. simpl. now rewrite H.
Qed.

Lemma to_number_float_currency_agree_witness :
  apply_transformation (VStr "$1,234.50") "to_number:float"
  = apply_transformation (VStr "$1,234.50") "to_number:currency".
Proof. apply to_number_float_currency_agree. reflexivity. Defined.

Lemma apply_normalize_upc v :
  apply_transformation v "normalize_upc" = VStr (upc_text (py_str v)).
Proof. reflexivity. Qed.

Lemma filter_chars_all p s : Py.all_chars p (Py.filter_chars p s) = true.
Proof.
  induction s as [|c s IH]; [reflexivity|]. simpl.
  destruct (p c) eqn:Hc; [|exact IH]. simpl. now rewrite Hc.
Qed.

Lemma filter_chars_keep p s :
  Py.all_chars p s = true -> Py.filter_chars p s = s.
Proof.
  induction s as [|c s IH]; [reflexivity|]. simpl.
  intros [Hc Hs]%andb_prop. rewrite Hc. now rewrite IH.
Qed.

Lemma all_chars_impl (p q : ascii -> bool) s :
  (forall c, p c = true -> q c = true) ->
  Py.all_chars p s = true -> Py.all_chars q s = true.
Proof.
  intros Hpq. induction s as [|c s IH]; [reflexivity|]. simpl.
  intros [Hc Hs]%andb_prop. now rewrite (Hpq c Hc), IH.
Qed.

Lemma all_chars_app p s t :
  Py.all_chars p (s ++ t) = Py.all_chars p s && Py.all_chars p t.
Proof.
  induction s as [|c s IH]; [reflexivity|].
  rewrite app_String. simpl. now rewrite IH, andb_assoc.
Qed.

Lemma all_chars_repeat p c n :
  p c = true -> Py.all_chars p (Py.repeat_char c n) = true.
Proof. intros Hc. induction n as [|n IH]; [reflexivity|]. simpl. now rewrite Hc. Qed.

Lemma digit_is_upc_char c : Py.is_digit c = true -> upc_char c = true.
Proof.
  destruct c as [[] [] [] [] [] [] [] []]; intros H;
    first [reflexivity | discriminate H].
Qed.

Lemma str_length_app s t :
  String.length (s ++ t) = (String.length s + String.length t)%nat.
Proof. induction s as [|c s IH]; [reflexivity|]. rewrite app_String. simpl. now rewrite IH. Qed.

Lemma length_repeat_char c n : String.length (Py.repeat_char c n) = n.
Proof. induction n as [|n IH]; [reflexivity|]. simpl. now rewrite IH. Qed.

Lemma length_zfill w s : w <= String.length (Py.zfill w s).
Proof. unfold Py.zfill. rewrite str_length_app, length_repeat_char. lia. Qed.

Lemma zfill_long w s : w <= String.length s -> Py.zfill w s = s.
Proof.
  intros H. unfold Py.zfill. now replace (w - String.length s) with 0 by lia.
Qed.

Lemma isdigit_zfill w s : Py.isdigit s = true -> Py.isdigit (Py.zfill w s) = true.
Proof.
  unfold Py.isdigit, Py.zfill. intros [Hne Hd]%andb_prop.
  rewrite nonempty_app_r by exact Hne.
  now rewrite all_chars_app, all_chars_repeat, Hd.
Qed.

Lemma N_of_digits_zfill w s : Py.N_of_digits (Py.zfill w s) = Py.N_of_digits s.
Proof.
  unfold Py.zfill, Py.N_of_digits. induction (w - String.length s) as [|n IH];
    [reflexivity|exact IH].
Qed.

Lemma upc_text_chars s : Py.all_chars upc_char (upc_text s) = true.
Proof.
  unfold upc_text. destruct (Py.isdigit _) eqn:Hd.
  - apply isdigit_zfill with (w := 12) in Hd.
    apply andb_prop in Hd as [_ Hd].
    apply (all_chars_impl Py.is_digit); [apply digit_is_upc_char|exact Hd].
  - apply filter_chars_all.
Qed.

Lemma upc_text_idempotent s : upc_text (upc_text s) = upc_text s.
Proof.
  assert (Hk : drop_space_dash (upc_text s) = upc_text s).
  { apply filter_chars_keep, upc_text_chars. }
  unfold upc_text at 1. rewrite Hk.
  unfold upc_text. destruct (Py.isdigit (drop_space_dash s)) eqn:Hd.
  - rewrite isdigit_zfill by exact Hd. apply zfill_long, length_zfill.
  - now rewrite Hd.
Qed.

(** X11: the rule [normalize_upc] is idempotent: applied to its own
    result it returns it unchanged. *)
Theorem normalize_upc_idempotent v :
  apply_transformation (apply_transformation v "normalize_upc")
                       "normalize_upc"
  = apply_transformation v "normalize_upc".
Proof. rewrite !apply_normalize_upc. simpl. now rewrite upc_text_idempotent. Qed.

(** X12: the rule [normalize_upc] returns a text without whitespace or
    hyphen; when what is left of the input after removing those is all
    digits, the result is that number written with at least 12 digits. *)
Theorem normalize_upc_shape v :
  exists s,
    apply_transformation v "normalize_upc" = VStr s
    /\ Py.all_chars upc_char s = true
    /\ (Py.isdigit (drop_space_dash (py_str v)) = true ->
        Py.isdigit s = true
        /\ 12 <= String.length s
        /\ Py.N_of_digits s = Py.N_of_digits (drop_space_dash (py_str v))).
Proof.
  exists (upc_text (py_str v)). split; [apply apply_normalize_upc|].
  split; [apply upc_text_chars|].
  intros Hd. unfold upc_text. rewrite Hd.
  split; [now apply isdigit_zfill|].
  split; [apply length_zfill|apply N_of_digits_zfill].
Qed.

(** X13: the rule [map_deal_type] always returns a non-empty text: the
    text of a truthy value, ["TPR"] for a falsy one. *)
Theorem map_deal_type_never_empty v :
  exists s,
    apply_transformation v "map_deal_type" = VStr s
    /\ Py.nonempty s = true
    /\ (truthy v = false -> s = "TPR").
Proof.
  unfold apply_transformation. simpl. destruct (truthy v) eqn:Ht.
  - exists (py_str v). split; [reflexivity|].
    split; [now apply py_str_truthy|discriminate].
  - exists "TPR". now repeat split.
Qed.

(** X14: a rule [literal:<text>] returns the text whatever the value,
    provided the text contains neither ["Pick the Numeric values"] nor
    ["Pick Alpha values"]: a rule with one of these phrases is taken by
    the branch of the phrase, which is tested first. *)
Theorem literal_rule_returns_text text v :
  Py.contains "Pick the Numeric values" text = false ->
  Py.contains "Pick Alpha values" text = false ->
  apply_transformation v ("literal:" ++ text) = VStr text
  /\ apply_transformation (VStr "12 oz") "literal:Pick Alpha values"
     = VStr "oz".
Proof.
  intros Hn Ha. split; [|reflexivity].
  change ("literal:" ++ text)
    with (String "l" (String "i" (String "t" (String "e" (String "r"
           (String "a" (String "l" (String ":" text)))))))).
  unfold apply_transformation.
  cbn [Py.nonempty negb orb String.eqb Ascii.eqb Bool.eqb Py.contains
       String.prefix Ascii.ascii_dec Py.startswith].
  repeat match goal with
         | |- context [if ascii_dec ?a ?b then _ else _] =>
             destruct (ascii_dec a b); [discriminate|]
         end.
  cbn [orb]. rewrite Hn, Ha.
  repeat match goal with
         | |- context [if ascii_dec ?a ?a then _ else _] =>
             destruct (ascii_dec a a); [|congruence]
         | |- context [if ascii_dec ?a ?b then _ else _] =>
             destruct (ascii_dec a b); [discriminate|]
         end.
  cbn [String.prefix Py.after_first Ascii.eqb Bool.eqb default from_option id].
  now destruct text.
Qed.

Lemma literal_rule_returns_text_witness :
  apply_transformation VNone "literal:TPR" = VStr "TPR".
Proof.
  apply (proj1 (literal_rule_returns_text "TPR" VNone eq_refl eq_refl)).
Defined.

Lemma search_price_mult_no_digit s :
  no_digit s = true -> search_price_mult s = None.
Proof.
  induction s as [|c s IH]; [reflexivity|].
  unfold no_digit. cbn [Py.all_chars search_price_mult].
  intros [Hc Hs]%andb_prop. apply negb_true_iff in Hc. rewrite Hc.
  now apply IH.
Qed.

Lemma span_length p s : String.length (Py.span p s).1 <= String.length s.
Proof.
  induction s as [|c s IH]; [reflexivity|]. simpl.
  destruct (p c); [|simpl; lia].
  destruct (Py.span p s) as [a b]. simpl in *. lia.
Qed.

Lemma search_price_mult_length s m :
  search_price_mult s = Some m -> String.length m <= String.length s.
Proof.
  induction s as [|c s IH]; [discriminate|].
  cbn [search_price_mult].
  assert (Hrec : search_price_mult s = Some m ->
                 String.length m <= String.length (String c s)).
  { intros H. apply IH in H. simpl. lia. }
  destruct (Py.is_digit c); [|exact Hrec].
  pose proof (span_length Py.is_digit (String c s)) as Hlen.
  destruct (Py.span Py.is_digit (String c s)) as [ds r].
  destruct (Py.startswith "for" _); [|exact Hrec].
  now intros [= <-].
Qed.

(** X15: the rule [parse_price_mult] returns 1 when the text of the
    value has no digit, and a whole number that is not negative when
    the text has at most 4300 characters.  In every case it returns
    such a number or, on a text of more than 4300 characters only, the
    value itself: [int] refuses a run of more than 4300 digits. *)
Theorem parse_price_mult_default v :
  (no_digit (py_str v) = true ->
   apply_transformation v "parse_price_mult" = VInt 1)
  /\ (String.length (py_str v) <= INT_MAX_STR_DIGITS ->
      exists n, apply_transformation v "parse_price_mult" = VInt (Z.of_N n))
  /\ ((exists n, apply_transformation v "parse_price_mult" = VInt (Z.of_N n))
      \/ (apply_transformation v "parse_price_mult" = v
          /\ INT_MAX_STR_DIGITS < String.length (py_str v))).
Proof.
  assert (H : apply_transformation v "parse_price_mult"
              = match search_price_mult (py_str v) with
                | Some m =>
                    if (INT_MAX_STR_DIGITS <? String.length m)%nat then v
                    else VInt (Z.of_N (Py.N_of_digits m))
                | None => VInt 1
                end) by reflexivity.
  rewrite H. clear H.
  pose proof (search_price_mult_length (py_str v)) as Hlen.
  destruct (search_price_mult (py_str v)) as [m|] eqn:Hs.
  - specialize (Hlen m eq_refl).
    destruct (Nat.ltb_spec INT_MAX_STR_DIGITS (String.length m)) as [Hm|Hm].
    + split; [intros Hd; now rewrite search_price_mult_no_digit in Hs|].
      split; [intros Hv; lia|]. right. split; [reflexivity|lia].
    + split; [intros Hd; now rewrite search_price_mult_no_digit in Hs|].
      split; [intros _; now eexists|]. left. now eexists.
  - split; [reflexivity|]. split; [intros _; now exists 1%N|].
    left. now exists 1%N.
Qed.

Lemma parse_price_mult_default_witness :
  apply_transformation (VStr "each") "parse_price_mult" = VInt 1
  /\ exists n,
       apply_transformation (VStr "2 FOR $5") "parse_price_mult"
       = VInt (Z.of_N n).
Proof.
  split.
  - apply (proj1 (parse_price_mult_default (VStr "each"))). reflexivity.
  - apply (proj1 (proj2 (parse_price_mult_default (VStr "2 FOR $5")))).
    unfold INT_MAX_STR_DIGITS. cbn [py_str String.length]. lia.
Defined.

Lemma span_all p s : Py.all_chars p (Py.span p s).1 = true.
Proof.
  induction s as [|c s IH]; [reflexivity|]. simpl.
  destruct (p c) eqn:Hc; [|reflexivity].
  destruct (Py.span p s) as [a b]. simpl in *. now rewrite Hc.
Qed.

Lemma span_head p c s :
  p c = true -> Py.nonempty (Py.span p (String c s)).1 = true.
Proof. intros Hc. simpl. rewrite Hc. now destruct (Py.span p s). Qed.

Lemma span_app p s : s = (Py.span p s).1 ++ (Py.span p s).2.
Proof.
  induction s as [|c s IH]; [reflexivity|]. simpl.
  destruct (p c); [|reflexivity].
  destruct (Py.span p s) as [a b]. cbn [fst snd] in *.
  rewrite app_String. now f_equal.
Qed.

Lemma take_number_text c s :
  Py.is_digit c = true ->
  number_text (take_number (String c s))
  /\ exists post, String c s = take_number (String c s) ++ post.
Proof.
  intros Hc. unfold take_number.
  pose proof (span_all Py.is_digit (String c s)) as Ha.
  pose proof (span_head Py.is_digit c s Hc) as Hne.
  pose proof (span_app Py.is_digit (String c s)) as Happ.
  destruct (Py.span Py.is_digit (String c s)) as [ds r].
  cbn [fst snd] in Ha, Hne, Happ. rewrite Happ.
  assert (Hds : Py.isdigit ds = true) by (unfold Py.isdigit; now rewrite Hne).
  assert (Hplain : number_text ds /\ exists post, ds ++ r = ds ++ post).
  { split; [|now exists r]. exists ds, "". split; [exact Hds|].
    split; [now left|]. simpl. now rewrite str_app_empty_r. }
  destruct r as [|d r']; [exact Hplain|].
  destruct (Ascii.eqb_spec d ".") as [->|Hne'].
  - pose proof (span_all Py.is_digit r') as Hf.
    pose proof (span_app Py.is_digit r') as Hfapp.
    destruct (Py.span Py.is_digit r') as [fs rest]. cbn [fst snd] in Hf, Hfapp.
    destruct (Py.nonempty fs) eqn:Hfs; [|exact Hplain]. split.
    + exists ds, fs. split; [exact Hds|]. split.
      * right. unfold Py.isdigit. now rewrite Hfs.
      * now rewrite Hfs.
    + exists rest. rewrite Hfapp. now rewrite !str_app_assoc.
  - destruct d as [[] [] [] [] [] [] [] []]; first [exact Hplain|congruence].
Qed.

(** The match of the numeric pattern: none iff the text has no digit;
    else a number text that starts at the first digit. *)
Lemma search_numeric_spec s :
  match search_numeric s with
  | Some m =>
      no_digit s = false /\ number_text m
      /\ exists pre post, s = pre ++ m ++ post /\ no_digit pre = true
  | None => no_digit s = true
  end.
Proof.
  induction s as [|c s IH]; [reflexivity|].
  cbn [search_numeric]. unfold no_digit in *. cbn [Py.all_chars].
  destruct (Py.is_digit c) eqn:Hc.
  - split; [reflexivity|].
    destruct (take_number_text c s Hc) as [Hn [post Hpost]].
    split; [exact Hn|]. exists "", post. split; [exact Hpost|reflexivity].
  - cbn [negb andb]. destruct (search_numeric s) as [m|]; [|exact IH].
    destruct IH as (Hd & Hn & pre & post & -> & Hpre).
    split; [exact Hd|]. split; [exact Hn|].
    exists (String c pre), post. split; [reflexivity|].
    cbn [Py.all_chars]. now rewrite Hc, Hpre.
Qed.

(** X16: under a rule that contains ["Pick the Numeric values"], a
    falsy value is returned as it is, and so is a truthy value whose
    text has no digit; a truthy value whose text has a digit gives the
    text of a number, digits or digits, a dot and digits, that stands
    in the text of the value after a part without digits. *)
Theorem pick_numeric_result rule v :
  Py.contains "Pick the Numeric values" rule = true ->
  (truthy v = false -> apply_transformation v rule = v)
  /\ (truthy v = true -> no_digit (py_str v) = true ->
      apply_transformation v rule = v)
  /\ (truthy v = true -> no_digit (py_str v) = false ->
      exists pre m post,
        apply_transformation v rule = VStr m
        /\ number_text m
        /\ py_str v = pre ++ m ++ post
        /\ no_digit pre = true).
Proof.
  intros Hrule.
  assert (H : apply_transformation v rule
              = if truthy v then
                  match search_numeric (py_str v) with
                  | Some m => VStr m
                  | None => v
                  end
                else v).
  { unfold apply_transformation.
    destruct (Py.nonempty rule) eqn:Hne; [|now destruct rule].
    destruct (String.eqb_spec rule "none") as [->|_]; [discriminate|].
    destruct (String.eqb_spec rule "to_number:float") as [->|_];
      [discriminate|].
    cbn [negb orb]. now rewrite Hrule. }
  rewrite H. clear H.
  pose proof (search_numeric_spec (py_str v)) as Hs.
  split; [now intros ->|]. split; intros ->.
  - intros Hd. destruct (search_numeric (py_str v)) as [m|]; [|reflexivity].
    destruct Hs as [Hd' _]. congruence.
  - intros Hd. destruct (search_numeric (py_str v)) as [m|]; [|congruence].
    destruct Hs as (_ & Hn & pre & post & Hv & Hpre).
    now exists pre, m, post.
Qed.

Lemma pick_numeric_result_witness :
  apply_transformation (VStr "12.5 oz") "Item Size: Pick the Numeric values"
  = VStr "12.5"
  /\ apply_transformation (VStr "oz") "Item Size: Pick the Numeric values"
     = VStr "oz".
Proof.
  destruct (pick_numeric_result "Item Size: Pick the Numeric values"
                                (VStr "oz") eq_refl) as (_ & H & _).
  split; [reflexivity|]. apply H; reflexivity.
Defined.

(** ** Further properties of the row projection *)

Lemma fill_blank_lookup (tpl : list string) (m : gmap string value) k :
  foldl (λ row header, <[header := VStr ""]> row) m tpl !! k
  = if bool_decide (k ∈ tpl) then Some (VStr "") else m !! k.
Proof.
  revert m. induction tpl as [|h tpl IH]; intros m; [reflexivity|].
  simpl. rewrite IH. case_bool_decide as Ht; case_bool_decide as Hht;
    try reflexivity.
  - exfalso. apply Hht. now constructor.
  - apply elem_of_cons in Hht as [->|Hin]; [|contradiction].
    apply lookup_insert_eq.
  - rewrite lookup_insert_ne; [reflexivity|].
    intros ->. apply Hht. constructor.
Qed.

Lemma blank_row_lookup tpl k :
  k ∈ tpl -> blank_row tpl !! k = Some (VStr "").
Proof.
  intros H. unfold blank_row. rewrite fill_blank_lookup.
  now rewrite bool_decide_true.
Qed.

Section OneRow.

Variables (input_row : gmap string value) (zone : string) (k : string).

Lemma apply_mapping_no_write (out : gmap string value) m :
  mapping_writes input_row k m = false ->
  apply_mapping input_row zone out m !! k = out !! k.
Proof.
  unfold mapping_writes, apply_mapping, targets_zone.
  destruct (String.eqb_spec (output_column_name m) k) as [Hk|Hk].
  - cbn [andb]. destruct (String.eqb (output_column_name m) AD_ZONE_ID);
      [discriminate|]. cbn [orb].
    destruct (negb _); [|reflexivity]. cbn [andb].
    destruct (input_row !! input_column_name m); [|reflexivity].
    rewrite bool_decide_true by eauto. discriminate.
  - intros _. destruct (String.eqb (output_column_name m) AD_ZONE_ID).
    + now rewrite lookup_insert_ne.
    + destruct (negb _); [|reflexivity].
      destruct (input_row !! input_column_name m); [|reflexivity].
      destruct (out !! output_column_name m); [|reflexivity].
      now rewrite lookup_insert_ne.
Qed.

Lemma apply_mapping_write (out : gmap string value) m :
  mapping_writes input_row k m = true ->
  targets_zone m = true \/ is_Some (out !! k) ->
  apply_mapping input_row zone out m !! k
  = Some (written_value input_row zone m).
Proof.
  unfold mapping_writes, apply_mapping, written_value, targets_zone.
  destruct (String.eqb_spec (output_column_name m) k) as [<-|]; [|discriminate].
  cbn [andb]. destruct (String.eqb (output_column_name m) AD_ZONE_ID).
  - intros _ _. apply lookup_insert_eq.
  - cbn [orb]. destruct (negb _); [|discriminate]. cbn [andb].
    destruct (input_row !! input_column_name m) as [v|] eqn:Hv;
      [|rewrite bool_decide_false; [discriminate|now intros []]].
    intros _ [H|[old Hold]]; [discriminate|]. rewrite Hold.
    apply lookup_insert_eq.
Qed.

Lemma fold_mappings_no_write maps (out : gmap string value) :
  Forall (λ m, mapping_writes input_row k m = false) maps ->
  foldl (apply_mapping input_row zone) out maps !! k = out !! k.
Proof.
  intros H. revert out. induction H as [|m maps Hm _ IH]; intros out;
    [reflexivity|].
  simpl. rewrite IH. now apply apply_mapping_no_write.
Qed.

Lemma fold_mappings_keeps_key maps (out : gmap string value) :
  is_Some (out !! k) ->
  is_Some (foldl (apply_mapping input_row zone) out maps !! k).
Proof.
  intros H. apply elem_of_dom. rewrite dom_fold_mappings.
  apply elem_of_dom in H. set_solver.
Qed.

Lemma fold_mappings_last_write pre m post (out : gmap string value) :
  mapping_writes input_row k m = true ->
  targets_zone m = true \/ is_Some (out !! k) ->
  Forall (λ m', mapping_writes input_row k m' = false) post ->
  foldl (apply_mapping input_row zone) out (pre ++ m :: post) !! k
  = Some (written_value input_row zone m).
Proof.
  intros Hm Hk Hpost. rewrite foldl_app. simpl.
  rewrite fold_mappings_no_write by exact Hpost.
  apply apply_mapping_write; [exact Hm|].
  destruct Hk as [Hz|Hs]; [now left|right].
  now apply fold_mappings_keeps_key.
Qed.

End OneRow.

(** X17: a schema column to which no mapping assigns for a row, because
    none targets it or because those that do name an input column the
    row lacks, keeps its default, the empty string. *)
Theorem unwritten_column_stays_blank tpl maps zone input_row k :
  k ∈ tpl ->
  Forall (λ m, mapping_writes input_row k m = false) maps ->
  project_row tpl maps zone input_row !! k = Some (VStr "").
Proof.
  intros Hk Hmaps. unfold project_row.
  rewrite fold_mappings_no_write by exact Hmaps.
  now apply blank_row_lookup.
Qed.

Lemma unwritten_column_stays_blank_witness :
  project_row ["Price"; "UPC"] price_mappings "" price_row !! "UPC"
  = Some (VStr "").
Proof.
  apply unwritten_column_stays_blank.
  - apply list_elem_of_In. simpl. tauto.
  - repeat constructor.
Defined.

(** X18: of the mappings that assign to a column for a row, the last
    one in the list decides the value of the column: later mappings
    overwrite earlier ones. *)
Theorem last_mapping_wins tpl pre m post zone input_row k :
  mapping_writes input_row k m = true ->
  targets_zone m = true \/ k ∈ tpl ->
  Forall (λ m', mapping_writes input_row k m' = false) post ->
  project_row tpl (pre ++ m :: post) zone input_row !! k
  = Some (written_value input_row zone m).
Proof.
  intros Hm Hk Hpost. unfold project_row.
  apply fold_mappings_last_write; [exact Hm| |exact Hpost].
  destruct Hk as [Hz|Hin]; [now left|right].
  rewrite blank_row_lookup by exact Hin. eauto.
Qed.

Lemma last_mapping_wins_witness :
  project_row ["Price"; "UPC"] price_mappings "" price_row !! "Price"
  = Some (VFloat (FFin false 950 (-2))).
Proof.
  apply (last_mapping_wins ["Price"; "UPC"]
           [mk_mapping "Cost" "Price" "none" VNone]
           (mk_mapping "Sale" "Price" "to_number:currency" VNone)
           [mk_mapping "Code" "UPC" "normalize_upc" VNone]
           "" price_row "Price").
  - reflexivity.
  - right. apply list_elem_of_In. simpl. tauto.
  - repeat constructor.
Defined.

Lemma fold_mappings_zone_kept input_row zone maps (out : gmap string value) :
  out !! AD_ZONE_ID = Some (VStr zone) ->
  foldl (apply_mapping input_row zone) out maps !! AD_ZONE_ID
  = Some (VStr zone).
Proof.
  revert out. induction maps as [|m maps IH]; intros out Hout; [exact Hout|].
  simpl. apply IH.
  destruct (mapping_writes input_row AD_ZONE_ID m) eqn:Hw.
  - rewrite (apply_mapping_write input_row zone AD_ZONE_ID out m Hw);
      [|right; eauto].
    unfold written_value. unfold mapping_writes in Hw.
    apply andb_prop in Hw as [Hk _]. unfold targets_zone. now rewrite Hk.
  - now rewrite apply_mapping_no_write.
Qed.

(** X19: when some mapping has the output column ["Ad Zone Id"], that
    column of every projected row holds the zone string, whatever input
    column or rule the mappings to it name and wherever they stand in
    the list. *)
Theorem zone_column_holds_zone tpl maps zone input_row :
  existsb targets_zone maps = true ->
  project_row tpl maps zone input_row !! AD_ZONE_ID = Some (VStr zone).
Proof.
  unfold project_row. generalize (blank_row tpl).
  induction maps as [|m maps IH]; intros out; [discriminate|].
  simpl. destruct (targets_zone m) eqn:Hz.
  - intros _. apply fold_mappings_zone_kept.
    unfold apply_mapping. unfold targets_zone in Hz. rewrite Hz.
    apply String.eqb_eq in Hz. rewrite Hz. apply lookup_insert_eq.
  - apply IH.
Qed.

Lemma zone_column_holds_zone_witness :
  project_row ["UPC"; "Ad Zone Id"]
              [mk_mapping "Code" "Ad Zone Id" "normalize_upc" VNone;
               mk_mapping "Code" "UPC" "none" VNone]
              "TPR All Stores" (<["Code" := VStr "123"]> ∅) !! AD_ZONE_ID
  = Some (VStr "TPR All Stores").
Proof. apply zone_column_holds_zone. reflexivity. Defined.


(** ** Further properties of the request handler *)

Lemma extract_cosentino_data_error sh e :
  extract_cosentino_data sh = inl e ->
  e = ValueError NO_HEADER_MESSAGE /\ find_awg_header_row sh = None.
Proof.
  unfold extract_cosentino_data.
  destruct (find_awg_header_row sh) as [h|] eqn:Hf.
  - apply find_awg_header_row_spec in Hf as (Hh & _).
    destruct h as [|h]; [lia|]. discriminate.
  - simpl. now intros [= <-].
Qed.

(** X20: with the configuration loaded and the upload read, a failed
    request is answered with status 400 only when the header row is
    missing, with the message of that error; every other failure, the
    missing mapping and the unsupported sheet included, is answered
    with status 500. *)
Theorem process_file_error_status idx rules tpl sh company_ name e :
  process_file idx rules tpl sh company_ name = inl e ->
  (e = HTTPException 400 NO_HEADER_MESSAGE
   /\ find_awg_header_row sh = None)
  \/ exists detail_, e = HTTPException 500 detail_.
Proof.
  unfold process_file.
  destruct (process_file_body idx rules tpl sh company_ name) as [e'|r] eqn:Hb;
    [|discriminate].
  destruct e' as [msg|st d|msg]; intros [= <-]; try (right; now eexists).
  left. unfold process_file_body in Hb.
  destruct (negb _); [discriminate|].
  destruct (get_mapping_sheet_by_company _ _ _) as [| | | |n|];
    try discriminate.
  destruct (Py.contains _ _); [|discriminate].
  destruct (extract_cosentino_data sh) as [e|ex] eqn:He; [|discriminate].
  injection Hb as ->.
  apply extract_cosentino_data_error in He as [[= ->] Hf]. now split.
Qed.

Lemma process_file_error_status_witness :
  process_file sample_index [] ["UPC"] region_sheet "Other" "deal"
  = inl (HTTPException 500
           "Error processing file: 400: Only Cosentino TPR files are currently supported")
  /\ ((HTTPException 500
         "Error processing file: 400: Only Cosentino TPR files are currently supported"
       = HTTPException 400 NO_HEADER_MESSAGE
       /\ find_awg_header_row region_sheet = None)
      \/ exists detail_,
           HTTPException 500
             "Error processing file: 400: Only Cosentino TPR files are currently supported"
           = HTTPException 500 detail_).
Proof.
  split; [reflexivity|].
  apply (process_file_error_status sample_index [] ["UPC"] region_sheet
                                   "Other" "deal").
  reflexivity.
Defined.

(** On the cells of a mapping with string fields, the loop body is
    that of [apply_mapping]. *)
Lemma apply_mapping_cells_strings input_row zone (out : gmap string value) m :
  apply_mapping_cells input_row zone out (row_mapping_of m)
  = apply_mapping input_row zone out m.
Proof.
  unfold apply_mapping_cells, apply_mapping, row_mapping_of.
  cbn [row_input_column_name row_output_column_name row_transformation_rule
       eq_str apply_transformation_cell].
  destruct (String.eqb_spec (output_column_name m) AD_ZONE_ID) as [->|_];
    reflexivity.
Qed.

Lemma map_data_to_output_cells_strings tpl rows maps zone :
  map_data_to_output_cells tpl rows (row_mapping_of <$> maps) zone
  = map_data_to_output tpl rows maps zone.
Proof.
  unfold map_data_to_output_cells, map_data_to_output.
  apply list_fmap_ext. intros _ input_row _.
  unfold project_row_cells, project_row. generalize (blank_row tpl).
  induction maps as [|m maps IH]; intros out; [reflexivity|].
  cbn [fmap list_fmap foldl]. rewrite apply_mapping_cells_strings. apply IH.
Qed.

(** The request on a workbook whose index is [idx] and whose mapping
    sheet holds the cells of [rules] is the request on [idx] and
    [rules]. *)
Lemma process_file_request_decoded previous wb idx rules tpl sh company_ name :
  load_mapping_rules previous wb = Some idx ->
  (forall n,
      get_mapping_sheet_by_company idx company_ "Deal Submissions" = VStr n ->
      load_column_mappings_cells wb n
      = inr (row_mapping_of <$> load_column_mappings rules (VStr n))) ->
  process_file_request previous wb tpl sh company_ name
  = process_file idx rules tpl sh company_ name.
Proof.
  intros Hidx Hload.
  unfold process_file_request, process_file, process_file_request_body,
    process_file_body.
  rewrite Hidx.
  destruct (get_mapping_sheet_by_company idx company_ "Deal Submissions")
    as [|b|z|f|n|d] eqn:Hn; cbn [truthy negb load_column_mappings_of];
    try reflexivity.
  destruct (Py.nonempty n); [|reflexivity]. cbn [negb].
  rewrite (Hload n eq_refl).
  destruct (Py.contains "cosentino" (Py.lower n)); [|reflexivity].
  destruct (extract_cosentino_data sh) as [e|ex]; [reflexivity|].
  now rewrite map_data_to_output_cells_strings.
Qed.

Lemma dom_apply_mapping_cells input_row zone (out : gmap string value) m :
  dom out ⊆ dom (apply_mapping_cells input_row zone out m).
Proof.
  unfold apply_mapping_cells.
  destruct (eq_str (row_output_column_name m) AD_ZONE_ID).
  - rewrite dom_insert_L. set_solver.
  - destruct (negb _); [|reflexivity].
    destruct (row_input_column_name m) as [| | | |i|]; try reflexivity.
    destruct (input_row !! i); [|reflexivity].
    destruct (row_output_column_name m) as [| | | |o|]; try reflexivity.
    destruct (out !! o); [|reflexivity].
    rewrite dom_insert_L. set_solver.
Qed.

Lemma project_row_cells_schema tpl maps zone input_row :
  list_to_set tpl ⊆ dom (project_row_cells tpl maps zone input_row).
Proof.
  unfold project_row_cells. rewrite <- dom_blank_row.
  generalize (blank_row tpl).
  induction maps as [|m maps IH]; intros out; [reflexivity|].
  cbn [foldl]. etrans; [|apply IH]. apply dom_apply_mapping_cells.
Qed.

(** X21: a request whose company resolves, in the index read from the
    mapping workbook, to a sheet name that contains ["cosentino"],
    whose column mappings are read without error, on a worksheet with
    a header row, succeeds: the result carries the template as its
    headers, the company, the deal header of the scan, and one output
    row per extracted row, each with every column of the template. *)
Theorem process_file_success previous wb tpl sh company_ name idx n ms h :
  load_mapping_rules previous wb = Some idx ->
  get_mapping_sheet_by_company idx company_ "Deal Submissions" = VStr n ->
  Py.contains "cosentino" (Py.lower n) = true ->
  load_column_mappings_cells wb n = inr ms ->
  find_awg_header_row sh = Some h ->
  exists res ex,
    process_file_request previous wb tpl sh company_ name = inr res
    /\ extract_cosentino_data sh = inr ex
    /\ output_headers res = tpl
    /\ result_company res = company_
    /\ deal_summary res = extract_deal_header sh name
    /\ length (standardized_data res) = length (data_rows ex)
    /\ Forall (λ row : gmap string value, list_to_set tpl ⊆ dom row)
              (standardized_data res).
Proof.
  intros Hidx Hn Hc Hms Hf.
  destruct (extract_cosentino_data_found sh h Hf) as (ex & k & Hex & _).
  assert (Ht : truthy (VStr n) = true).
  { simpl. rewrite <- lower_nonempty.
    now apply (contains_nonempty "cosentino"). }
  eexists. exists ex. split.
  { unfold process_file_request, process_file_request_body.
    rewrite Hidx, Hn, Ht. cbn [negb load_column_mappings_of].
    rewrite Hms, Hc, Hex. reflexivity. }
  split; [exact Hex|]. cbn [output_headers result_company deal_summary
                            standardized_data].
  repeat split.
  - unfold map_data_to_output_cells. now rewrite length_fmap.
  - apply Forall_forall. intros row Hrow.
    unfold map_data_to_output_cells in Hrow.
    apply list_elem_of_fmap in Hrow as (input_row & -> & _).
    apply project_row_cells_schema.
Qed.

Lemma process_file_success_witness :
  exists res,
    process_file_request None request_workbook ["UPC"; "Cost"] region_sheet
                         "Acme" "deal" = inr res
    /\ output_headers res = ["UPC"; "Cost"]
    /\ standardized_data res !! 0%nat
       = Some (<["UPC" := VStr "000000001001"]> (<["Cost" := VStr ""]> ∅)).
Proof.
  destruct (process_file_success None request_workbook ["UPC"; "Cost"]
                                 region_sheet "Acme" "deal" _ "cosentino_a" _ 5
                                 eq_refl eq_refl eq_refl eq_refl eq_refl)
    as (res & ex & Hres & _ & Hh & _).
  exists res. split; [exact Hres|]. split; [exact Hh|].
  injection Hres as <-. reflexivity.
Defined.

(** X29: a request whose company resolves to a mapping sheet with a
    single column and at least one row below the first fails before
    the upload is read: the read of the column mappings raises, and
    the request is answered with status 500. *)
Theorem request_fails_on_narrow_mapping_sheet
    previous wb tpl sh company_ name idx n mapping_sheet :
  load_mapping_rules previous wb = Some idx ->
  get_mapping_sheet_by_company idx company_ "Deal Submissions" = VStr n ->
  Py.nonempty n = true ->
  get_sheet wb n = Some mapping_sheet ->
  max_column mapping_sheet = 1 ->
  2 <= max_row mapping_sheet ->
  exists detail_,
    process_file_request previous wb tpl sh company_ name
    = inl (HTTPException 500 detail_).
Proof.
  intros Hidx Hn Hne Hs Hc Hr.
  assert (Hload : load_column_mappings_cells wb n = inl INDEX_ERROR).
  { unfold load_column_mappings_cells. rewrite Hs. unfold iter_rows.
    replace (S (max_row mapping_sheet) - 2)
      with (S (max_row mapping_sheet - 2)) by lia.
    cbn [seq fmap list_fmap load_rows snd].
    unfold row_values at 1. rewrite Hc. reflexivity. }
  unfold process_file_request, process_file_request_body.
  rewrite Hidx, Hn. cbn [truthy negb load_column_mappings_of].
  rewrite Hne. cbn [negb]. rewrite Hload. eexists. reflexivity.
Qed.

Lemma request_fails_on_narrow_mapping_sheet_witness :
  exists detail_,
    process_file_request None request_workbook ["UPC"] region_sheet
                         "Bolt" "deal"
    = inl (HTTPException 500 detail_).
Proof.
  eapply (request_fails_on_narrow_mapping_sheet
            None request_workbook ["UPC"] region_sheet "Bolt" "deal"
            _ "cosentino_b" [ [VStr "input_column_name"]; [VStr "Cost"] ]);
    reflexivity.
Defined.


Lemma load_rows_error rows e : load_rows rows = inl e -> e = INDEX_ERROR.
Proof.
  induction rows as [|row rows IH]; [discriminate|]. cbn [load_rows].
  destruct (row_mapping_of_row row) as [e'|found] eqn:Hr.
  - intros [= <-]. unfold row_mapping_of_row in Hr.
    destruct row as [|row0 row]; [now injection Hr as <-|].
    match type of Hr with
    | context [match ?o with Some _ => _ | None => _ end] =>
        destruct o as [row1|]; [|now injection Hr as <-]
    end.
    now destruct (truthy row0 || truthy row1).
  - destruct (load_rows rows) as [e'|ms]; [|discriminate].
    intros [= <-]. now apply IH.
Qed.

Lemma load_column_mappings_of_error wb name e :
  load_column_mappings_of wb name = inl e -> e = INDEX_ERROR.
Proof.
  destruct name as [| | | |n|]; try discriminate.
  cbn [load_column_mappings_of]. unfold load_column_mappings_cells.
  destruct (get_sheet wb n); [apply load_rows_error|discriminate].
Qed.

(** X30: a failed request, the mapping workbook being read inside the
    request, is answered with status 400 only when the header row is
    missing, with the message of that error; every other failure, the
    missing mapping, the mapping sheet that cannot be read and the
    unsupported sheet included, is answered with status 500. *)
Theorem process_file_request_error_status previous wb tpl sh company_ name e :
  process_file_request previous wb tpl sh company_ name = inl e ->
  (e = HTTPException 400 NO_HEADER_MESSAGE
   /\ find_awg_header_row sh = None)
  \/ exists detail_, e = HTTPException 500 detail_.
Proof.
  unfold process_file_request.
  destruct (process_file_request_body previous wb tpl sh company_ name)
    as [e'|r] eqn:Hb; [|discriminate].
  destruct e' as [msg|st d|msg]; intros [= <-]; try (right; now eexists).
  left. unfold process_file_request_body in Hb.
  destruct (load_mapping_rules previous wb); [|discriminate].
  destruct (negb _); [discriminate|].
  destruct (load_column_mappings_of wb _) as [e|ms] eqn:Hl.
  { apply load_column_mappings_of_error in Hl. subst e. discriminate. }
  destruct (get_mapping_sheet_by_company _ _ _) as [| | | |n|];
    try discriminate.
  destruct (Py.contains _ _); [|discriminate].
  destruct (extract_cosentino_data sh) as [e|ex] eqn:He; [|discriminate].
  injection Hb as ->.
  apply extract_cosentino_data_error in He as [[= ->] Hf]. now split.
Qed.

Lemma process_file_request_error_status_witness :
  process_file_request None request_workbook ["UPC"] region_sheet
                       "Bolt" "deal"
  = inl (HTTPException 500 "Error processing file: tuple index out of range")
  /\ ((HTTPException 500 "Error processing file: tuple index out of range"
       = HTTPException 400 NO_HEADER_MESSAGE
       /\ find_awg_header_row region_sheet = None)
      \/ exists detail_,
           HTTPException 500 "Error processing file: tuple index out of range"
           = HTTPException 500 detail_).
Proof.
  split; [reflexivity|].
  apply (process_file_request_error_status None request_workbook ["UPC"]
                                           region_sheet "Bolt" "deal").
  reflexivity.
Defined.


(** ** Properties of the CSV export *)

Lemma csv_fields_spec row headers :
  match csv_fields row headers with
  | inl e =>
      e = REPLACE_ERROR
      /\ exists header, header ∈ headers
                        /\ needs_quoting (cell_of row header) = true
  | inr fields =>
      fields = plain_field row <$> headers
      /\ forall header, header ∈ headers ->
                        needs_quoting (cell_of row header) = false
  end.
Proof.
  induction headers as [|h headers IH]; simpl.
  - split; [reflexivity|]. intros header Hin. now apply elem_of_nil in Hin.
  - unfold csv_field. fold (cell_of row h).
    destruct (needs_quoting (cell_of row h)) eqn:Hq.
    + split; [reflexivity|]. exists h. split; [constructor|exact Hq].
    + destruct (csv_fields row headers) as [e|fields].
      * destruct IH as (-> & header & Hin & Hh). split; [reflexivity|].
        exists header. split; [now constructor|exact Hh].
      * destruct IH as (-> & Hall). split; [reflexivity|].
        intros header [->|Hin]%elem_of_cons; [exact Hq|now apply Hall].
Qed.

Lemma csv_lines_spec headers rows acc :
  match csv_lines headers rows acc with
  | inl e =>
      e = REPLACE_ERROR
      /\ exists row header,
           row ∈ rows /\ header ∈ headers
           /\ needs_quoting (cell_of row header) = true
  | inr text =>
      (forall row header, row ∈ rows -> header ∈ headers ->
                          needs_quoting (cell_of row header) = false)
      /\ text
         = foldl (λ t row,
                    t ++ Py.join COMMA (plain_field row <$> headers)
                      ++ NEWLINE)
                 acc rows
  end.
Proof.
  revert acc. induction rows as [|row rows IH]; intros acc; simpl.
  - split; [|reflexivity]. intros row header Hin. now apply elem_of_nil in Hin.
  - pose proof (csv_fields_spec row headers) as Hrow.
    destruct (csv_fields row headers) as [e|fields].
    + destruct Hrow as (-> & header & Hin & Hq). split; [reflexivity|].
      exists row, header. split; [constructor|now split].
    + destruct Hrow as (-> & Hall).
      specialize (IH (acc ++ Py.join COMMA (plain_field row <$> headers)
                          ++ NEWLINE)).
      destruct (csv_lines headers rows _) as [e|text].
      * destruct IH as (-> & row' & header & Hin & Hh & Hq).
        split; [reflexivity|]. exists row', header.
        split; [now constructor|now split].
      * destruct IH as (Hrest & ->). split; [|reflexivity].
        intros row' header [->|Hin]%elem_of_cons Hh;
          [now apply Hall|now apply Hrest].
Qed.

(** X22: building the main CSV of the export fails iff some row holds
    under some header a truthy value whose text contains a comma or a
    double quote: the expression meant to quote such a value raises.
    The failure is answered with status 500 and a detail that starts
    with ["Error generating CSV: "]. *)
Theorem download_csv_fails_on_comma_or_quote headers rows :
  ((exists row header,
       row ∈ rows /\ header ∈ headers
       /\ needs_quoting (cell_of row header) = true)
   <-> exists e, download_csv headers rows = inl e)
  /\ forall e, download_csv headers rows = inl e ->
               exists reason,
                 e = HTTPException 500 ("Error generating CSV: " ++ reason).
Proof.
  unfold download_csv, csv_content.
  pose proof (csv_lines_spec headers rows (Py.join COMMA headers ++ NEWLINE))
    as H.
  destruct (csv_lines headers rows _) as [e|text].
  - destruct H as (-> & Hex). split.
    + split; [intros _; eexists; reflexivity|intros _; exact Hex].
    + intros e [= <-]. eexists. reflexivity.
  - destruct H as (Hall & _). split; [|discriminate].
    split; [|now intros [e He]].
    intros (row & header & Hr & Hh & Hq).
    rewrite (Hall row header Hr Hh) in Hq. discriminate.
Qed.

Lemma download_csv_fails_on_comma_or_quote_witness :
  exists e, download_csv ["Item"; "Cost"] [plain_row; comma_row] = inl e.
Proof.
  apply (proj1 (download_csv_fails_on_comma_or_quote
                  ["Item"; "Cost"] [plain_row; comma_row])).
  exists comma_row, "Item". split; [|split; [|reflexivity]].
  - apply list_elem_of_In. simpl. tauto.
  - apply list_elem_of_In. simpl. tauto.
Defined.

Lemma prefix_empty s : String.prefix "" s = true.
Proof. now destruct s. Qed.

Lemma contains_comma_free s :
  Py.contains COMMA s = false -> comma_free s = true.
Proof.
  unfold comma_free, COMMA. induction s as [|c s IH]; [reflexivity|].
  cbn [Py.contains String.prefix Py.all_chars].
  destruct (ascii_dec "," c) as [<-|Hne].
  - now rewrite prefix_empty.
  - cbn [orb]. intros H. rewrite IH by exact H.
    destruct (Ascii.eqb_spec c ","); [congruence|reflexivity].
Qed.

Lemma plain_field_free row header :
  needs_quoting (cell_of row header) = false ->
  comma_free (plain_field row header) = true
  /\ Py.contains DQUOTE (plain_field row header) = false.
Proof.
  unfold needs_quoting, plain_field.
  destruct (truthy (cell_of row header)); [|now split].
  cbn [andb]. intros [Hc Hq]%orb_false_elim.
  split; [now apply contains_comma_free|exact Hq].
Qed.

Lemma split_on_comma_free w :
  comma_free w = true -> Py.split_on "," w = [w].
Proof.
  unfold comma_free. induction w as [|c w IH]; [reflexivity|].
  cbn [Py.all_chars Py.split_on]. intros [Hc Hw]%andb_prop.
  apply negb_true_iff in Hc. rewrite Hc. now rewrite IH.
Qed.

Lemma split_on_comma_sep w rest :
  comma_free w = true ->
  Py.split_on "," (w ++ COMMA ++ rest) = w :: Py.split_on "," rest.
Proof.
  unfold comma_free. induction w as [|c w IH]; [reflexivity|].
  rewrite app_String. cbn [Py.all_chars Py.split_on].
  intros [Hc Hw]%andb_prop. apply negb_true_iff in Hc.
  rewrite Hc. now rewrite IH.
Qed.

Lemma split_on_join fields :
  Forall (λ f, comma_free f = true) fields ->
  fields ≠ [] ->
  Py.split_on "," (Py.join COMMA fields) = fields.
Proof.
  induction 1 as [|f fields Hf Hfs IH]; [congruence|]. intros _.
  destruct fields as [|g fields].
  - now apply split_on_comma_free.
  - rewrite join_cons, split_on_comma_sep by exact Hf.
    now rewrite IH.
Qed.

(** X23: the fields written for a row that raises no error are the
    texts of its truthy values and the empty text for the others, a
    missing value included; none contains a comma or a double quote, so
    that splitting the line at its commas gives the fields back.  With
    no header at all the line is empty and splits into one empty
    field. *)
Theorem csv_line_round_trip row headers fields :
  csv_fields row headers = inr fields ->
  fields = plain_field row <$> headers
  /\ Forall (λ f, comma_free f = true /\ Py.contains DQUOTE f = false) fields
  /\ Py.split_on "," (Py.join COMMA fields)
     = match headers with [] => [""] | _ => fields end.
Proof.
  intros Hf. pose proof (csv_fields_spec row headers) as H.
  rewrite Hf in H. destruct H as (-> & Hall).
  assert (Hfree : Forall (λ f, comma_free f = true
                               /\ Py.contains DQUOTE f = false)
                         (plain_field row <$> headers)).
  { apply Forall_fmap, Forall_forall. intros header Hin.
    now apply plain_field_free, Hall. }
  split; [reflexivity|]. split; [exact Hfree|].
  destruct headers as [|header headers]; [reflexivity|].
  apply split_on_join; [|discriminate].
  eapply Forall_impl; [exact Hfree|]. now intros f [Hc _].
Qed.

Lemma csv_line_round_trip_witness :
  csv_fields plain_row ["Item"; "Cost"; "Zone"] = inr ["Corn"; ""; ""]
  /\ Py.split_on "," (Py.join COMMA ["Corn"; ""; ""]) = ["Corn"; ""; ""].
Proof.
  split; [reflexivity|].
  apply (csv_line_round_trip plain_row ["Item"; "Cost"; "Zone"]).
  reflexivity.
Defined.

(** ** Properties of the configuration loaders *)

Lemma lower_char_idempotent c :
  Py.lower_char (Py.lower_char c) = Py.lower_char c.
Proof. destruct c as [[] [] [] [] [] [] [] []]; reflexivity. Qed.

Lemma lower_idempotent s : Py.lower (Py.lower s) = Py.lower s.
Proof.
  unfold Py.lower. induction s as [|c s IH]; [reflexivity|].
  simpl. now rewrite lower_char_idempotent, IH.
Qed.

Lemma index_entry_of_row_spec row e :
  index_entry_of_row row = Some e ->
  Py.nonempty (company e) = true
  /\ Py.lower (file_name_pattern e) = file_name_pattern e.
Proof.
  unfold index_entry_of_row. destruct row as [|row0 row]; [discriminate|].
  destruct (truthy row0) eqn:Ht; [|discriminate]. intros [= <-].
  cbn [company file_name_pattern].
  split; [now apply py_str_truthy|].
  match goal with
  | |- context [match ?o with Some _ => _ | None => _ end] =>
      destruct o as [row1|]; [|reflexivity]
  end.
  destruct (_ && truthy row1); [apply lower_idempotent|reflexivity].
Qed.

Lemma length_omap_le {A B} (f : A -> option B) (l : list A) :
  length (omap f l) <= length l.
Proof.
  induction l as [|x l IH]; [reflexivity|].
  change (omap f (x :: l))
    with (match f x with Some y => y :: omap f l | None => omap f l end).
  cbn [length]. destruct (f x); cbn [length]; lia.
Qed.

Lemma length_iter_rows sh m : length (iter_rows sh m) = S (max_row sh) - m.
Proof. unfold iter_rows. now rewrite length_fmap, length_seq. Qed.

(** X24: every entry read from the index sheet has a non-empty company
    and a file-name pattern in lower case; hence the empty company
    resolves to no mapping sheet, whatever the category.  There is at
    most one entry per row below the first. *)
Theorem loaded_index_entries previous wb index_sheet :
  get_sheet wb "file_mapping_index" = Some index_sheet ->
  exists idx,
    load_mapping_rules previous wb = Some idx
    /\ Forall (λ e, Py.nonempty (company e) = true
                    /\ Py.lower (file_name_pattern e) = file_name_pattern e)
              idx
    /\ (forall category_,
          get_mapping_sheet_by_company idx "" category_ = VNone)
    /\ length idx <= max_row index_sheet - 1.
Proof.
  intros Hs. unfold load_mapping_rules. rewrite Hs. eexists.
  split; [reflexivity|].
  assert (Hall : Forall (λ e, Py.nonempty (company e) = true
                              /\ Py.lower (file_name_pattern e)
                                 = file_name_pattern e)
                        (omap index_entry_of_row
                              (snd <$> iter_rows index_sheet 2))).
  { apply Forall_forall. intros e He.
    apply list_elem_of_omap in He as (row & _ & He).
    now apply (index_entry_of_row_spec row). }
  split; [exact Hall|]. split.
  - intros category_. apply resolve_none. intros e He.
    rewrite Forall_forall in Hall. destruct (Hall e He) as [Hne _].
    unfold entry_matches. destruct (company e); [discriminate|reflexivity].
  - etrans; [apply length_omap_le|].
    rewrite length_fmap, length_iter_rows. lia.
Qed.

Lemma loaded_index_entries_witness :
  exists idx,
    load_mapping_rules None sample_workbook = Some idx
    /\ company <$> idx = ["Zeta"; "Acme"; "Zeta"]
    /\ file_name_pattern <$> idx = ["zeta*.xlsx"; ""; ""]
    /\ get_mapping_sheet_by_company idx "" "Deal Submissions" = VNone.
Proof.
  destruct (loaded_index_entries None sample_workbook _ eq_refl)
    as (idx & Hidx & _ & Hnone & _).
  exists idx. split; [exact Hidx|].
  injection Hidx as <-. split; [reflexivity|]. split; [reflexivity|].
  apply Hnone.
Defined.

Lemma omap_fmap_ext {A B C} (f : A -> option B) (g : A -> option C)
    (h : B -> C) (l : list A) :
  (forall x, g x = h <$> f x) -> omap g l = h <$> omap f l.
Proof.
  intros E. induction l as [|x l IH]; [reflexivity|].
  simpl. rewrite E. destruct (f x); simpl; [f_equal|]; exact IH.
Qed.

Lemma company_names_index (index_sheet : sheet) :
  company_names index_sheet
  = company <$> omap index_entry_of_row (snd <$> iter_rows index_sheet 2).
Proof.
  unfold company_names. apply omap_fmap_ext.
  intros [|row0 row]; [reflexivity|]. unfold index_entry_of_row.
  now destruct (truthy row0).
Qed.

(** X25: the companies endpoint lists the companies of the entries that
    [load_mapping_rules] reads from the same workbook, each once, in
    increasing order. *)
Theorem companies_sorted_distinct wb index_sheet :
  get_sheet wb "file_mapping_index" = Some index_sheet ->
  exists names idx,
    get_companies wb = inr names
    /\ load_mapping_rules None wb = Some idx
    /\ StronglySorted String.le names
    /\ NoDup names
    /\ forall name, name ∈ names <-> exists e, e ∈ idx /\ company e = name.
Proof.
  intros Hs. unfold get_companies, load_mapping_rules. rewrite Hs.
  eexists. eexists. split; [reflexivity|]. split; [reflexivity|].
  split; [apply StronglySorted_merge_sort; apply _|].
  split.
  - rewrite merge_sort_Permutation. apply NoDup_remove_dups.
  - intros name. rewrite merge_sort_Permutation, elem_of_remove_dups.
    rewrite company_names_index, list_elem_of_fmap.
    split; intros (e & H1 & H2); exists e; now split.
Qed.

Lemma companies_sorted_distinct_witness :
  get_companies sample_workbook = inr ["Acme"; "Zeta"].
Proof.
  destruct (companies_sorted_distinct sample_workbook _ eq_refl)
    as (names & idx & Hn & _).
  rewrite Hn. injection Hn as <-. vm_compute. reflexivity.
Defined.

Lemma row_mapping_of_row_spec row m :
  row_mapping_of_row row = inr (Some m) ->
  truthy (row_input_column_name m) = true
  /\ truthy (row_transformation_rule m) = true
  /\ (truthy (row_output_column_name m) = true
      \/ row_output_column_name m = VStr "").
Proof.
  unfold row_mapping_of_row. destruct row as [|row0 row]; [discriminate|].
  match goal with
  | |- context [match ?o with Some _ => _ | None => _ end] =>
      destruct o as [row1|]; [|discriminate]
  end.
  destruct (truthy row0 || truthy row1) eqn:Hor; [|discriminate].
  intros [= <-].
  cbn [row_input_column_name row_transformation_rule row_output_column_name].
  split; [|split].
  - destruct (truthy row0) eqn:H0; [exact H0|reflexivity].
  - match goal with
    | |- context [match ?o with Some _ => _ | None => _ end] =>
        destruct o as [row2|]; [|reflexivity]
    end.
    destruct (_ && truthy row2) eqn:H2; [|reflexivity].
    now apply andb_prop in H2.
  - destruct (truthy row1) eqn:H1; [now left|now right].
Qed.

Lemma load_rows_spec rows ms :
  load_rows rows = inr ms ->
  Forall (λ m, exists row, row ∈ rows /\ row_mapping_of_row row = inr (Some m))
         ms
  /\ length ms <= length rows.
Proof.
  revert ms. induction rows as [|row rows IH]; intros ms; simpl.
  - intros [= <-]. split; [apply List.Forall_nil|reflexivity].
  - destruct (row_mapping_of_row row) as [e|found] eqn:Hr; [discriminate|].
    destruct (load_rows rows) as [e|rest]; [discriminate|].
    destruct (IH rest eq_refl) as [Hall Hlen].
    assert (Hall' : Forall (λ m, exists row', row' ∈ row :: rows
                                 /\ row_mapping_of_row row' = inr (Some m))
                           rest).
    { eapply Forall_impl; [exact Hall|].
      intros m (row' & Hin & Hm). exists row'. split; [now constructor|exact Hm]. }
    intros [= <-]. destruct found as [m|].
    + split; [|cbn [length]; lia]. apply List.Forall_cons; [|exact Hall'].
      exists row. split; [constructor|exact Hr].
    + split; [exact Hall'|cbn [length]; lia].
Qed.

(** X26: every column mapping read from the cells of a mapping sheet
    has a non-empty input name (["N/A"] standing for an empty cell), a
    non-empty rule (["none"] standing for an empty cell) and an output
    name that is non-empty or the empty string; there is at most one
    mapping per row below the first, and a workbook without the sheet
    gives no mapping. *)
Theorem loaded_mappings_have_defaults wb name ms :
  load_column_mappings_cells wb name = inr ms ->
  Forall (λ m, truthy (row_input_column_name m) = true
               /\ truthy (row_transformation_rule m) = true
               /\ (truthy (row_output_column_name m) = true
                   \/ row_output_column_name m = VStr ""))
         ms
  /\ match get_sheet wb name with
     | Some mapping_sheet => length ms <= max_row mapping_sheet - 1
     | None => ms = []
     end.
Proof.
  unfold load_column_mappings_cells.
  destruct (get_sheet wb name) as [mapping_sheet|]; [|intros [= <-]; now split].
  intros H. apply load_rows_spec in H as [Hall Hlen]. split.
  - eapply Forall_impl; [exact Hall|].
    intros m (row & _ & Hm). now apply (row_mapping_of_row_spec row).
  - rewrite length_fmap, length_iter_rows in Hlen. lia.
Qed.

Lemma loaded_mappings_have_defaults_witness :
  load_column_mappings_cells sample_workbook "cosentino_a"
  = inr [ mk_row_mapping (VStr "AWG Item Code") (VStr "Item Code")
                         (VStr "none") VNone;
          mk_row_mapping (VStr "N/A") (VStr "Ad Zone Id")
                         (VStr "literal:x") VNone ]
  /\ load_column_mappings_cells sample_workbook "missing" = inr []
  /\ Forall (λ m, truthy (row_input_column_name m) = true
                  /\ truthy (row_transformation_rule m) = true
                  /\ (truthy (row_output_column_name m) = true
                      \/ row_output_column_name m = VStr ""))
            [ mk_row_mapping (VStr "AWG Item Code") (VStr "Item Code")
                             (VStr "none") VNone;
              mk_row_mapping (VStr "N/A") (VStr "Ad Zone Id")
                             (VStr "literal:x") VNone ].
Proof.
  split; [reflexivity|]. split; [reflexivity|].
  apply (loaded_mappings_have_defaults sample_workbook "cosentino_a").
  reflexivity.
Defined.

(** X27: a mapping sheet with a single column and at least one row
    below the first cannot be read: the second cell of the row is
    asked for and the read raises. *)
Theorem narrow_mapping_sheet_raises wb name mapping_sheet :
  get_sheet wb name = Some mapping_sheet ->
  max_column mapping_sheet = 1 ->
  2 <= max_row mapping_sheet ->
  load_column_mappings_cells wb name = inl INDEX_ERROR.
Proof.
  intros Hs Hc Hr. unfold load_column_mappings_cells. rewrite Hs.
  unfold iter_rows.
  replace (S (max_row mapping_sheet) - 2)
    with (S (max_row mapping_sheet - 2)) by lia.
  cbn [seq fmap list_fmap load_rows snd].
  unfold row_values at 1. rewrite Hc. reflexivity.
Qed.

Lemma narrow_mapping_sheet_raises_witness :
  load_column_mappings_cells sample_workbook "narrow" = inl INDEX_ERROR.
Proof.
  apply (narrow_mapping_sheet_raises
           sample_workbook "narrow"
           [ [VStr "input_column_name"]; [VStr "Cost"] ]);
    reflexivity.
Defined.

(** ** The figures of the summary *)

(** X28: the counts of direct and of derived mappings that the summary
    prints add up to the number of mappings, and the count of
    transformations does not exceed it. *)
Theorem summary_counts_partition mappings :
  direct_mappings mappings + derived_mappings mappings = length mappings
  /\ transformations_applied mappings <= length mappings.
Proof.
  unfold direct_mappings, derived_mappings, transformations_applied.
  split.
  - induction mappings as [|m mappings IH]; [reflexivity|]. simpl.
    destruct (String.eqb (input_column_name m) "N/A"); simpl; lia.
  - induction mappings as [|m mappings IH]; [reflexivity|]. simpl.
    destruct (_ && _); simpl; lia.
Qed.
